(** * FusionImg: undo/redo history store, canvas geometry and gestures

    A shallow embedding of the pure core of the canvas editor:
    - [History]: the [useHistory] hook (history list + index, commit and
      transient updates, undo, redo);
    - [Geometry]: [utils/geometry.ts] (rotation, bounding boxes, overlap);
    - [CanvasUtils]: [convertDrawingToImageItem] of [utils/canvasUtils.ts];
    - [Canvas]: hit-testing, the resize gesture and the marquee release of
      the [Canvas] component.

    JavaScript numbers are idealised as real numbers ([R]): [Math.cos],
    [Math.sin] and [Math.PI] are the real functions and constant, and
    rounding, NaN and infinities are outside the model.  Where the source
    divides by a quantity that can be zero the model says so next to the
    definition. *)

From Stdlib Require Import Reals Lra Lia.
From Stdlib Require Import DecimalString.
From stdpp Require Import base list strings.

(** ** The history store ([useHistory]) *)

Module History.

Section UseHistory.

(** The hook is generic in the state type [T]; the no-op guard compares
    [JSON.stringify] images, so the serialiser is a parameter. *)
Context {T : Type}.
Variable stringify : T -> string.

(** The single state object of the hook: [{ history, index }]. *)
Record HistoryState : Type := mkHistoryState {
  history : list T;
  index : nat
}.

(** [action: T | ((prevState: T) => T)]. *)
Inductive Action : Type :=
| Value (v : T)
| Updater (f : T -> T).

(** [typeof action === 'function' ? action(current) : action]. *)
Definition applyAction (action : Action) (currentHistoryState : T) : T :=
  match action with
  | Value v => v
  | Updater f => f currentHistoryState
  end.

(** [options?: { commit?: boolean }], with [options?.commit ?? true]. *)
Definition Options : Type := option bool.

Definition commitOf (options : Options) : bool :=
  match options with
  | Some c => c
  | None => true
  end.

(** What one call does: the next state object and whether
    [onStateChange] was fired. *)
Record Outcome : Type := mkOutcome {
  next : HistoryState;
  notified : bool
}.

Definition unchanged (currentState : HistoryState) : Outcome :=
  {| next := currentState; notified := false |}.

Definition changed (newState : HistoryState) : Outcome :=
  {| next := newState; notified := true |}.

(** [index] stays inside the list; [history[index]] is then a value of
    type [T].  All operations preserve this (lemmas [wf_setState],
    [wf_undo], [wf_redo]). *)
Definition wf (s : HistoryState) : Prop := index s < length (history s).

(** The updater passed to [setStateInternal] by [setState].  The branch
    [None] stands for [history[index] === undefined]; it is not
    reachable from a well-formed state and is modelled as no update. *)
Definition setState (action : Action) (options : Options)
           (currentState : HistoryState) : Outcome :=
  let commit := commitOf options in
  match history currentState !! index currentState with
  | None => unchanged currentState
  | Some currentHistoryState =>
      let newState := applyAction action currentHistoryState in
      if String.eqb (stringify newState) (stringify currentHistoryState)
      then unchanged currentState
      else if commit then
        let newHistory :=
          take (index currentState + 1) (history currentState) ++ [newState] in
        changed {| history := newHistory; index := length newHistory - 1 |}
      else
        let newHistory := <[index currentState := newState]> (history currentState) in
        changed {| history := newHistory; index := index currentState |}
  end.

Definition undo (currentState : HistoryState) : Outcome :=
  if 0 <? index currentState then
    let newIndex := index currentState - 1 in
    changed {| history := history currentState; index := newIndex |}
  else unchanged currentState.

(** [history.length - 1] is [-1] on an empty list in the source and [0]
    here; [index < ...] is false in both readings. *)
Definition redo (currentState : HistoryState) : Outcome :=
  if index currentState <? length (history currentState) - 1 then
    let newIndex := index currentState + 1 in
    changed {| history := history currentState; index := newIndex |}
  else unchanged currentState.

(** The values returned by the hook. *)
Definition state (s : HistoryState) : option T := history s !! index s.
Definition canUndo (s : HistoryState) : bool := 0 <? index s.
Definition canRedo (s : HistoryState) : bool := index s <? length (history s) - 1.

(** [useState({ history: [initialState], index: 0 })]. *)
Definition initial (initialState : T) : HistoryState :=
  {| history := [initialState]; index := 0 |}.

(** Calls made on the hook, and their effect in sequence. *)
Inductive Op : Type :=
| OpSetState (action : Action) (options : Options)
| OpUndo
| OpRedo.

Definition step (s : HistoryState) (op : Op) : HistoryState :=
  match op with
  | OpSetState action options => next (setState action options s)
  | OpUndo => next (undo s)
  | OpRedo => next (redo s)
  end.

Definition run (ops : list Op) (s : HistoryState) : HistoryState :=
  fold_left step ops s.




End UseHistory.

Arguments HistoryState : clear implicits.
Arguments Action : clear implicits.
Arguments Outcome : clear implicits.
Arguments Op : clear implicits.

(** [JSON.stringify] on natural numbers: the decimal numeral. *)
Definition stringifyNat (n : nat) : string :=
  NilEmpty.string_of_uint (Nat.to_uint n).

(** A plain object with number fields, [{ x: 1, y: 2 }]: its own keys in
    insertion order (the keys are identifiers, so that is the order in
    which they are enumerated), no key twice. *)
Definition JsObject : Type := list (string * nat).

(** The double-quote character, code 34. *)
Definition quote : string := String (Ascii.ascii_of_nat 34) EmptyString.

(** [JSON.stringify] on such an object: the fields in key order, as in
    [{"x":1,"y":2}]. *)
Definition stringifyField (field : string * nat) : string :=
  quote +:+ fst field +:+ quote +:+ ":" +:+ stringifyNat (snd field).

Definition stringifyObject (o : JsObject) : string :=
  "{" +:+ String.concat "," (map stringifyField o) +:+ "}".

(** [o[key]]. *)
Fixpoint fieldOf (key : string) (o : JsObject) : option nat :=
  match o with
  | [] => None
  | (k, v) :: rest => if String.eqb k key then Some v else fieldOf key rest
  end.

(** Structural (deep) equality of two such objects, the comparison the
    guard is described by: as many fields, and every field of the one is
    a field of the other with the same value, whatever the key order. *)
Definition structurallyEqual (a b : JsObject) : bool :=
  (length a =? length b) &&
  forallb (fun field =>
             match fieldOf (fst field) b with
             | Some v => v =? snd field
             | None => false
             end)
          a.

End History.

(** ** Numbers *)

Module Num.

Local Open Scope R_scope.

(** The comparisons [a < b] and [a <= b] as values ([a > b] is
    [Rltb b a], [a >= b] is [Rleb b a]). *)
Definition Rltb (a b : R) : bool := if Rlt_dec a b then true else false.
Definition Rleb (a b : R) : bool := if Rle_dec a b then true else false.

(** [Math.min(...(x :: xs))] and [Math.max(...(x :: xs))].  Every call
    site of the modelled code spreads a non-empty array (an empty spread
    would give an infinity). *)
Definition Math_min (x : R) (xs : list R) : R := fold_left Rmin xs x.
Definition Math_max (x : R) (xs : list R) : R := fold_left Rmax xs x.

End Num.

(** ** The item model ([types.ts]) *)

Module Point.
Record t : Type := mk { x : R; y : R }.
End Point.

(** [{ x, y, width, height }]: bounding boxes and [SelectionRect]. *)
Module Box.
Record t : Type := mk { x : R; y : R; width : R; height : R }.
End Box.

Module ImageItem.
Record t : Type := mk {
  id : string;
  x : R;
  y : R;
  rotation : R;
  width : R;
  height : R;
  src : string;
  thumbnailSrc : option string;
  mimeType : string;
  prompt : string
}.
End ImageItem.

Module VideoItem.
Record t : Type := mk {
  id : string;
  x : R;
  y : R;
  rotation : R;
  width : R;
  height : R;
  src : string;
  mimeType : string;
  prompt : string
}.
End VideoItem.

Module TextItem.
Record t : Type := mk {
  id : string;
  x : R;
  y : R;
  rotation : R;
  width : R;
  height : R;
  text : string;
  color : string;
  fontSize : R
}.
End TextItem.

Module DrawingItem.
Record t : Type := mk {
  id : string;
  points : list Point.t;
  color : string;
  strokeWidth : R;
  opacity : R;
  rotation : R
}.
End DrawingItem.

(** [CanvasItem = ImageItem | TextItem | DrawingItem | VideoItem], the tag
    [type] being the constructor. *)
Inductive CanvasItem : Type :=
| Image (i : ImageItem.t)
| Text (t : TextItem.t)
| Drawing (d : DrawingItem.t)
| Video (v : VideoItem.t).

Definition itemId (item : CanvasItem) : string :=
  match item with
  | Image i => ImageItem.id i
  | Text t => TextItem.id t
  | Drawing d => DrawingItem.id d
  | Video v => VideoItem.id v
  end.

Definition itemRotation (item : CanvasItem) : R :=
  match item with
  | Image i => ImageItem.rotation i
  | Text t => TextItem.rotation t
  | Drawing d => DrawingItem.rotation d
  | Video v => VideoItem.rotation v
  end.

(** ** [utils/geometry.ts] *)

Module Geometry.

Import Num.
Local Open Scope R_scope.

Definition rotatePoint (point center : Point.t) (angleDegrees : R) : Point.t :=
  let angleRadians := (angleDegrees * PI) / 180 in
  let cos := cos angleRadians in
  let sin := sin angleRadians in
  let dx := Point.x point - Point.x center in
  let dy := Point.y point - Point.y center in
  let newX := dx * cos - dy * sin + Point.x center in
  let newY := dx * sin + dy * cos + Point.y center in
  {| Point.x := newX; Point.y := newY |}.

Definition getBoundingBox (item : CanvasItem) : Box.t :=
  match item with
  | Drawing d =>
      match DrawingItem.points d with
      | [] => {| Box.x := 0; Box.y := 0; Box.width := 0; Box.height := 0 |}
      | p :: ps =>
          let xs := map Point.x ps in
          let ys := map Point.y ps in
          let padding := DrawingItem.strokeWidth d / 2 in
          let minX := Math_min (Point.x p) xs - padding in
          let minY := Math_min (Point.y p) ys - padding in
          let maxX := Math_max (Point.x p) xs + padding in
          let maxY := Math_max (Point.y p) ys + padding in
          let width := Rmax (DrawingItem.strokeWidth d) (maxX - minX) in
          let height := Rmax (DrawingItem.strokeWidth d) (maxY - minY) in
          {| Box.x := minX; Box.y := minY; Box.width := width; Box.height := height |}
      end
  | Image i =>
      {| Box.x := ImageItem.x i; Box.y := ImageItem.y i;
         Box.width := ImageItem.width i; Box.height := ImageItem.height i |}
  | Video v =>
      {| Box.x := VideoItem.x v; Box.y := VideoItem.y v;
         Box.width := VideoItem.width v; Box.height := VideoItem.height v |}
  | Text t =>
      {| Box.x := TextItem.x t; Box.y := TextItem.y t;
         Box.width := TextItem.width t; Box.height := TextItem.height t |}
  end.

Definition getCenter (box : Box.t) : Point.t :=
  {| Point.x := Box.x box + Box.width box / 2;
     Point.y := Box.y box + Box.height box / 2 |}.

Definition getRotatedBoundingBox (item : CanvasItem) : Box.t :=
  let box := getBoundingBox item in
  let center := getCenter box in
  let c1 := {| Point.x := Box.x box; Point.y := Box.y box |} in
  let c2 := {| Point.x := Box.x box + Box.width box; Point.y := Box.y box |} in
  let c3 := {| Point.x := Box.x box; Point.y := Box.y box + Box.height box |} in
  let c4 := {| Point.x := Box.x box + Box.width box;
               Point.y := Box.y box + Box.height box |} in
  let rotate := fun corner => rotatePoint corner center (itemRotation item) in
  let r1 := rotate c1 in
  let rs := map rotate [c2; c3; c4] in
  let minX := Math_min (Point.x r1) (map Point.x rs) in
  let minY := Math_min (Point.y r1) (map Point.y rs) in
  let maxX := Math_max (Point.x r1) (map Point.x rs) in
  let maxY := Math_max (Point.y r1) (map Point.y rs) in
  {| Box.x := minX; Box.y := minY; Box.width := maxX - minX; Box.height := maxY - minY |}.

Definition isPointInBox (point : Point.t) (box : Box.t) : bool :=
  Rleb (Box.x box) (Point.x point) &&
  Rleb (Point.x point) (Box.x box + Box.width box) &&
  Rleb (Box.y box) (Point.y point) &&
  Rleb (Point.y point) (Box.y box + Box.height box).

Definition isItemInSelection (item : CanvasItem) (rect : Box.t) : bool :=
  let itemBox := getRotatedBoundingBox item in
  Rltb (Box.x itemBox) (Box.x rect + Box.width rect) &&
  Rltb (Box.x rect) (Box.x itemBox + Box.width itemBox) &&
  Rltb (Box.y itemBox) (Box.y rect + Box.height rect) &&
  Rltb (Box.y rect) (Box.y itemBox + Box.height itemBox).

Definition getCenterOfSelection (rect : Box.t) : Point.t :=
  {| Point.x := Box.x rect + Box.width rect / 2;
     Point.y := Box.y rect + Box.height rect / 2 |}.

End Geometry.

(** ** [convertDrawingToImageItem] ([utils/canvasUtils.ts]) *)

Module CanvasUtils.

Import Num Geometry.
Local Open Scope R_scope.

Section Dom.

(** The browser side of the conversion: whether
    [canvas.getContext('2d')] yields a context for a canvas of the
    given width and height, and the data URL [canvas.toDataURL] gives
    after the drawing is stroked along the translated points. *)
Variable getContext2d : R -> R -> bool.
Variable toDataURL : DrawingItem.t -> list Point.t -> string.

(** The value the returned promise resolves with ([None] is [null]). *)
Definition convertDrawingToImageItem (drawing : DrawingItem.t)
  : option ImageItem.t :=
  let box := getBoundingBox (Drawing drawing) in
  if Rleb (Box.width box) 0 || Rleb (Box.height box) 0 then None
  else
    let PADDING := DrawingItem.strokeWidth drawing * 2 in
    let canvasWidth := Box.width box + PADDING * 2 in
    let canvasHeight := Box.height box + PADDING * 2 in
    if negb (getContext2d canvasWidth canvasHeight) then None
    else
      let path :=
        map (fun p => {| Point.x := Point.x p - Box.x box + PADDING;
                         Point.y := Point.y p - Box.y box + PADDING |})
            (DrawingItem.points drawing) in
      let dataUrl := toDataURL drawing path in
      Some {| ImageItem.id := "drawing_img_" +:+ DrawingItem.id drawing;
              ImageItem.x := Box.x box;
              ImageItem.y := Box.y box;
              ImageItem.rotation := 0;
              ImageItem.width := Box.width box;
              ImageItem.height := Box.height box;
              ImageItem.src := dataUrl;
              ImageItem.thumbnailSrc := None;
              ImageItem.mimeType := "image/png";
              ImageItem.prompt := "a user-made drawing" |}.

End Dom.

End CanvasUtils.

(** ** The [Canvas] component: hit-testing, resize, marquee release *)

Module Canvas.

Import Num Geometry.
Local Open Scope R_scope.

(** [type Handle = 'n' | 's' | 'e' | 'w' | 'nw' | 'ne' | 'sw' | 'se' | 'rotate']. *)
Inductive Handle : Type :=
| H_n | H_s | H_e | H_w | H_nw | H_ne | H_sw | H_se | H_rotate.

Definition handleName (handle : Handle) : string :=
  match handle with
  | H_n => "n" | H_s => "s" | H_e => "e" | H_w => "w"
  | H_nw => "nw" | H_ne => "ne" | H_sw => "sw" | H_se => "se"
  | H_rotate => "rotate"
  end.

(** [handle.includes(part)]: substring search on the handle's name. *)
Definition includes (handle : Handle) (part : string) : bool :=
  match String.index 0 part (handleName handle) with
  | Some _ => true
  | None => false
  end.

Inductive InteractionMode : Type :=
| ModeNone | Moving | Selecting | DrawingMode | Resizing | Rotating
| Panning | MagicFill | Expanding.

(** The untyped [originalItemState], one constructor per shape stored in
    it by the handlers. *)
Inductive OriginalItemState : Type :=
| OrigNull
| OrigMoved (item : CanvasItem)
| OrigRotated (center : Point.t) (initialRotation : R)
| OrigResized (item : CanvasItem) (box : Box.t) (center oppositeCorner : Point.t)
| OrigExpanded (box : Box.t).

(** The props read by the modelled handlers, with the two pieces of the
    component's environment they read and never write: the client
    rectangle of the canvas element and the space-bar flag. *)
Record Props : Type := mkProps {
  items : list CanvasItem;
  ghostedItemIds : list string;
  zoom : R;
  pan : Point.t;
  expansionIsActive : bool;
  expansionTargetItem : option ImageItem.t;
  (** [canvasRef.current?.getBoundingClientRect()]: its [left] and [top]. *)
  canvasRect : option Point.t;
  isSpacePanning : bool
}.

(** The component state the gestures thread from event to event. *)
Record Gesture : Type := mkGesture {
  interactionMode : InteractionMode;
  startPoint : option Point.t;
  currentItem : option CanvasItem;
  currentDrawing : option DrawingItem.t;
  activeHandle : option Handle;
  originalItemState : OriginalItemState;
  transientSelectionRect : option Box.t;
  expansionGhostRect : option Box.t;
  singlySelectedItemId : option string;
  gestureDidCommit : bool
}.

Record MouseEvent : Type := mkMouseEvent {
  clientX : R;
  clientY : R;
  shiftKey : bool;
  button : nat
}.

(** Calls made on the callbacks passed as props. *)
Inductive Callback : Type :=
| SetItems (updater : list CanvasItem -> list CanvasItem) (commit : bool)
| OnSelectionChange (rect : option Box.t) (selected : list CanvasItem)
| OnExpansionAreaDefined (rect : Box.t) (handle : Handle)
| OnInteractionEnd.

(** [zoom] is a positive scale factor in the application; the division
    is the real one. *)
Definition getCanvasPoint (props : Props) (e : MouseEvent) : Point.t :=
  match canvasRect props with
  | None => {| Point.x := 0; Point.y := 0 |}
  | Some canvasRect =>
      let screenX := clientX e - Point.x canvasRect in
      let screenY := clientY e - Point.y canvasRect in
      {| Point.x := (screenX - Point.x (pan props)) / zoom props;
         Point.y := (screenY - Point.y (pan props)) / zoom props |}
  end.

(** The test made on each visited item by [findItemAtPoint]. *)
Definition hitsItem (point : Point.t) (item : CanvasItem) : bool :=
  let box := getBoundingBox item in
  let center := getCenter box in
  let rotatedPoint := rotatePoint point center (- itemRotation item) in
  Rleb (Box.x box) (Point.x rotatedPoint) &&
  Rleb (Point.x rotatedPoint) (Box.x box + Box.width box) &&
  Rleb (Box.y box) (Point.y rotatedPoint) &&
  Rleb (Point.y rotatedPoint) (Box.y box + Box.height box).

(** The loop [for (let i = items.length - 1; i >= 0; i--)]; [n] is
    [i + 1], so the loop is left when [n] reaches [0]. *)
Fixpoint findItemAtPoint_from (items : list CanvasItem) (ghostedItemIds : list string)
         (point : Point.t) (n : nat) : option CanvasItem :=
  match n with
  | O => None
  | S i =>
      match items !! i with
      | None => None
      | Some item =>
          if bool_decide (itemId item ∈ ghostedItemIds)
          then findItemAtPoint_from items ghostedItemIds point i
          else if hitsItem point item then Some item
          else findItemAtPoint_from items ghostedItemIds point i
      end
  end.

Definition findItemAtPoint (props : Props) (point : Point.t) : option CanvasItem :=
  findItemAtPoint_from (items props) (ghostedItemIds props) point (length (items props)).

(** [handleInteractionStart(e, handle, itemOrBox)]; [itemOrBox] is an
    item when it has an [id].  With expansion active and no target item
    the source dereferences [null]; the model leaves the gesture as it is
    at that point. *)
Definition handleInteractionStart (props : Props) (g : Gesture) (e : MouseEvent)
           (handle : Handle) (itemOrBox : CanvasItem + Box.t) : Gesture :=
  let g :=
    {| interactionMode := interactionMode g;
       startPoint := Some {| Point.x := clientX e; Point.y := clientY e |};
       currentItem := currentItem g;
       currentDrawing := currentDrawing g;
       activeHandle := Some handle;
       originalItemState := originalItemState g;
       transientSelectionRect := transientSelectionRect g;
       expansionGhostRect := expansionGhostRect g;
       singlySelectedItemId := singlySelectedItemId g;
       gestureDidCommit := false |} in
  let item := match itemOrBox with inl item => Some item | inr _ => None end in
  if expansionIsActive props then
    match expansionTargetItem props with
    | None => g
    | Some target =>
        let box := getRotatedBoundingBox (Image target) in
        {| interactionMode := Expanding;
           startPoint := startPoint g;
           currentItem := currentItem g;
           currentDrawing := currentDrawing g;
           activeHandle := activeHandle g;
           originalItemState := OrigExpanded box;
           transientSelectionRect := transientSelectionRect g;
           expansionGhostRect := Some box;
           singlySelectedItemId := singlySelectedItemId g;
           gestureDidCommit := gestureDidCommit g |}
    end
  else
    match item with
    | None => g
    | Some item =>
        let box := getBoundingBox item in
        let center := getCenter box in
        match handle with
        | H_rotate =>
            {| interactionMode := Rotating;
               startPoint := startPoint g;
               currentItem := Some item;
               currentDrawing := currentDrawing g;
               activeHandle := activeHandle g;
               originalItemState :=
                 OrigRotated
                   {| Point.x := Point.x center * zoom props + Point.x (pan props);
                      Point.y := Point.y center * zoom props + Point.y (pan props) |}
                   (itemRotation item);
               transientSelectionRect := transientSelectionRect g;
               expansionGhostRect := expansionGhostRect g;
               singlySelectedItemId := singlySelectedItemId g;
               gestureDidCommit := gestureDidCommit g |}
        | _ =>
            {| interactionMode := Resizing;
               startPoint := startPoint g;
               currentItem := Some item;
               currentDrawing := currentDrawing g;
               activeHandle := activeHandle g;
               originalItemState :=
                 OrigResized item box center
                   (rotatePoint
                      {| Point.x := Box.x box + (if includes handle "e" then 0 else Box.width box);
                         Point.y := Box.y box + (if includes handle "s" then 0 else Box.height box) |}
                      center (itemRotation item));
               transientSelectionRect := transientSelectionRect g;
               expansionGhostRect := expansionGhostRect g;
               singlySelectedItemId := singlySelectedItemId g;
               gestureDidCommit := gestureDidCommit g |}
        end
    end.

(** [origItem.type === 'image' || origItem.type === 'video']. *)
Definition isImageOrVideo (item : CanvasItem) : bool :=
  match item with
  | Image _ | Video _ => true
  | Text _ | Drawing _ => false
  end.

(** [newWidth / newHeight > aspectRatio] for the non-negative [newWidth]
    and [newHeight] of a resize step and a finite [aspectRatio]: when
    [newHeight] is [0] the source's quotient is [+Infinity] for a positive
    [newWidth] (greater than every finite ratio) and [NaN] for [0] (every
    comparison false). *)
Definition quotientExceeds (newWidth newHeight aspectRatio : R) : bool :=
  if Req_dec_T newHeight 0 then Rltb 0 newWidth
  else Rltb aspectRatio (newWidth / newHeight).

(** The function mapped over the collection by the resizing branch, for
    the item whose id is the current item's.  The scale factors divide by
    the original box's sides, which are not [0] for a box that shows
    handles. *)
Definition resizedItem (origBox : Box.t) (origCenter newCenter : Point.t)
           (newX newY newWidth newHeight : R) (item : CanvasItem) : CanvasItem :=
  match item with
  | Image i =>
      Image {| ImageItem.id := ImageItem.id i;
               ImageItem.x := newX; ImageItem.y := newY;
               ImageItem.rotation := ImageItem.rotation i;
               ImageItem.width := newWidth; ImageItem.height := newHeight;
               ImageItem.src := ImageItem.src i;
               ImageItem.thumbnailSrc := ImageItem.thumbnailSrc i;
               ImageItem.mimeType := ImageItem.mimeType i;
               ImageItem.prompt := ImageItem.prompt i |}
  | Text t =>
      Text {| TextItem.id := TextItem.id t;
              TextItem.x := newX; TextItem.y := newY;
              TextItem.rotation := TextItem.rotation t;
              TextItem.width := newWidth; TextItem.height := newHeight;
              TextItem.text := TextItem.text t;
              TextItem.color := TextItem.color t;
              TextItem.fontSize := TextItem.fontSize t |}
  | Video v =>
      Video {| VideoItem.id := VideoItem.id v;
               VideoItem.x := newX; VideoItem.y := newY;
               VideoItem.rotation := VideoItem.rotation v;
               VideoItem.width := newWidth; VideoItem.height := newHeight;
               VideoItem.src := VideoItem.src v;
               VideoItem.mimeType := VideoItem.mimeType v;
               VideoItem.prompt := VideoItem.prompt v |}
  | Drawing d =>
      let scaleX := newWidth / Box.width origBox in
      let scaleY := newHeight / Box.height origBox in
      let newPoints :=
        map (fun p =>
               let relativeP := {| Point.x := Point.x p - Point.x origCenter;
                                   Point.y := Point.y p - Point.y origCenter |} in
               let scaledP := {| Point.x := Point.x relativeP * scaleX;
                                 Point.y := Point.y relativeP * scaleY |} in
               {| Point.x := Point.x scaledP + Point.x newCenter;
                  Point.y := Point.y scaledP + Point.y newCenter |})
            (DrawingItem.points d) in
      Drawing {| DrawingItem.id := DrawingItem.id d;
                 DrawingItem.points := newPoints;
                 DrawingItem.color := DrawingItem.color d;
                 DrawingItem.strokeWidth := DrawingItem.strokeWidth d;
                 DrawingItem.opacity := DrawingItem.opacity d;
                 DrawingItem.rotation := DrawingItem.rotation d |}
  end.

(** The updater handed to [setItems] by the resizing branch:
    [prev => prev.map(item => item.id !== currentItem.id ? item : ...)]. *)
Definition resizeUpdater (currentItem : CanvasItem) (origBox : Box.t)
           (origCenter newCenter : Point.t) (newX newY newWidth newHeight : R)
           (prev : list CanvasItem) : list CanvasItem :=
  map (fun item =>
         if negb (String.eqb (itemId item) (itemId currentItem)) then item
         else resizedItem origBox origCenter newCenter
                          newX newY newWidth newHeight item)
      prev.

Definition withGestureDidCommit (g : Gesture) (flag : bool) : Gesture :=
  {| interactionMode := interactionMode g;
     startPoint := startPoint g;
     currentItem := currentItem g;
     currentDrawing := currentDrawing g;
     activeHandle := activeHandle g;
     originalItemState := originalItemState g;
     transientSelectionRect := transientSelectionRect g;
     expansionGhostRect := expansionGhostRect g;
     singlySelectedItemId := singlySelectedItemId g;
     gestureDidCommit := flag |}.

(** The new width and height of a resize step, after the aspect lock.
    [aspectRatio] divides by the original height (not [0] for a box that
    shows handles). *)
Definition resizeExtent (origItem : CanvasItem) (origBox : Box.t)
           (oppositeCorner currentMouseCanvas : Point.t) (shiftKey : bool) : R * R :=
  let vec := {| Point.x := Point.x currentMouseCanvas - Point.x oppositeCorner;
                Point.y := Point.y currentMouseCanvas - Point.y oppositeCorner |} in
  let unrotatedVec :=
    rotatePoint vec {| Point.x := 0; Point.y := 0 |} (- itemRotation origItem) in
  let newWidth := Rabs (Point.x unrotatedVec) in
  let newHeight := Rabs (Point.y unrotatedVec) in
  if shiftKey && isImageOrVideo origItem then
    let aspectRatio := Box.width origBox / Box.height origBox in
    if quotientExceeds newWidth newHeight aspectRatio
    then (newWidth, newWidth / aspectRatio)
    else (newHeight * aspectRatio, newHeight)
  else (newWidth, newHeight).

(** The branch [interactionMode === 'resizing' && currentItem &&
    startPoint && activeHandle] of [handleMouseMove]: the gesture state
    after the event and the calls made on the props.  When the guard of
    the branch is false the branch does nothing. *)
Definition handleMouseMove_resizing (props : Props) (g : Gesture) (e : MouseEvent)
  : Gesture * list Callback :=
  match interactionMode g, currentItem g, startPoint g, activeHandle g,
        originalItemState g with
  | Resizing, Some currentItem, Some _, Some _,
    OrigResized origItem origBox origCenter oppositeCorner =>
      let commit := negb (gestureDidCommit g) in
      let currentMouseCanvas := getCanvasPoint props e in
      let '(newWidth, newHeight) :=
        resizeExtent origItem origBox oppositeCorner currentMouseCanvas (shiftKey e) in
      if Rltb newWidth 10 || Rltb newHeight 10 then (g, [])
      else
        let newCenter :=
          {| Point.x := (Point.x oppositeCorner + Point.x currentMouseCanvas) / 2;
             Point.y := (Point.y oppositeCorner + Point.y currentMouseCanvas) / 2 |} in
        let newX := Point.x newCenter - newWidth / 2 in
        let newY := Point.y newCenter - newHeight / 2 in
        (if commit then withGestureDidCommit g true else g,
         [SetItems (resizeUpdater currentItem origBox origCenter newCenter
                                  newX newY newWidth newHeight)
                   commit])
  | _, _, _, _, _ => (g, [])
  end.

(** [['moving', 'drawing', 'resizing', 'rotating', 'magicFill',
    'expanding'].includes(interactionMode)]. *)
Definition isModifying (mode : InteractionMode) : bool :=
  match mode with
  | Moving | DrawingMode | Resizing | Rotating | MagicFill | Expanding => true
  | ModeNone | Selecting | Panning => false
  end.

(** The rectangle reported for a non-empty selection: the extrema of the
    rotated bounding boxes. *)
Definition encompassingRect (first : CanvasItem) (others : list CanvasItem) : Box.t :=
  let b := getRotatedBoundingBox first in
  let boxes := map getRotatedBoundingBox others in
  let minX := Math_min (Box.x b) (map Box.x boxes) in
  let minY := Math_min (Box.y b) (map Box.y boxes) in
  let maxX := Math_max (Box.x b + Box.width b)
                       (map (fun b => Box.x b + Box.width b) boxes) in
  let maxY := Math_max (Box.y b + Box.height b)
                       (map (fun b => Box.y b + Box.height b) boxes) in
  {| Box.x := minX; Box.y := minY; Box.width := maxX - minX; Box.height := maxY - minY |}.

(** The selecting branch of [handleMouseUp]: the call made on
    [onSelectionChange] and whether [setSinglySelectedItemId(null)] runs. *)
Definition finishSelecting (items : list CanvasItem) (rect : Box.t)
  : Callback * bool :=
  let selected := List.filter (fun item => isItemInSelection item rect) items in
  match selected with
  | first :: others =>
      if Rltb 5 (Box.width rect) && Rltb 5 (Box.height rect)
      then (OnSelectionChange (Some (encompassingRect first others)) selected, true)
      else (OnSelectionChange None [], false)
  | [] => (OnSelectionChange None [], false)
  end.

Definition handleMouseUp (props : Props) (g : Gesture) (e : MouseEvent)
  : Gesture * list Callback :=
  let isPanning :=
    match interactionMode g with Panning => true | _ => false end in
  if isPanning && (button e =? 0)%nat && isSpacePanning props then (g, [])
  else
    let wasModifying := isModifying (interactionMode g) in
    let expansion :=
      match interactionMode g, expansionGhostRect g, activeHandle g with
      | Expanding, Some rect, Some handle => Some (OnExpansionAreaDefined rect handle)
      | _, _, _ => None
      end in
    let selection :=
      match interactionMode g, transientSelectionRect g with
      | Selecting, Some rect => Some (finishSelecting (items props) rect)
      | _, _ => None
      end in
    let calls :=
      match expansion with Some c => [c] | None => [] end ++
      match selection with Some (c, _) => [c] | None => [] end ++
      (if wasModifying then [OnInteractionEnd] else []) in
    ({| interactionMode := ModeNone;
        startPoint := None;
        currentItem := None;
        currentDrawing := None;
        activeHandle := None;
        originalItemState := OrigNull;
        transientSelectionRect := None;
        expansionGhostRect :=
          match expansion with Some _ => None | None => expansionGhostRect g end;
        singlySelectedItemId :=
          match selection with
          | Some (_, true) => None
          | _ => singlySelectedItemId g
          end;
        gestureDidCommit := false |},
     calls).

(** The collection held by the store after the calls: each [setItems]
    applies its updater to the store's current collection. *)
Definition applyCalls (calls : list Callback) (items : list CanvasItem)
  : list CanvasItem :=
  fold_left (fun prev call =>
               match call with
               | SetItems updater _ => updater prev
               | _ => prev
               end)
            calls items.

(** A run of pointer moves in the resizing branch: the gesture state and
    the collection after the events. *)
Definition resizeMoves (props : Props) (events : list MouseEvent)
           (g : Gesture) (items : list CanvasItem) : Gesture * list CanvasItem :=
  fold_left (fun acc e =>
               let '(g, items) := acc in
               let '(g', calls) := handleMouseMove_resizing props g e in
               (g', applyCalls calls items))
            events (g, items).

(** What [findItemAtPoint] looks for: an item that is not ghosted and
    whose box contains the un-rotated point. *)
Definition eligible (ghostedItemIds : list string) (point : Point.t)
           (item : CanvasItem) : Prop :=
  (itemId item ∉ ghostedItemIds) /\ hitsItem point item = true.

(** The stored width and height of an item are at least 10 (a drawing
    stores neither). *)
Definition storedSizeAtLeast10 (item : CanvasItem) : Prop :=
  match item with
  | Image i => 10 <= ImageItem.width i /\ 10 <= ImageItem.height i
  | Text t => 10 <= TextItem.width t /\ 10 <= TextItem.height t
  | Video v => 10 <= VideoItem.width v /\ 10 <= VideoItem.height v
  | Drawing _ => True
  end.

(** [r] is the union of the boxes as an axis-aligned rectangle: it
    contains each box and each of its four sides lies on a side of one of
    them. *)
Definition exactUnion (r : Box.t) (boxes : list Box.t) : Prop :=
  (forall b, In b boxes ->
     Box.x r <= Box.x b /\ Box.y r <= Box.y b /\
     Box.x b + Box.width b <= Box.x r + Box.width r /\
     Box.y b + Box.height b <= Box.y r + Box.height r) /\
  (exists b, In b boxes /\ Box.x b = Box.x r) /\
  (exists b, In b boxes /\ Box.y b = Box.y r) /\
  (exists b, In b boxes /\ Box.x b + Box.width b = Box.x r + Box.width r) /\
  (exists b, In b boxes /\ Box.y b + Box.height b = Box.y r + Box.height r).

End Canvas.

(** ** Sample items, props and events *)

Module Scenario.

Import Canvas.
Local Open Scope R_scope.

Definition image (id : string) (x y width height rotation : R) : ImageItem.t :=
  {| ImageItem.id := id;
     ImageItem.x := x; ImageItem.y := y;
     ImageItem.rotation := rotation;
     ImageItem.width := width; ImageItem.height := height;
     ImageItem.src := "blob:sample";
     ImageItem.thumbnailSrc := None;
     ImageItem.mimeType := "image/png";
     ImageItem.prompt := "sample.png" |}.

Definition drawing (id : string) (points : list Point.t) (strokeWidth : R)
  : DrawingItem.t :=
  {| DrawingItem.id := id;
     DrawingItem.points := points;
     DrawingItem.color := "#ffffff";
     DrawingItem.strokeWidth := strokeWidth;
     DrawingItem.opacity := 1;
     DrawingItem.rotation := 0 |}.

(** A drawing made of a single point, stroke width 5. *)
Definition dot : DrawingItem.t :=
  drawing "dot" [ {| Point.x := 0; Point.y := 0 |} ] 5.

(** An image at (0, 0, 100, 100), not rotated. *)
Definition square : ImageItem.t := image "square" 0 0 100 100 0.

(** An image at (0, 0, 200, 100) with the given rotation. *)
Definition banner (rotation : R) : ImageItem.t := image "banner" 0 0 200 100 rotation.

(** A diagonal stroke from (0, 0) to (18, 18), stroke width 2: its box is
    (-1, -1, 20, 20). *)
Definition stroke : DrawingItem.t :=
  drawing "stroke" [ {| Point.x := 0; Point.y := 0 |};
                     {| Point.x := 18; Point.y := 18 |} ] 2.

(** Two images that overlap each other around (10, 10). *)
Definition left_tile : ImageItem.t := image "left" 0 0 20 20 0.
Definition right_tile : ImageItem.t := image "right" 10 10 20 20 0.

(** Props of a canvas at the page origin, zoom 1, no pan, no expansion. *)
Definition props (items : list CanvasItem) : Props :=
  {| items := items;
     ghostedItemIds := [];
     zoom := 1;
     pan := {| Point.x := 0; Point.y := 0 |};
     expansionIsActive := false;
     expansionTargetItem := None;
     canvasRect := Some {| Point.x := 0; Point.y := 0 |};
     isSpacePanning := false |}.

Definition idle : Gesture :=
  {| interactionMode := ModeNone;
     startPoint := None;
     currentItem := None;
     currentDrawing := None;
     activeHandle := None;
     originalItemState := OrigNull;
     transientSelectionRect := None;
     expansionGhostRect := None;
     singlySelectedItemId := None;
     gestureDidCommit := false |}.

(** A marquee in progress over the given rectangle. *)
Definition selecting (rect : Box.t) : Gesture :=
  {| interactionMode := Selecting;
     startPoint := Some {| Point.x := Box.x rect; Point.y := Box.y rect |};
     currentItem := None;
     currentDrawing := None;
     activeHandle := None;
     originalItemState := OrigNull;
     transientSelectionRect := Some rect;
     expansionGhostRect := None;
     singlySelectedItemId := None;
     gestureDidCommit := false |}.

(** Left button, no modifier, at the given client position. *)
Definition mouseAt (x y : R) : MouseEvent :=
  {| clientX := x; clientY := y; shiftKey := false; button := 0 |}.

End Scenario.

(** ** More of the [Canvas] component: move, expand, marquee drag *)

Module GridOptions.
Record t : Type := mk { isVisible : bool; spacing : R; color : string }.
End GridOptions.

Module Gestures.

Import Num Geometry Canvas.
Local Open Scope R_scope.

(** [Math.round]: the nearest integer, a half going up. *)
Definition Math_round (x : R) : R := IZR (Int_part (x + / 2)).

(** [Math.round(v / gridOptions.spacing) * gridOptions.spacing]; the
    division is by the grid spacing, a positive number in the
    application. *)
Definition snapToGrid (gridOptions : GridOptions.t) (v : R) : R :=
  Math_round (v / GridOptions.spacing gridOptions) * GridOptions.spacing gridOptions.

(** [{ ...item, x: newX, y: newY }].  On a drawing the source adds two
    stray fields that no reader of a drawing looks at; the model keeps
    the drawing. *)
Definition withPosition (item : CanvasItem) (newX newY : R) : CanvasItem :=
  match item with
  | Image i =>
      Image {| ImageItem.id := ImageItem.id i;
               ImageItem.x := newX; ImageItem.y := newY;
               ImageItem.rotation := ImageItem.rotation i;
               ImageItem.width := ImageItem.width i;
               ImageItem.height := ImageItem.height i;
               ImageItem.src := ImageItem.src i;
               ImageItem.thumbnailSrc := ImageItem.thumbnailSrc i;
               ImageItem.mimeType := ImageItem.mimeType i;
               ImageItem.prompt := ImageItem.prompt i |}
  | Text t =>
      Text {| TextItem.id := TextItem.id t;
              TextItem.x := newX; TextItem.y := newY;
              TextItem.rotation := TextItem.rotation t;
              TextItem.width := TextItem.width t;
              TextItem.height := TextItem.height t;
              TextItem.text := TextItem.text t;
              TextItem.color := TextItem.color t;
              TextItem.fontSize := TextItem.fontSize t |}
  | Video v =>
      Video {| VideoItem.id := VideoItem.id v;
               VideoItem.x := newX; VideoItem.y := newY;
               VideoItem.rotation := VideoItem.rotation v;
               VideoItem.width := VideoItem.width v;
               VideoItem.height := VideoItem.height v;
               VideoItem.src := VideoItem.src v;
               VideoItem.mimeType := VideoItem.mimeType v;
               VideoItem.prompt := VideoItem.prompt v |}
  | Drawing d => Drawing d
  end.

(** [{ ...item, points }].  On an image, text or video the source adds a
    stray [points] field that no reader of such an item looks at; the
    model keeps the item. *)
Definition withPoints (item : CanvasItem) (points : list Point.t) : CanvasItem :=
  match item with
  | Drawing d =>
      Drawing {| DrawingItem.id := DrawingItem.id d;
                 DrawingItem.points := points;
                 DrawingItem.color := DrawingItem.color d;
                 DrawingItem.strokeWidth := DrawingItem.strokeWidth d;
                 DrawingItem.opacity := DrawingItem.opacity d;
                 DrawingItem.rotation := DrawingItem.rotation d |}
  | other => other
  end.

(** The function mapped over the collection by the moving branch for the
    item whose id is the current item's; [originalItem] is the snapshot
    taken at mouse down. *)
Definition movedItem (gridOptions : GridOptions.t) (shiftKey : bool)
           (originalItem : CanvasItem) (total_dx total_dy : R)
           (item : CanvasItem) : CanvasItem :=
  let shouldSnap := GridOptions.isVisible gridOptions && negb shiftKey in
  match originalItem with
  | Drawing original =>
      let originalBox := getBoundingBox originalItem in
      let final_dx :=
        if shouldSnap
        then snapToGrid gridOptions (Box.x originalBox + total_dx) - Box.x originalBox
        else total_dx in
      let final_dy :=
        if shouldSnap
        then snapToGrid gridOptions (Box.y originalBox + total_dy) - Box.y originalBox
        else total_dy in
      withPoints item
        (map (fun p => {| Point.x := Point.x p + final_dx;
                          Point.y := Point.y p + final_dy |})
             (DrawingItem.points original))
  | _ =>
      (* an image, text or video: the box's [x] and [y] are the item's *)
      let originalBox := getBoundingBox originalItem in
      let newX := Box.x originalBox + total_dx in
      let newY := Box.y originalBox + total_dy in
      if shouldSnap
      then withPosition item (snapToGrid gridOptions newX) (snapToGrid gridOptions newY)
      else withPosition item newX newY
  end.

(** The updater handed to [setItems] by the moving branch.  An
    [originalItemState] of another shape has no [type], and the mapped
    function returns every item as it is. *)
Definition moveUpdater (gridOptions : GridOptions.t) (shiftKey : bool)
           (currentItem : CanvasItem) (originalItemState : OriginalItemState)
           (total_dx total_dy : R) (prev : list CanvasItem) : list CanvasItem :=
  map (fun item =>
         if negb (String.eqb (itemId item) (itemId currentItem)) then item
         else match originalItemState with
              | OrigMoved originalItem =>
                  movedItem gridOptions shiftKey originalItem total_dx total_dy item
              | _ => item
              end)
      prev.

(** The branch [interactionMode === 'moving' && currentItem && startPoint
    && originalItemState] of [handleMouseMove]. *)
Definition handleMouseMove_moving (props : Props) (gridOptions : GridOptions.t)
           (g : Gesture) (e : MouseEvent) : Gesture * list Callback :=
  match interactionMode g, currentItem g, startPoint g with
  | Moving, Some currentItem, Some startPoint =>
      match originalItemState g with
      | OrigNull => (g, [])
      | originalItemState =>
          let point := getCanvasPoint props e in
          let commit := negb (gestureDidCommit g) in
          let total_dx := Point.x point - Point.x startPoint in
          let total_dy := Point.y point - Point.y startPoint in
          (if commit then withGestureDidCommit g true else g,
           [SetItems (moveUpdater gridOptions (shiftKey e) currentItem
                                  originalItemState total_dx total_dy)
                     commit])
      end
  | _, _, _ => (g, [])
  end.

(** The rectangle drawn by the expanding branch for the handle, the
    original box and the mouse position. *)
Definition expandedRect (activeHandle : Handle) (originalBox : Box.t)
           (point : Point.t) : Box.t :=
  let x := Box.x originalBox in
  let y := Box.y originalBox in
  let width := Box.width originalBox in
  let height := Box.height originalBox in
  let '(y, height) :=
    if includes activeHandle "n"
    then let newY := Rmin (Point.y point) (Box.y originalBox) in
         (newY, height + (Box.y originalBox - newY))
    else (y, height) in
  let height :=
    if includes activeHandle "s"
    then Rmax (Box.height originalBox) (Point.y point - Box.y originalBox)
    else height in
  let '(x, width) :=
    if includes activeHandle "w"
    then let newX := Rmin (Point.x point) (Box.x originalBox) in
         (newX, width + (Box.x originalBox - newX))
    else (x, width) in
  let width :=
    if includes activeHandle "e"
    then Rmax (Box.width originalBox) (Point.x point - Box.x originalBox)
    else width in
  {| Box.x := x; Box.y := y; Box.width := width; Box.height := height |}.

Definition withExpansionGhostRect (g : Gesture) (rect : option Box.t) : Gesture :=
  {| interactionMode := interactionMode g;
     startPoint := startPoint g;
     currentItem := currentItem g;
     currentDrawing := currentDrawing g;
     activeHandle := activeHandle g;
     originalItemState := originalItemState g;
     transientSelectionRect := transientSelectionRect g;
     expansionGhostRect := rect;
     singlySelectedItemId := singlySelectedItemId g;
     gestureDidCommit := gestureDidCommit g |}.

Definition withTransientSelectionRect (g : Gesture) (rect : option Box.t) : Gesture :=
  {| interactionMode := interactionMode g;
     startPoint := startPoint g;
     currentItem := currentItem g;
     currentDrawing := currentDrawing g;
     activeHandle := activeHandle g;
     originalItemState := originalItemState g;
     transientSelectionRect := rect;
     expansionGhostRect := expansionGhostRect g;
     singlySelectedItemId := singlySelectedItemId g;
     gestureDidCommit := gestureDidCommit g |}.

(** The branch [interactionMode === 'expanding' && activeHandle &&
    originalItemState] of [handleMouseMove].  The state stored on
    entering the mode is [{ box }]; on another shape the source reads the
    sides of [undefined] and throws, and the model leaves the gesture as
    it is. *)
Definition handleMouseMove_expanding (props : Props) (g : Gesture) (e : MouseEvent)
  : Gesture :=
  match interactionMode g, activeHandle g, originalItemState g with
  | Expanding, Some activeHandle, OrigExpanded originalBox =>
      withExpansionGhostRect g
        (Some (expandedRect activeHandle originalBox (getCanvasPoint props e)))
  | _, _, _ => g
  end.

(** The marquee between the point of mouse down and the current point. *)
Definition marqueeRect (startPoint point : Point.t) : Box.t :=
  {| Box.x := Rmin (Point.x startPoint) (Point.x point);
     Box.y := Rmin (Point.y startPoint) (Point.y point);
     Box.width := Rabs (Point.x point - Point.x startPoint);
     Box.height := Rabs (Point.y point - Point.y startPoint) |}.

(** The branch [interactionMode === 'selecting' && startPoint] of
    [handleMouseMove]. *)
Definition handleMouseMove_selecting (props : Props) (g : Gesture) (e : MouseEvent)
  : Gesture :=
  match interactionMode g, startPoint g with
  | Selecting, Some startPoint =>
      withTransientSelectionRect g
        (Some (marqueeRect startPoint (getCanvasPoint props e)))
  | _, _ => g
  end.

(** The calls made on the props by a run of pointer moves handled by one
    branch of [handleMouseMove]. *)
Fixpoint gestureCalls (handler : Gesture -> MouseEvent -> Gesture * list Callback)
         (events : list MouseEvent) (g : Gesture) : list Callback :=
  match events with
  | [] => []
  | e :: events =>
      let '(g', calls) := handler g e in
      calls ++ gestureCalls handler events g'
  end.

(** What the moving and resizing branches do with the commit flag of the
    gesture: an event either makes no call and leaves the gesture as it
    is, or makes one [setItems] call that commits exactly when the
    gesture has not committed yet, and the gesture has committed
    afterwards. *)
Definition commitsOnce (handler : Gesture -> MouseEvent -> Gesture * list Callback)
  : Prop :=
  forall g e,
    (snd (handler g e) = [] /\ fst (handler g e) = g) \/
    (exists updater,
        snd (handler g e) = [SetItems updater (negb (gestureDidCommit g))] /\
        gestureDidCommit (fst (handler g e)) = true).

(** The [commit] options of the [setItems] calls, in order. *)
Definition commitFlags (calls : list Callback) : list bool :=
  flat_map (fun call =>
              match call with
              | SetItems _ commit => [commit]
              | _ => []
              end)
           calls.

(** The box [inner] lies within the box [outer]. *)
Definition boxInside (inner outer : Box.t) : Prop :=
  Box.x outer <= Box.x inner /\
  Box.y outer <= Box.y inner /\
  Box.x inner + Box.width inner <= Box.x outer + Box.width outer /\
  Box.y inner + Box.height inner <= Box.y outer + Box.height outer.

(** The gesture during an expansion: the mode, the handle and the
    original box stay, and the ghost rectangle contains the box. *)
Definition expandingWith (handle : Handle) (box : Box.t) (g : Gesture) : Prop :=
  interactionMode g = Expanding /\
  activeHandle g = Some handle /\
  originalItemState g = OrigExpanded box /\
  exists rect, expansionGhostRect g = Some rect /\ boxInside box rect.

(** The corner of a box on the given sides. *)
Definition cornerOf (box : Box.t) (east south : bool) : Point.t :=
  {| Point.x := Box.x box + (if east then Box.width box else 0);
     Point.y := Box.y box + (if south then Box.height box else 0) |}.

(** The corner of an item's box diagonal to a resize handle, where the
    item's rotation puts it on the canvas. *)
Definition oppositeCornerOf (handle : Handle) (item : CanvasItem) : Point.t :=
  rotatePoint (cornerOf (getBoundingBox item)
                        (negb (includes handle "e")) (negb (includes handle "s")))
              (getCenter (getBoundingBox item)) (itemRotation item).

(** The offset of the mouse from a fixed corner, measured along the
    sides of an item with the given rotation. *)
Definition localOffset (rotation : R) (corner mouse : Point.t) : Point.t :=
  rotatePoint {| Point.x := Point.x mouse - Point.x corner;
                 Point.y := Point.y mouse - Point.y corner |}
              {| Point.x := 0; Point.y := 0 |} (- rotation).

End Gestures.

(** ** Masks and outpainting ([utils/canvasUtils.ts]) *)

Module Masks.

Import Num Geometry.
Local Open Scope R_scope.

(** A mask point in the target image's own frame: un-rotated about the
    image's centre, then taken relative to its top-left corner. *)
Definition maskLocalPoint (targetItem : ImageItem.t) (p : Point.t) : Point.t :=
  let center :=
    {| Point.x := ImageItem.x targetItem + ImageItem.width targetItem / 2;
       Point.y := ImageItem.y targetItem + ImageItem.height targetItem / 2 |} in
  let unrotatedP := rotatePoint p center (- ImageItem.rotation targetItem) in
  {| Point.x := Point.x unrotatedP - ImageItem.x targetItem;
     Point.y := Point.y unrotatedP - ImageItem.y targetItem |}.

(** The path stroked in white on the mask: nothing unless the drawing
    has more than one point. *)
Definition maskPath (drawing : DrawingItem.t) (targetItem : ImageItem.t)
  : list Point.t :=
  if (1 <? length (DrawingItem.points drawing))%nat
  then map (maskLocalPoint targetItem) (DrawingItem.points drawing)
  else [].


Section Dom.

(** The browser: whether [getContext('2d')] succeeds on a canvas of the
    given size, whether the image behind a [src] loads, and the PNG data
    URL of the enlarged canvas (its size, the image source and the
    placement of the image). *)
Variable getContext2d : R -> R -> bool.
Variable imageLoads : string -> bool.
Variable pictureToDataURL : R -> R -> string -> Box.t -> string.

(** The promises resolve with [inl] and reject with [inr]. *)

(** Where the original image sits inside the enlarged canvas. *)
Definition outpaintingPlacement (targetItem : ImageItem.t) (combinedRect : Box.t)
  : Box.t :=
  {| Box.x := ImageItem.x targetItem - Box.x combinedRect;
     Box.y := ImageItem.y targetItem - Box.y combinedRect;
     Box.width := ImageItem.width targetItem;
     Box.height := ImageItem.height targetItem |}.


End Dom.

End Masks.

(** ** The application component: wiring and collection edits *)

Module App.

Import Num Geometry Canvas.
Local Open Scope R_scope.

Section Store.

(** [JSON.stringify] on item collections. *)
Variable stringify : list CanvasItem -> string.

(** [setItems] is the [setState] of [useHistory<CanvasItem[]>]: the
    store after the calls a handler made on the props. *)
Definition dispatch (calls : list Callback)
           (s : History.HistoryState (list CanvasItem))
  : History.HistoryState (list CanvasItem) :=
  fold_left (fun s call =>
               match call with
               | SetItems updater commit =>
                   History.next
                     (History.setState stringify (History.Updater updater)
                                       (Some commit) s)
               | _ => s
               end)
            calls s.

End Store.

(** The updaters of the [setItems] calls, as actions on the store. *)
Definition updatersOf (calls : list Callback)
  : list (History.Action (list CanvasItem)) :=
  flat_map (fun call =>
              match call with
              | SetItems updater _ => [History.Updater updater]
              | _ => []
              end)
           calls.

(** [prev.filter(i => i.id !== id)]. *)
Definition withoutId (id : string) (prev : list CanvasItem) : list CanvasItem :=
  List.filter (fun i => negb (String.eqb (itemId i) id)) prev.

(** The updaters of the context-menu actions on [contextMenu.item]; each
    is handed to [setItems] with the default [commit]. *)
Definition bringToFrontUpdater (item : CanvasItem) (prev : list CanvasItem)
  : list CanvasItem :=
  withoutId (itemId item) prev ++ [item].

Definition sendToBackUpdater (item : CanvasItem) (prev : list CanvasItem)
  : list CanvasItem :=
  item :: withoutId (itemId item) prev.

(** [bringToFront], [sendToBack] and [deleteContextItem]: nothing without
    a context-menu item. *)
Definition bringToFront (contextMenuItem : option CanvasItem) : list Callback :=
  match contextMenuItem with
  | None => []
  | Some item => [SetItems (bringToFrontUpdater item) true]
  end.

Definition sendToBack (contextMenuItem : option CanvasItem) : list Callback :=
  match contextMenuItem with
  | None => []
  | Some item => [SetItems (sendToBackUpdater item) true]
  end.

Definition deleteContextItem (contextMenuItem : option CanvasItem) : list Callback :=
  match contextMenuItem with
  | None => []
  | Some item => [SetItems (withoutId (itemId item)) true]
  end.

(** [selectAllItems]: the selection rectangle and the selected items, or
    nothing on an empty collection. *)
Definition selectAllItems (items : list CanvasItem)
  : option (Box.t * list CanvasItem) :=
  match items with
  | [] => None
  | first :: others => Some (encompassingRect first others, items)
  end.

(** [ImagePreview]. *)
Record ImagePreview : Type := mkImagePreview {
  newImage : ImageItem.t;
  itemsToReplace : list CanvasItem
}.

(** The [ghostedItemIds] prop handed to the canvas. *)
Definition ghostedIdsOf (imagePreview : option ImagePreview) : list string :=
  match imagePreview with
  | Some preview => map itemId (itemsToReplace preview)
  | None => []
  end.

Definition handleAcceptPreview (imagePreview : option ImagePreview) : list Callback :=
  match imagePreview with
  | None => []
  | Some preview =>
      let itemsToReplaceIds := map itemId (itemsToReplace preview) in
      [SetItems
         (fun prev =>
            List.filter (fun item => negb (bool_decide (itemId item ∈ itemsToReplaceIds)))
                        prev
            ++ [Image (newImage preview)])
         true]
  end.

Record WheelEvent : Type := mkWheelEvent {
  wheelClientX : R;
  wheelClientY : R;
  deltaY : R
}.

(** [handleWheel]: the new zoom and pan; [targetRect] is the client
    rectangle (left, top) of the element the handler is attached to.
    The pan is scaled by [clampedZoom / zoom], [zoom] being positive. *)
Definition handleWheel (zoom : R) (pan targetRect : Point.t) (e : WheelEvent)
  : R * Point.t :=
  let zoomSpeed := 1 / 10 in
  let delta := - deltaY e * zoomSpeed * (5 / 100) in
  let newZoom := zoom + delta in
  let clampedZoom := Rmax (1 / 10) (Rmin newZoom 5) in
  let mouseX := wheelClientX e - Point.x targetRect in
  let mouseY := wheelClientY e - Point.y targetRect in
  let newPanX := mouseX - (mouseX - Point.x pan) * (clampedZoom / zoom) in
  let newPanY := mouseY - (mouseY - Point.y pan) * (clampedZoom / zoom) in
  (clampedZoom, {| Point.x := newPanX; Point.y := newPanY |}).

(** The props after [setZoom] and [setPan]. *)
Definition withView (props : Props) (view : R * Point.t) : Props :=
  {| items := items props;
     ghostedItemIds := ghostedItemIds props;
     zoom := fst view;
     pan := snd view;
     expansionIsActive := expansionIsActive props;
     expansionTargetItem := expansionTargetItem props;
     canvasRect := canvasRect props;
     isSpacePanning := isSpacePanning props |}.

(** The props once the collection has changed. *)
Definition withItems (props : Props) (items' : list CanvasItem) : Props :=
  {| items := items';
     ghostedItemIds := ghostedItemIds props;
     zoom := zoom props;
     pan := pan props;
     expansionIsActive := expansionIsActive props;
     expansionTargetItem := expansionTargetItem props;
     canvasRect := canvasRect props;
     isSpacePanning := isSpacePanning props |}.

(** The [ghostedItemIds] prop as the application computes it from the
    pending preview. *)
Definition withPreview (props : Props) (imagePreview : option ImagePreview) : Props :=
  {| items := items props;
     ghostedItemIds := ghostedIdsOf imagePreview;
     zoom := zoom props;
     pan := pan props;
     expansionIsActive := expansionIsActive props;
     expansionTargetItem := expansionTargetItem props;
     canvasRect := canvasRect props;
     isSpacePanning := isSpacePanning props |}.

(** An item that has a place on the canvas: any image, text or video,
    and a drawing with at least one point (a drawing without points has
    the zero box wherever it is moved). *)
Definition hasPlace (item : CanvasItem) : Prop :=
  match item with
  | Drawing d => DrawingItem.points d <> []
  | _ => True
  end.

(** The [type] tag of an item. *)
Definition itemType (item : CanvasItem) : string :=
  match item with
  | Image _ => "image"
  | Text _ => "text"
  | Drawing _ => "drawing"
  | Video _ => "video"
  end.

(** The copy made by [duplicateItem]: a fresh id from the type and the
    clock ([now] is the decimal of [Date.now()]), shifted by
    [20 / zoom]. *)
Definition duplicateOf (zoom : R) (now : string) (item : CanvasItem) : CanvasItem :=
  let id := itemType item +:+ "_" +:+ now in
  let offset := 20 / zoom in
  match item with
  | Drawing d =>
      Drawing {| DrawingItem.id := id;
                 DrawingItem.points :=
                   map (fun p => {| Point.x := Point.x p + offset;
                                    Point.y := Point.y p + offset |})
                       (DrawingItem.points d);
                 DrawingItem.color := DrawingItem.color d;
                 DrawingItem.strokeWidth := DrawingItem.strokeWidth d;
                 DrawingItem.opacity := DrawingItem.opacity d;
                 DrawingItem.rotation := DrawingItem.rotation d |}
  | Image i =>
      Image {| ImageItem.id := id;
               ImageItem.x := ImageItem.x i + offset;
               ImageItem.y := ImageItem.y i + offset;
               ImageItem.rotation := ImageItem.rotation i;
               ImageItem.width := ImageItem.width i;
               ImageItem.height := ImageItem.height i;
               ImageItem.src := ImageItem.src i;
               ImageItem.thumbnailSrc := ImageItem.thumbnailSrc i;
               ImageItem.mimeType := ImageItem.mimeType i;
               ImageItem.prompt := ImageItem.prompt i |}
  | Text t =>
      Text {| TextItem.id := id;
              TextItem.x := TextItem.x t + offset;
              TextItem.y := TextItem.y t + offset;
              TextItem.rotation := TextItem.rotation t;
              TextItem.width := TextItem.width t;
              TextItem.height := TextItem.height t;
              TextItem.text := TextItem.text t;
              TextItem.color := TextItem.color t;
              TextItem.fontSize := TextItem.fontSize t |}
  | Video v =>
      Video {| VideoItem.id := id;
               VideoItem.x := VideoItem.x v + offset;
               VideoItem.y := VideoItem.y v + offset;
               VideoItem.rotation := VideoItem.rotation v;
               VideoItem.width := VideoItem.width v;
               VideoItem.height := VideoItem.height v;
               VideoItem.src := VideoItem.src v;
               VideoItem.mimeType := VideoItem.mimeType v;
               VideoItem.prompt := VideoItem.prompt v |}
  end.

Definition duplicateItem (zoom : R) (now : string) (item : CanvasItem) : list Callback :=
  [SetItems (fun prev => prev ++ [duplicateOf zoom now item]) true].

(** The box [b] moved by [(dx, dy)]. *)
Definition shiftedBox (b : Box.t) (dx dy : R) : Box.t :=
  {| Box.x := Box.x b + dx; Box.y := Box.y b + dy;
     Box.width := Box.width b; Box.height := Box.height b |}.

End App.

(** ** Runs of calls on the history store *)

Module HistoryRuns.

Import History.

Section Runs.

Context {T : Type}.
Variable stringify : T -> string.

(** [setState(v)] for each value in turn, with the default [commit]. *)
Definition commits (values : list T) : list (Op T) :=
  map (fun v => OpSetState (Value v) None) values.

(** [setState(action, { commit: false })] for each action in turn. *)
Definition transients (actions : list (Action T)) : list (Op T) :=
  map (fun action => OpSetState action (Some false)) actions.

(** [n] calls of [undo]. *)
Definition undos (n : nat) : list (Op T) := repeat OpUndo n.

(** Each value serialises differently from the one before it, [cur]
    coming first: none of the updates is skipped by the guard. *)
Fixpoint eachChanges (cur : T) (values : list T) : Prop :=
  match values with
  | [] => True
  | v :: values => stringify v <> stringify cur /\ eachChanges v values
  end.

End Runs.

End HistoryRuns.

(** ** More sample values *)

Module Samples.

Import Canvas.
Local Open Scope R_scope.

(** Props of a canvas in expansion mode on the sample square. *)
Definition expansionProps : Props :=
  {| items := [Image Scenario.square];
     ghostedItemIds := [];
     zoom := 1;
     pan := {| Point.x := 0; Point.y := 0 |};
     expansionIsActive := true;
     expansionTargetItem := Some Scenario.square;
     canvasRect := Some {| Point.x := 0; Point.y := 0 |};
     isSpacePanning := false |}.

(** A visible grid of spacing 10. *)
Definition grid10 : GridOptions.t :=
  {| GridOptions.isVisible := true;
     GridOptions.spacing := 10;
     GridOptions.color := "#374151" |}.

(** One notch of the wheel at the client position (40, 30). *)
Definition wheelNotch : App.WheelEvent :=
  {| App.wheelClientX := 40; App.wheelClientY := 30; App.deltaY := 100 |}.

(** The gesture state left by a mouse down on [item] at the canvas point
    [point], outside the drawing, text and expansion modes: the item is
    being moved. *)
Definition moving (item : CanvasItem) (point : Point.t) : Gesture :=
  {| interactionMode := Moving;
     startPoint := Some point;
     currentItem := Some item;
     currentDrawing := None;
     activeHandle := None;
     originalItemState := OrigMoved item;
     transientSelectionRect := None;
     expansionGhostRect := None;
     singlySelectedItemId := Some (itemId item);
     gestureDidCommit := false |}.

(** The sample square, grabbed at its centre. *)
Definition grabbedSquare : Gesture :=
  moving (Image Scenario.square) {| Point.x := 50; Point.y := 50 |}.

(** The decimal numeral of an integer, as [JSON.stringify] prints it. *)
Definition stringifyZ (z : Z) : string :=
  NilEmpty.string_of_int (Z.to_int z).

(** A serialiser that writes the id of each item and the integer parts
    of the corner of its box, [id@x,y]: what tells two collections apart
    after a move over a grid of whole-number spacing. *)
Definition stringifyPlace (item : CanvasItem) : string :=
  itemId item +:+ "@"
    +:+ stringifyZ (Int_part (Box.x (Geometry.getBoundingBox item))) +:+ ","
    +:+ stringifyZ (Int_part (Box.y (Geometry.getBoundingBox item))).

Definition stringifyPlaces (items : list CanvasItem) : string :=
  String.concat ";" (map stringifyPlace items).

End Samples.

(** * Properties of the history store *)

Module HistoryFacts.

Import History.

Section Facts.

Context {T : Type}.
Variable stringify : T -> string.

Implicit Types (s : HistoryState T) (a : Action T) (o : Options) (x cur : T).

Lemma wf_state s : wf s -> exists cur, state s = Some cur.
Proof.
  intros Hwf. destruct (lookup_lt_is_Some_2 (history s) (index s) Hwf) as [cur Hcur].
  exists cur. exact Hcur.
Qed.

Lemma state_wf s cur : state s = Some cur -> wf s.
Proof. intros Hcur. apply (lookup_lt_Some _ _ _ Hcur). Qed.

Lemma wf_initial x : wf (initial x).
Proof. unfold wf. simpl. lia. Qed.

(** The three ways a call of [setState] ends, once the current value is
    known. *)
Lemma setState_cases a o s cur :
  state s = Some cur ->
  setState stringify a o s =
    if String.eqb (stringify (applyAction a cur)) (stringify cur)
    then unchanged s
    else if commitOf o
         then changed {| history := take (index s + 1) (history s) ++ [applyAction a cur];
                         index := length (take (index s + 1) (history s)
                                          ++ [applyAction a cur]) - 1 |}
         else changed {| history := <[index s := applyAction a cur]> (history s);
                         index := index s |}.
Proof. unfold state, setState. intros ->. reflexivity. Qed.

Lemma setState_same a o s cur :
  state s = Some cur ->
  stringify (applyAction a cur) = stringify cur ->
  setState stringify a o s = unchanged s.
Proof.
  intros Hcur Hsame. rewrite (setState_cases a o s cur Hcur).
  apply String.eqb_eq in Hsame. rewrite Hsame. reflexivity.
Qed.

Lemma committed_length s x :
  wf s -> length (take (index s + 1) (history s) ++ [x]) = index s + 2.
Proof.
  unfold wf. intros Hwf. rewrite length_app, length_take_le; simpl; lia.
Qed.

Lemma setState_commit a o s cur :
  state s = Some cur ->
  stringify (applyAction a cur) <> stringify cur ->
  commitOf o = true ->
  setState stringify a o s =
    changed {| history := take (index s + 1) (history s) ++ [applyAction a cur];
               index := index s + 1 |}.
Proof.
  intros Hcur Hdiff Hc. rewrite (setState_cases a o s cur Hcur), Hc.
  apply String.eqb_neq in Hdiff. rewrite Hdiff.
  rewrite committed_length by (eapply state_wf; eassumption).
  do 3 f_equal. lia.
Qed.

Lemma setState_transient a o s cur :
  state s = Some cur ->
  stringify (applyAction a cur) <> stringify cur ->
  commitOf o = false ->
  setState stringify a o s =
    changed {| history := <[index s := applyAction a cur]> (history s);
               index := index s |}.
Proof.
  intros Hcur Hdiff Hc. rewrite (setState_cases a o s cur Hcur), Hc.
  apply String.eqb_neq in Hdiff. rewrite Hdiff. reflexivity.
Qed.

Lemma wf_setState a o s : wf s -> wf (next (setState stringify a o s)).
Proof.
  intros Hwf. destruct (wf_state s Hwf) as [cur Hcur].
  rewrite (setState_cases a o s cur Hcur).
  destruct (String.eqb _ _); [exact Hwf|].
  destruct (commitOf o); unfold wf; simpl.
  - rewrite committed_length by exact Hwf. lia.
  - rewrite length_insert. exact Hwf.
Qed.

Lemma wf_undo s : wf s -> wf (next (undo s)).
Proof.
  unfold undo, wf. intros Hwf. destruct (0 <? index s); simpl; lia.
Qed.

Lemma wf_redo s : wf s -> wf (next (redo s)).
Proof.
  unfold redo, wf. intros Hwf.
  destruct (Nat.ltb_spec (index s) (length (history s) - 1)); simpl; lia.
Qed.

Lemma wf_step s op : wf s -> wf (step stringify s op).
Proof.
  destruct op; simpl; auto using wf_setState, wf_undo, wf_redo.
Qed.

Lemma wf_run ops : forall s, wf s -> wf (run stringify ops s).
Proof.
  induction ops as [|op ops IH]; intros s Hwf; simpl; [exact Hwf|].
  apply IH, wf_step, Hwf.
Qed.



(** A transient update never changes the length of the list. *)
Lemma transient_length a s :
  length (history (next (setState stringify a (Some false) s))) = length (history s).
Proof.
  unfold setState. destruct (history s !! index s) as [cur|]; [|reflexivity].
  simpl. destruct (String.eqb _ _); simpl; [reflexivity|apply length_insert].
Qed.






(** C6 (as amended): a [setState] whose value, given directly or
    returned by an updater, serialises to the same JSON string as the
    current value, with either commit option, changes nothing: the
    history list, the index, [canUndo] and [canRedo] stay as they were
    and [onStateChange] is not fired. *)
Theorem setState_serialising_alike_is_noop s cur a o :
  state s = Some cur ->
  stringify (applyAction a cur) = stringify cur ->
  next (setState stringify a o s) = s /\
  notified (setState stringify a o s) = false /\
  history (next (setState stringify a o s)) = history s /\
  index (next (setState stringify a o s)) = index s /\
  canUndo (next (setState stringify a o s)) = canUndo s /\
  canRedo (next (setState stringify a o s)) = canRedo s.
Proof.
  intros Hcur Hsame.
  rewrite (setState_same a o s cur Hcur Hsame).
  repeat split.
Qed.

(** C5: a [setState] with [commit: false] keeps the index and the length
    of the list, leaves every other entry alone and writes its value at
    the current index (the entry stays when the guard finds the value
    unchanged); a second [commit: false] update still has the length the
    history started with. *)
Theorem transient_update_overwrites_in_place s cur a :
  state s = Some cur ->
  index (next (setState stringify a (Some false) s)) = index s /\
  length (history (next (setState stringify a (Some false) s))) = length (history s) /\
  (forall j, j <> index s ->
     history (next (setState stringify a (Some false) s)) !! j = history s !! j) /\
  state (next (setState stringify a (Some false) s)) =
    Some (if String.eqb (stringify (applyAction a cur)) (stringify cur)
          then cur else applyAction a cur) /\
  (forall b,
     length (history (next (setState stringify b (Some false)
                              (next (setState stringify a (Some false) s)))))
     = length (history s)).
Proof.
  intros Hcur.
  assert (Hwf : wf s) by (eapply state_wf; eassumption).
  split; [|split; [apply transient_length|split; [|split]]].
  - rewrite (setState_cases a (Some false) s cur Hcur).
    destruct (String.eqb _ _); reflexivity.
  - intros j Hj. rewrite (setState_cases a (Some false) s cur Hcur).
    destruct (String.eqb _ _); simpl; [reflexivity|].
    apply list_lookup_insert_ne. auto.
  - rewrite (setState_cases a (Some false) s cur Hcur).
    destruct (String.eqb _ _); simpl; [exact Hcur|].
    unfold state. simpl. apply list_lookup_insert_eq. exact Hwf.
  - intros b. rewrite !transient_length. reflexivity.
Qed.


End Facts.

(** *** Concrete histories over natural numbers *)






Lemma transient_update_overwrites_in_place_witness :
  state {| history := [1; 2; 3]; index := 1 |} = Some 2 /\
  index (next (setState stringifyNat (Value 9) (Some false)
                        {| history := [1; 2; 3]; index := 1 |})) = 1.
Proof.
  assert (H1 : state {| history := [1; 2; 3]; index := 1 |} = Some 2) by reflexivity.
  split; [exact H1|].
  exact (proj1 (transient_update_overwrites_in_place stringifyNat _ 2 (Value 9) H1)).
Defined.

(** C6 (counterexample): the object [{ y: 2, x: 1 }] is structurally
    equal to the current value [{ x: 1, y: 2 }] and serialises
    differently, so [setState] with it, with either commit option, fires
    [onStateChange]; with the default commit it adds a history entry and
    turns [canUndo] on. *)
Lemma reordered_keys_are_committed :
  structurallyEqual [("y", 2); ("x", 1)] [("x", 1); ("y", 2)] = true /\
  notified (setState stringifyObject (Value [("y", 2); ("x", 1)]) (Some false)
                     (initial [("x", 1); ("y", 2)])) = true /\
  notified (setState stringifyObject (Value [("y", 2); ("x", 1)]) None
                     (initial [("x", 1); ("y", 2)])) = true /\
  next (setState stringifyObject (Value [("y", 2); ("x", 1)]) None
                 (initial [("x", 1); ("y", 2)]))
    = {| history := [[("x", 1); ("y", 2)]; [("y", 2); ("x", 1)]]; index := 1 |} /\
  canUndo (initial [("x", 1); ("y", 2)]) = false /\
  canUndo (next (setState stringifyObject (Value [("y", 2); ("x", 1)]) None
                          (initial [("x", 1); ("y", 2)]))) = true.
Proof. vm_compute. repeat split. Qed.

Lemma setState_serialising_alike_is_noop_witness :
  state {| history := [1; 2; 3]; index := 1 |} = Some 2 /\
  stringifyNat (applyAction (Updater (fun n => 2 * n - 2)) 2) = stringifyNat 2 /\
  next (setState stringifyNat (Updater (fun n => 2 * n - 2)) (Some false)
                 {| history := [1; 2; 3]; index := 1 |})
    = {| history := [1; 2; 3]; index := 1 |} /\
  notified (setState stringifyNat (Updater (fun n => 2 * n - 2)) (Some false)
                     {| history := [1; 2; 3]; index := 1 |}) = false.
Proof.
  assert (H1 : state {| history := [1; 2; 3]; index := 1 |} = Some 2) by reflexivity.
  assert (H2 : stringifyNat (applyAction (Updater (fun n => 2 * n - 2)) 2)
               = stringifyNat 2) by reflexivity.
  split; [exact H1|]. split; [exact H2|].
  destruct (setState_serialising_alike_is_noop stringifyNat _ 2
              (Updater (fun n => 2 * n - 2)) (Some false) H1 H2) as (Hnext & Hquiet & _).
  split; [exact Hnext|exact Hquiet].
Defined.

End HistoryFacts.

(** * Properties of the geometry module *)

Module GeometryFacts.

Import Num Geometry.
Local Open Scope R_scope.

Lemma Rleb_true (a b : R) : Rleb a b = true <-> a <= b.
Proof. unfold Rleb. destruct (Rle_dec a b); split; intros; try lra; congruence. Qed.

Lemma Rleb_false (a b : R) : Rleb a b = false <-> b < a.
Proof. unfold Rleb. destruct (Rle_dec a b); split; intros; try lra; congruence. Qed.

Lemma Rltb_true (a b : R) : Rltb a b = true <-> a < b.
Proof. unfold Rltb. destruct (Rlt_dec a b); split; intros; try lra; congruence. Qed.

Lemma Rltb_false (a b : R) : Rltb a b = false <-> b <= a.
Proof. unfold Rltb. destruct (Rlt_dec a b); split; intros; try lra; congruence. Qed.

(** Case analysis on every comparison, minimum, maximum and absolute
    value of a goal, closed by linear arithmetic. *)
Ltac by_cases :=
  unfold Rleb, Rltb, Rmin, Rmax, Rabs in *;
  repeat (match goal with
          | |- context [Rle_dec ?a ?b] => destruct (Rle_dec a b)
          | |- context [Rlt_dec ?a ?b] => destruct (Rlt_dec a b)
          | |- context [Rcase_abs ?a] => destruct (Rcase_abs a)
          | H : context [Rle_dec ?a ?b] |- _ => destruct (Rle_dec a b)
          | H : context [Rlt_dec ?a ?b] |- _ => destruct (Rlt_dec a b)
          | H : context [Rcase_abs ?a] |- _ => destruct (Rcase_abs a)
          end; try (exfalso; lra));
  simpl in *; try reflexivity; try discriminate; try lra.

(** [Math.min] is a lower bound of its arguments and is one of them. *)
Lemma Math_min_le (xs : list R) : forall x v, In v (x :: xs) -> Math_min x xs <= v.
Proof.
  unfold Math_min.
  induction xs as [|y ys IH]; intros x v Hin; simpl in *.
  - destruct Hin as [<-|[]]. lra.
  - destruct Hin as [<-|[<-|Hin]].
    + apply Rle_trans with (Rmin x y); [apply IH; left; reflexivity|apply Rmin_l].
    + apply Rle_trans with (Rmin x y); [apply IH; left; reflexivity|apply Rmin_r].
    + apply IH. right. exact Hin.
Qed.

Lemma Math_min_in (xs : list R) : forall x, In (Math_min x xs) (x :: xs).
Proof.
  unfold Math_min.
  induction xs as [|y ys IH]; intros x; simpl.
  - left. reflexivity.
  - destruct (IH (Rmin x y)) as [Heq|Hin].
    + rewrite <- Heq. unfold Rmin. destruct (Rle_dec x y); auto.
    + right. right. exact Hin.
Qed.

(** [Math.max] is an upper bound of its arguments and is one of them. *)
Lemma Math_max_ge (xs : list R) : forall x v, In v (x :: xs) -> v <= Math_max x xs.
Proof.
  unfold Math_max.
  induction xs as [|y ys IH]; intros x v Hin; simpl in *.
  - destruct Hin as [<-|[]]. lra.
  - destruct Hin as [<-|[<-|Hin]].
    + apply Rle_trans with (Rmax x y); [apply Rmax_l|apply IH; left; reflexivity].
    + apply Rle_trans with (Rmax x y); [apply Rmax_r|apply IH; left; reflexivity].
    + apply IH. right. exact Hin.
Qed.

Lemma Math_max_in (xs : list R) : forall x, In (Math_max x xs) (x :: xs).
Proof.
  unfold Math_max.
  induction xs as [|y ys IH]; intros x; simpl.
  - left. reflexivity.
  - destruct (IH (Rmax x y)) as [Heq|Hin].
    + rewrite <- Heq. unfold Rmax. destruct (Rle_dec x y); auto.
    + right. right. exact Hin.
Qed.

(** The angles used by the scenarios. *)
Lemma radians_0 : 0 * PI / 180 = 0.
Proof. field. Qed.

Lemma radians_90 : 90 * PI / 180 = PI / 2.
Proof. field. Qed.

Lemma radians_neg_90 : - (90) * PI / 180 = - (PI / 2).
Proof. field. Qed.

Lemma rotatePoint_0 (point center : Point.t) : rotatePoint point center 0 = point.
Proof.
  destruct point as [px py]. unfold rotatePoint. simpl.
  rewrite radians_0, cos_0, sin_0. f_equal; ring.
Qed.

Lemma rotatePoint_neg_90 (point center : Point.t) :
  rotatePoint point center (- (90)) =
  {| Point.x := Point.y point - Point.y center + Point.x center;
     Point.y := Point.x center - Point.x point + Point.y center |}.
Proof.
  unfold rotatePoint. rewrite radians_neg_90, cos_neg, sin_neg, cos_PI2, sin_PI2.
  f_equal; ring.
Qed.

Lemma rotatePoint_90 (point center : Point.t) :
  rotatePoint point center 90 =
  {| Point.x := Point.y center - Point.y point + Point.x center;
     Point.y := Point.x point - Point.x center + Point.y center |}.
Proof.
  unfold rotatePoint. rewrite radians_90, cos_PI2, sin_PI2.
  f_equal; ring.
Qed.

(** The box of a drawing made of one point. *)
Lemma single_point_box (d : DrawingItem.t) (p : Point.t) :
  DrawingItem.points d = [p] ->
  0 <= DrawingItem.strokeWidth d ->
  Box.width (getBoundingBox (Drawing d)) = DrawingItem.strokeWidth d /\
  Box.height (getBoundingBox (Drawing d)) = DrawingItem.strokeWidth d.
Proof.
  intros Hp Hs. simpl. rewrite Hp. unfold Math_min, Math_max. simpl.
  split; by_cases.
Qed.

(** C10: a drawing without points has the zero box, whatever its stroke
    width, and its rotated bounding box is the zero box too, whatever its
    rotation. *)
Theorem empty_drawing_has_zero_box
        (id color : string) (strokeWidth opacity rotation : R) :
  getBoundingBox
    (Drawing (DrawingItem.mk id [] color strokeWidth opacity rotation))
    = {| Box.x := 0; Box.y := 0; Box.width := 0; Box.height := 0 |} /\
  getRotatedBoundingBox
    (Drawing (DrawingItem.mk id [] color strokeWidth opacity rotation))
    = {| Box.x := 0; Box.y := 0; Box.width := 0; Box.height := 0 |}.
Proof.
  split; [reflexivity|].
  unfold getRotatedBoundingBox, getCenter, rotatePoint, Math_min, Math_max.
  simpl.
  set (c := cos (rotation * PI / 180)). set (s := sin (rotation * PI / 180)).
  replace ((0 - (0 + 0 / 2)) * c - (0 - (0 + 0 / 2)) * s + (0 + 0 / 2)) with 0 by field.
  replace ((0 - (0 + 0 / 2)) * s + (0 - (0 + 0 / 2)) * c + (0 + 0 / 2)) with 0 by field.
  replace ((0 + 0 - (0 + 0 / 2)) * c - (0 - (0 + 0 / 2)) * s + (0 + 0 / 2)) with 0 by field.
  replace ((0 + 0 - (0 + 0 / 2)) * s + (0 - (0 + 0 / 2)) * c + (0 + 0 / 2)) with 0 by field.
  replace ((0 - (0 + 0 / 2)) * c - (0 + 0 - (0 + 0 / 2)) * s + (0 + 0 / 2)) with 0 by field.
  replace ((0 - (0 + 0 / 2)) * s + (0 + 0 - (0 + 0 / 2)) * c + (0 + 0 / 2)) with 0 by field.
  replace ((0 + 0 - (0 + 0 / 2)) * c - (0 + 0 - (0 + 0 / 2)) * s + (0 + 0 / 2)) with 0 by field.
  replace ((0 + 0 - (0 + 0 / 2)) * s + (0 + 0 - (0 + 0 / 2)) * c + (0 + 0 / 2)) with 0 by field.
  assert (Hmin : Rmin 0 0 = 0) by (apply Rmin_left; lra).
  assert (Hmax : Rmax 0 0 = 0) by (apply Rmax_left; lra).
  rewrite !Hmin, !Hmax. f_equal; ring.
Qed.

End GeometryFacts.

(** * Properties of the drawing export *)

Module CanvasUtilsFacts.

Import Num Geometry CanvasUtils.
Local Open Scope R_scope.

(** With a box of positive width and height and a 2D context at hand the
    conversion resolves with an image of the size of the box. *)
Lemma convert_positive_box (getContext2d : R -> R -> bool)
      (toDataURL : DrawingItem.t -> list Point.t -> string) (d : DrawingItem.t) :
  0 < Box.width (getBoundingBox (Drawing d)) ->
  0 < Box.height (getBoundingBox (Drawing d)) ->
  (forall w h, getContext2d w h = true) ->
  exists img,
    convertDrawingToImageItem getContext2d toDataURL d = Some img /\
    ImageItem.width img = Box.width (getBoundingBox (Drawing d)) /\
    ImageItem.height img = Box.height (getBoundingBox (Drawing d)).
Proof.
  intros Hw Hh Hctx. unfold convertDrawingToImageItem. cbv zeta.
  rewrite (proj2 (GeometryFacts.Rleb_false _ _) Hw).
  rewrite (proj2 (GeometryFacts.Rleb_false _ _) Hh).
  rewrite Hctx. simpl. eexists. split; [reflexivity|]. split; reflexivity.
Qed.

(** A single-point drawing with a positive stroke width is never
    dropped when a 2D context is at hand. *)
Lemma single_point_drawing_converted (getContext2d : R -> R -> bool)
      (toDataURL : DrawingItem.t -> list Point.t -> string)
      (d : DrawingItem.t) (p : Point.t) :
  DrawingItem.points d = [p] ->
  0 < DrawingItem.strokeWidth d ->
  (forall w h, getContext2d w h = true) ->
  exists img,
    convertDrawingToImageItem getContext2d toDataURL d = Some img /\
    ImageItem.width img = DrawingItem.strokeWidth d /\
    ImageItem.height img = DrawingItem.strokeWidth d.
Proof.
  intros Hp Hs Hctx.
  destruct (GeometryFacts.single_point_box d p Hp) as [Hw Hh]; [lra|].
  destruct (convert_positive_box getContext2d toDataURL d) as (img & Himg & Hiw & Hih);
    [rewrite Hw; exact Hs|rewrite Hh; exact Hs|exact Hctx|].
  exists img. rewrite <- Hw at 1. rewrite <- Hh. auto.
Qed.

(** C1 (the code at the failing input): the one-point drawing of stroke
    width 5 has a 5 by 5 box, and its conversion resolves with a 5 by 5
    image, not with [null]. *)
Theorem dot_is_exported_as_image
        (toDataURL : DrawingItem.t -> list Point.t -> string) :
  Box.width (getBoundingBox (Drawing Scenario.dot)) = 5 /\
  Box.height (getBoundingBox (Drawing Scenario.dot)) = 5 /\
  exists img,
    convertDrawingToImageItem (fun _ _ => true) toDataURL Scenario.dot = Some img /\
    ImageItem.width img = 5 /\ ImageItem.height img = 5.
Proof.
  destruct (GeometryFacts.single_point_box Scenario.dot
              {| Point.x := 0; Point.y := 0 |} eq_refl) as [Hw Hh];
    [simpl; lra|].
  split; [exact Hw|]. split; [exact Hh|].
  apply (single_point_drawing_converted _ toDataURL Scenario.dot
           {| Point.x := 0; Point.y := 0 |} eq_refl); [simpl; lra|reflexivity].
Qed.

End CanvasUtilsFacts.

(** * Properties of the canvas gestures *)

Module CanvasFacts.

Import Num Geometry Canvas GeometryFacts.
Local Open Scope R_scope.

(** *** The resize gesture *)

(** Pressing a resize handle of an item, outside expansion mode. *)
Lemma start_resizing (props : Props) (g : Gesture) (e : MouseEvent)
      (handle : Handle) (item : CanvasItem) :
  expansionIsActive props = false ->
  handle <> H_rotate ->
  handleInteractionStart props g e handle (inl item) =
    {| interactionMode := Resizing;
       startPoint := Some {| Point.x := clientX e; Point.y := clientY e |};
       currentItem := Some item;
       currentDrawing := currentDrawing g;
       activeHandle := Some handle;
       originalItemState :=
         OrigResized item (getBoundingBox item) (getCenter (getBoundingBox item))
           (rotatePoint
              {| Point.x := Box.x (getBoundingBox item)
                            + (if includes handle "e" then 0
                               else Box.width (getBoundingBox item));
                 Point.y := Box.y (getBoundingBox item)
                            + (if includes handle "s" then 0
                               else Box.height (getBoundingBox item)) |}
              (getCenter (getBoundingBox item)) (itemRotation item));
       transientSelectionRect := transientSelectionRect g;
       expansionGhostRect := expansionGhostRect g;
       singlySelectedItemId := singlySelectedItemId g;
       gestureDidCommit := false |}.
Proof.
  intros Hexp Hh. unfold handleInteractionStart. rewrite Hexp.
  destruct handle; try reflexivity. congruence.
Qed.

Section ResizeStep.

Variables (props : Props) (g : Gesture) (e : MouseEvent).
Variables (current origItem : CanvasItem) (origBox : Box.t).
Variables (origCenter oppositeCorner start : Point.t) (handle : Handle).
Variables (newWidth newHeight : R).

Hypothesis Hmode : interactionMode g = Resizing.
Hypothesis Hcurrent : currentItem g = Some current.
Hypothesis Hstart : startPoint g = Some start.
Hypothesis Hhandle : activeHandle g = Some handle.
Hypothesis Horig :
  originalItemState g = OrigResized origItem origBox origCenter oppositeCorner.
Hypothesis Hextent :
  resizeExtent origItem origBox oppositeCorner (getCanvasPoint props e) (shiftKey e)
  = (newWidth, newHeight).

(** A step whose extent is below the floor makes no call at all. *)
Lemma resizing_step_rejected :
  newWidth < 10 \/ newHeight < 10 ->
  handleMouseMove_resizing props g e = (g, []).
Proof.
  intros Hsmall. unfold handleMouseMove_resizing.
  rewrite Hmode, Hcurrent, Hstart, Hhandle, Horig, Hextent.
  destruct Hsmall as [Hw|Hh].
  - rewrite (proj2 (Rltb_true _ _) Hw). reflexivity.
  - rewrite (proj2 (Rltb_true _ _) Hh). rewrite orb_true_r. reflexivity.
Qed.

(** A step whose extent reaches the floor hands one updater to
    [setItems]. *)
Lemma resizing_step_accepted :
  10 <= newWidth -> 10 <= newHeight ->
  handleMouseMove_resizing props g e =
    (if negb (gestureDidCommit g) then withGestureDidCommit g true else g,
     [SetItems
        (resizeUpdater current origBox origCenter
           {| Point.x := (Point.x oppositeCorner + Point.x (getCanvasPoint props e)) / 2;
              Point.y := (Point.y oppositeCorner + Point.y (getCanvasPoint props e)) / 2 |}
           ((Point.x oppositeCorner + Point.x (getCanvasPoint props e)) / 2 - newWidth / 2)
           ((Point.y oppositeCorner + Point.y (getCanvasPoint props e)) / 2 - newHeight / 2)
           newWidth newHeight)
        (negb (gestureDidCommit g))]).
Proof.
  intros Hw Hh. unfold handleMouseMove_resizing.
  rewrite Hmode, Hcurrent, Hstart, Hhandle, Horig, Hextent.
  rewrite (proj2 (Rltb_false _ _) Hw), (proj2 (Rltb_false _ _) Hh).
  reflexivity.
Qed.

End ResizeStep.

(** Without the aspect lock, on an unrotated original, the extent is the
    absolute offset of the mouse from the fixed corner. *)
Lemma resizeExtent_unrotated (origItem : CanvasItem) (origBox : Box.t)
      (oppositeCorner mouse : Point.t) :
  itemRotation origItem = 0 ->
  resizeExtent origItem origBox oppositeCorner mouse false =
    (Rabs (Point.x mouse - Point.x oppositeCorner),
     Rabs (Point.y mouse - Point.y oppositeCorner)).
Proof.
  intros Hrot. unfold resizeExtent. rewrite Hrot, Ropp_0, rotatePoint_0.
  reflexivity.
Qed.

(** C3: an image at (0, 0, 100, 100) with rotation 0 whose [se] handle is
    dragged, without the aspect lock, until the mouse is at the canvas
    point (150, 150): the resize step hands [setItems] an updater that
    turns the image into one of width 150 and height 150 at (0, 0). *)
Theorem resize_se_handle_to_150
        (props : Props) (g : Gesture) (down move : MouseEvent) (i : ImageItem.t) :
  expansionIsActive props = false ->
  ImageItem.x i = 0 -> ImageItem.y i = 0 ->
  ImageItem.width i = 100 -> ImageItem.height i = 100 ->
  ImageItem.rotation i = 0 ->
  shiftKey move = false ->
  getCanvasPoint props move = {| Point.x := 150; Point.y := 150 |} ->
  exists g' i',
    resizeMoves props [move]
                (handleInteractionStart props g down H_se (inl (Image i)))
                [Image i]
      = (g', [Image i']) /\
    ImageItem.width i' = 150 /\ ImageItem.height i' = 150 /\
    ImageItem.x i' = 0 /\ ImageItem.y i' = 0 /\
    ImageItem.rotation i' = 0 /\ ImageItem.id i' = ImageItem.id i.
Proof.
  intros Hexp Hx Hy Hw Hh Hrot Hshift Hmouse.
  rewrite (start_resizing props g down H_se (Image i) Hexp) by discriminate.
  unfold resizeMoves. simpl fold_left.
  erewrite resizing_step_accepted with (newWidth := 150) (newHeight := 150);
    try reflexivity; try lra.
  - simpl. rewrite String.eqb_refl. simpl.
    do 2 eexists. split; [reflexivity|]. simpl.
    rewrite Hmouse, Hx, Hy, Hw, Hh, Hrot, radians_0, cos_0, sin_0. simpl.
    repeat split; try reflexivity; lra.
  - rewrite Hshift, Hmouse. rewrite resizeExtent_unrotated by exact Hrot.
    simpl. rewrite Hrot, Hw, Hh, radians_0, cos_0, sin_0, Hx, Hy.
    f_equal; by_cases.
Qed.

(** The box of the sample stroke. *)
Lemma stroke_box :
  getBoundingBox (Drawing Scenario.stroke)
  = {| Box.x := -1; Box.y := -1; Box.width := 20; Box.height := 20 |}.
Proof.
  unfold getBoundingBox, Math_min, Math_max. simpl.
  f_equal; by_cases.
Qed.

(** C9 (the code at the failing input): the sample stroke enters a resize
    gesture by its [se] handle with a 20 by 20 box; two pointer moves, to
    (10, 10) and to (9, 9), both pass the floor (extents 11 and 10), and
    the second rescales the points the first one had already rescaled:
    the stroke ends with a box of 6.95 by 6.95. *)
Theorem drawing_resize_compounds_below_floor :
  Box.width (getBoundingBox (Drawing Scenario.stroke)) = 20 /\
  Box.height (getBoundingBox (Drawing Scenario.stroke)) = 20 /\
  exists g' d',
    resizeMoves (Scenario.props [Drawing Scenario.stroke])
                [Scenario.mouseAt 10 10; Scenario.mouseAt 9 9]
                (handleInteractionStart (Scenario.props [Drawing Scenario.stroke])
                   Scenario.idle (Scenario.mouseAt 19 19) H_se
                   (inl (Drawing Scenario.stroke)))
                [Drawing Scenario.stroke]
      = (g', [Drawing d']) /\
    Box.width (getBoundingBox (Drawing d')) = 139 / 20 /\
    Box.height (getBoundingBox (Drawing d')) = 139 / 20.
Proof.
  split; [rewrite stroke_box; reflexivity|].
  split; [rewrite stroke_box; reflexivity|].
  rewrite start_resizing by (reflexivity || discriminate).
  rewrite stroke_box.
  unfold resizeMoves. simpl fold_left.
  erewrite resizing_step_accepted with (newWidth := 11) (newHeight := 11);
    try reflexivity; try lra.
  2:{ rewrite resizeExtent_unrotated by reflexivity.
      unfold rotatePoint, getCenter, getCanvasPoint. simpl.
      rewrite radians_0, cos_0, sin_0. f_equal; by_cases. }
  simpl applyCalls.
  erewrite resizing_step_accepted with (newWidth := 10) (newHeight := 10);
    try reflexivity; try lra.
  2:{ rewrite resizeExtent_unrotated by reflexivity.
      unfold rotatePoint, getCenter, getCanvasPoint. simpl.
      rewrite radians_0, cos_0, sin_0. f_equal; by_cases. }
  do 2 eexists. split; [reflexivity|].
  unfold getBoundingBox, rotatePoint, getCenter, getCanvasPoint, Math_min, Math_max.
  simpl. rewrite radians_0, cos_0, sin_0.
  split; by_cases.
Qed.

(** Resizing never stores a width or height below 10 in an image, text
    or video item: a step either makes no call or writes an extent that
    passed the floor. *)
Lemma resize_keeps_stored_floor (props : Props) (g : Gesture) (e : MouseEvent)
      (items : list CanvasItem) :
  Forall storedSizeAtLeast10 items ->
  Forall storedSizeAtLeast10
         (applyCalls (snd (handleMouseMove_resizing props g e)) items).
Proof.
  intros Hitems. unfold handleMouseMove_resizing.
  destruct (interactionMode g); try exact Hitems.
  destruct (currentItem g) as [current|]; try exact Hitems.
  destruct (startPoint g); try exact Hitems.
  destruct (activeHandle g); try exact Hitems.
  destruct (originalItemState g) as [| | |origItem origBox origCenter opp|];
    try exact Hitems.
  destruct (resizeExtent _ _ _ _ _) as [nw nh].
  destruct (Rltb nw 10 || Rltb nh 10) eqn:Hfloor; [exact Hitems|].
  apply orb_false_elim in Hfloor. destruct Hfloor as [Hw Hh].
  apply Rltb_false in Hw. apply Rltb_false in Hh.
  simpl. unfold resizeUpdater. apply Forall_map.
  eapply Forall_impl; [exact Hitems|].
  intros item Hitem. destruct (negb _); [exact Hitem|].
  destruct item; simpl; auto.
Qed.

Lemma resizeMoves_keep_stored_floor (props : Props) (events : list MouseEvent) :
  forall g items,
    Forall storedSizeAtLeast10 items ->
    Forall storedSizeAtLeast10 (snd (resizeMoves props events g items)).
Proof.
  unfold resizeMoves.
  induction events as [|e events IH]; intros g items Hitems; simpl; [exact Hitems|].
  pose proof (resize_keeps_stored_floor props g e items Hitems) as Hstep.
  destruct (handleMouseMove_resizing props g e) as [g' calls]. simpl in Hstep.
  apply IH. exact Hstep.
Qed.

(** *** Hit-testing *)

Section FindItem.

Open Scope nat_scope.

Variables (items : list CanvasItem) (ghosted : list string) (point : Point.t).

Lemma skipped_or_missed (item : CanvasItem) :
  ~ eligible ghosted point item ->
  bool_decide (itemId item ∈ ghosted) = true \/
  (bool_decide (itemId item ∈ ghosted) = false /\ hitsItem point item = false).
Proof.
  intros Hne. unfold eligible in Hne.
  destruct (bool_decide (itemId item ∈ ghosted)) eqn:Hg; [left; reflexivity|].
  right. split; [reflexivity|]. apply bool_decide_eq_false in Hg.
  destruct (hitsItem point item); [tauto|reflexivity].
Qed.

(** The loop returns an eligible item and has passed over none. *)
Lemma findItemAtPoint_from_Some (n : nat) : forall item,
  findItemAtPoint_from items ghosted point n = Some item ->
  exists i, i < n /\ items !! i = Some item /\ eligible ghosted point item /\
            forall j other, i < j < n -> items !! j = Some other ->
                            ~ eligible ghosted point other.
Proof.
  induction n as [|n IH]; intros item Hfind; simpl in Hfind; [discriminate|].
  destruct (items !! n) as [top|] eqn:Htop; [|discriminate].
  assert (Hbelow : findItemAtPoint_from items ghosted point n = Some item ->
                   ~ eligible ghosted point top ->
                   exists i, i < S n /\ items !! i = Some item /\
                             eligible ghosted point item /\
                             forall j other, i < j < S n -> items !! j = Some other ->
                                             ~ eligible ghosted point other).
  { intros Hrec Htopne. destruct (IH item Hrec) as (i & Hi & Hlook & Hel & Hlater).
    exists i. split; [lia|]. split; [exact Hlook|]. split; [exact Hel|].
    intros j other Hj Hother. destruct (decide (j = n)) as [->|Hjn].
    - rewrite Htop in Hother. injection Hother as <-. exact Htopne.
    - apply (Hlater j other); [lia|exact Hother]. }
  destruct (bool_decide (itemId top ∈ ghosted)) eqn:Hg.
  - apply Hbelow; [exact Hfind|]. apply bool_decide_eq_true in Hg.
    unfold eligible. tauto.
  - destruct (hitsItem point top) eqn:Hhit.
    + injection Hfind as <-. exists n. split; [lia|]. split; [exact Htop|].
      split; [split; [apply bool_decide_eq_false in Hg; exact Hg|exact Hhit]|].
      intros j other Hj. lia.
    + apply Hbelow; [exact Hfind|]. unfold eligible. rewrite Hhit.
      intros [_ Hfalse]. discriminate.
Qed.

(** The loop returns the last eligible item among the first [n]. *)
Lemma findItemAtPoint_from_last (n : nat) : forall i item,
  i < n -> n <= length items ->
  items !! i = Some item -> eligible ghosted point item ->
  (forall j other, i < j < n -> items !! j = Some other ->
                   ~ eligible ghosted point other) ->
  findItemAtPoint_from items ghosted point n = Some item.
Proof.
  induction n as [|n IH]; intros i item Hi Hn Hlook Hel Hlater; [lia|].
  simpl. destruct (lookup_lt_is_Some_2 items n) as [top Htop]; [lia|].
  rewrite Htop. destruct (decide (i = n)) as [->|Hin].
  - rewrite Htop in Hlook. injection Hlook as ->.
    destruct Hel as [Hg Hhit].
    rewrite (bool_decide_eq_false_2 _ Hg), Hhit. reflexivity.
  - assert (Hrec : findItemAtPoint_from items ghosted point n = Some item).
    { apply (IH i item); [lia|lia|exact Hlook|exact Hel|].
      intros j other Hj. apply Hlater. lia. }
    destruct (skipped_or_missed top) as [Hg|[Hg Hhit]].
    + apply (Hlater n top); [lia|exact Htop].
    + rewrite Hg. exact Hrec.
    + rewrite Hg, Hhit. exact Hrec.
Qed.

(** The loop returns nothing exactly when it met no eligible item. *)
Lemma findItemAtPoint_from_None (n : nat) :
  n <= length items ->
  (findItemAtPoint_from items ghosted point n = None <->
   forall i item, i < n -> items !! i = Some item -> ~ eligible ghosted point item).
Proof.
  intros Hn. split.
  - intros Hnone i item Hi Hlook Hel.
    (* the last eligible index below n would be returned *)
    revert i item Hi Hlook Hel. induction n as [|n IH]; intros i item Hi Hlook Hel; [lia|].
    simpl in Hnone. destruct (lookup_lt_is_Some_2 items n) as [top Htop]; [lia|].
    rewrite Htop in Hnone.
    destruct (bool_decide (itemId top ∈ ghosted)) eqn:Hg.
    + destruct (decide (i = n)) as [->|Hin].
      * rewrite Htop in Hlook. injection Hlook as ->.
        apply bool_decide_eq_true in Hg. destruct Hel. tauto.
      * apply (IH ltac:(lia) Hnone i item); [lia|exact Hlook|exact Hel].
    + destruct (hitsItem point top) eqn:Hhit; [discriminate|].
      destruct (decide (i = n)) as [->|Hin].
      * rewrite Htop in Hlook. injection Hlook as ->.
        destruct Hel as [_ Hel]. congruence.
      * apply (IH ltac:(lia) Hnone i item); [lia|exact Hlook|exact Hel].
  - intros Hall. destruct (findItemAtPoint_from items ghosted point n) as [item|] eqn:Hfind;
      [|reflexivity].
    destruct (findItemAtPoint_from_Some n item Hfind) as (i & Hi & Hlook & Hel & _).
    exfalso. exact (Hall i item Hi Hlook Hel).
Qed.

End FindItem.

(** On a single visible item the loop is the hit test. *)
Lemma findItemAtPoint_single (item : CanvasItem) (point : Point.t) :
  findItemAtPoint (Scenario.props [item]) point
  = if hitsItem point item then Some item else None.
Proof.
  unfold findItemAtPoint, Scenario.props.
  cbn [items ghostedItemIds length findItemAtPoint_from].
  change ([item] !! 0%nat) with (Some item). cbv beta iota.
  rewrite bool_decide_eq_false_2 by apply not_elem_of_nil.
  destruct (hitsItem point item); reflexivity.
Qed.

(** The box occupied by an image turned by 90 degrees: its sides are
    swapped about the centre. *)
Lemma quarter_turn_box (i : ImageItem.t) :
  ImageItem.rotation i = 90 ->
  0 <= ImageItem.width i -> 0 <= ImageItem.height i ->
  getRotatedBoundingBox (Image i)
  = {| Box.x := ImageItem.x i + ImageItem.width i / 2 - ImageItem.height i / 2;
       Box.y := ImageItem.y i + ImageItem.height i / 2 - ImageItem.width i / 2;
       Box.width := ImageItem.height i;
       Box.height := ImageItem.width i |}.
Proof.
  intros Hrot Hw Hh. unfold getRotatedBoundingBox. cbv zeta.
  change (itemRotation (Image i)) with (ImageItem.rotation i). rewrite Hrot.
  cbn [map]. rewrite !rotatePoint_90.
  unfold Math_min, Math_max. simpl.
  f_equal; by_cases.
Qed.

(** For an image turned by 90 degrees the hit test is containment in the
    box it occupies. *)
Lemma hits_quarter_turn (i : ImageItem.t) (q : Point.t) :
  ImageItem.rotation i = 90 ->
  0 <= ImageItem.width i -> 0 <= ImageItem.height i ->
  hitsItem q (Image i) = isPointInBox q (getRotatedBoundingBox (Image i)).
Proof.
  intros Hrot Hw Hh. rewrite (quarter_turn_box i Hrot Hw Hh).
  unfold hitsItem, isPointInBox. cbv zeta.
  change (itemRotation (Image i)) with (ImageItem.rotation i). rewrite Hrot.
  rewrite rotatePoint_neg_90. simpl.
  by_cases.
Qed.

(** C7: [findItemAtPoint] tests each item by un-rotating the point about
    the centre of the item's box; it returns the last item of the array
    that is not ghosted and passes the test, and [null] when there is
    none.  For an image turned by 90 degrees the test is containment in
    the box the image occupies after the turn.  For the banner
    (0, 0, 200, 100) that box is (50, -50, 100, 200): the points (140, 10)
    and (100, 120) hit, and (190, 10), inside the un-rotated box and hit
    before the turn, misses. *)
Theorem findItemAtPoint_topmost_hit (props : Props) (point : Point.t) :
  (forall item,
     hitsItem point item
     = isPointInBox (rotatePoint point (getCenter (getBoundingBox item))
                                 (- itemRotation item))
                    (getBoundingBox item)) /\
  (forall item,
     findItemAtPoint props point = Some item <->
     exists i, items props !! i = Some item /\
               eligible (ghostedItemIds props) point item /\
               forall j other, (i < j)%nat -> items props !! j = Some other ->
                               ~ eligible (ghostedItemIds props) point other) /\
  (findItemAtPoint props point = None <->
   forall i item, items props !! i = Some item ->
                  ~ eligible (ghostedItemIds props) point item) /\
  (forall i q,
     ImageItem.rotation i = 90 ->
     0 <= ImageItem.width i -> 0 <= ImageItem.height i ->
     hitsItem q (Image i) = isPointInBox q (getRotatedBoundingBox (Image i))) /\
  getRotatedBoundingBox (Image (Scenario.banner 90))
    = {| Box.x := 50; Box.y := -50; Box.width := 100; Box.height := 200 |} /\
  findItemAtPoint (Scenario.props [Image (Scenario.banner 90)])
                  {| Point.x := 140; Point.y := 10 |}
    = Some (Image (Scenario.banner 90)) /\
  findItemAtPoint (Scenario.props [Image (Scenario.banner 90)])
                  {| Point.x := 100; Point.y := 120 |}
    = Some (Image (Scenario.banner 90)) /\
  isPointInBox {| Point.x := 190; Point.y := 10 |}
               (getBoundingBox (Image (Scenario.banner 90))) = true /\
  findItemAtPoint (Scenario.props [Image (Scenario.banner 0)])
                  {| Point.x := 190; Point.y := 10 |}
    = Some (Image (Scenario.banner 0)) /\
  findItemAtPoint (Scenario.props [Image (Scenario.banner 90)])
                  {| Point.x := 190; Point.y := 10 |}
    = None.
Proof.
  assert (Hbox : getRotatedBoundingBox (Image (Scenario.banner 90))
                 = {| Box.x := 50; Box.y := -50; Box.width := 100; Box.height := 200 |}).
  { rewrite quarter_turn_box by (simpl; lra). simpl. f_equal; lra. }
  assert (Hturned : forall q,
             hitsItem q (Image (Scenario.banner 90))
             = isPointInBox q (getRotatedBoundingBox (Image (Scenario.banner 90)))).
  { intros q. apply hits_quarter_turn; simpl; lra. }
  split; [intros item; reflexivity|].
  split; [|split].
  - intros item. unfold findItemAtPoint. split.
    + intros Hfind.
      destruct (findItemAtPoint_from_Some _ _ _ _ _ Hfind) as (i & Hi & Hlook & Hel & Hlater).
      exists i. split; [exact Hlook|]. split; [exact Hel|].
      intros j other Hj Hother. apply (Hlater j other); [|exact Hother].
      apply lookup_lt_Some in Hother. lia.
    + intros (i & Hlook & Hel & Hlater).
      apply (findItemAtPoint_from_last _ _ _ _ i item);
        [eapply lookup_lt_Some; exact Hlook|lia|exact Hlook|exact Hel|].
      intros j other Hj. apply Hlater. lia.
  - unfold findItemAtPoint. rewrite findItemAtPoint_from_None by lia. split.
    + intros Hall i item Hlook. apply (Hall i item); [|exact Hlook].
      eapply lookup_lt_Some; exact Hlook.
    + intros Hall i item _ Hlook. exact (Hall i item Hlook).
  - split; [intros i q; apply hits_quarter_turn|]. split; [exact Hbox|].
    rewrite !findItemAtPoint_single, !Hturned, Hbox.
    repeat split.
    + unfold isPointInBox. simpl. by_cases.
    + unfold isPointInBox. simpl. by_cases.
    + unfold isPointInBox. simpl. by_cases.
    + unfold hitsItem. cbv zeta.
      change (itemRotation (Image (Scenario.banner 0))) with 0.
      rewrite Ropp_0, rotatePoint_0. simpl. by_cases.
    + unfold isPointInBox. simpl. by_cases.
Qed.

(** *** Marquee release *)

Lemma min_of_boxes (f : Box.t -> R) (b : Box.t) (bs : list Box.t) :
  (forall b', In b' (b :: bs) -> Math_min (f b) (map f bs) <= f b') /\
  (exists b', In b' (b :: bs) /\ f b' = Math_min (f b) (map f bs)).
Proof.
  split.
  - intros b' Hin. apply Math_min_le. change (In (f b') (map f (b :: bs))).
    apply in_map. exact Hin.
  - pose proof (Math_min_in (map f bs) (f b)) as Hin.
    change (In (Math_min (f b) (map f bs)) (map f (b :: bs))) in Hin.
    apply in_map_iff in Hin. destruct Hin as (b' & Heq & Hin). eauto.
Qed.

Lemma max_of_boxes (f : Box.t -> R) (b : Box.t) (bs : list Box.t) :
  (forall b', In b' (b :: bs) -> f b' <= Math_max (f b) (map f bs)) /\
  (exists b', In b' (b :: bs) /\ f b' = Math_max (f b) (map f bs)).
Proof.
  split.
  - intros b' Hin. apply Math_max_ge. change (In (f b') (map f (b :: bs))).
    apply in_map. exact Hin.
  - pose proof (Math_max_in (map f bs) (f b)) as Hin.
    change (In (Math_max (f b) (map f bs)) (map f (b :: bs))) in Hin.
    apply in_map_iff in Hin. destruct Hin as (b' & Heq & Hin). eauto.
Qed.

(** The reported rectangle is the union of the rotated boxes. *)
Lemma encompassingRect_exact (first : CanvasItem) (others : list CanvasItem) :
  exactUnion (encompassingRect first others)
             (map getRotatedBoundingBox (first :: others)).
Proof.
  unfold encompassingRect. cbv zeta. cbn [map].
  generalize (getRotatedBoundingBox first) (map getRotatedBoundingBox others).
  intros b bs.
  destruct (min_of_boxes Box.x b bs) as [HminX [bx [Hbx HbxEq]]].
  destruct (min_of_boxes Box.y b bs) as [HminY [by' [Hby HbyEq]]].
  destruct (max_of_boxes (fun b => Box.x b + Box.width b) b bs)
    as [HmaxX [cx [Hcx HcxEq]]].
  destruct (max_of_boxes (fun b => Box.y b + Box.height b) b bs)
    as [HmaxY [cy [Hcy HcyEq]]].
  unfold exactUnion. simpl Box.x. simpl Box.y. simpl Box.width. simpl Box.height.
  split; [|split; [|split; [|split]]].
  - intros b' Hin.
    specialize (HminX b' Hin). specialize (HminY b' Hin).
    specialize (HmaxX b' Hin). specialize (HmaxY b' Hin).
    cbv beta in HmaxX, HmaxY. repeat split; lra.
  - exists bx. split; [exact Hbx|exact HbxEq].
  - exists by'. split; [exact Hby|exact HbyEq].
  - exists cx. split; [exact Hcx|]. cbv beta in HcxEq. lra.
  - exists cy. split; [exact Hcy|]. cbv beta in HcyEq. lra.
Qed.

Lemma mouse_up_selecting (props : Props) (g : Gesture) (e : MouseEvent) (rect : Box.t) :
  interactionMode g = Selecting ->
  transientSelectionRect g = Some rect ->
  snd (handleMouseUp props g e) = [fst (finishSelecting (items props) rect)].
Proof.
  intros Hmode Hrect. unfold handleMouseUp. rewrite Hmode, Hrect. simpl.
  destruct (finishSelecting (items props) rect). reflexivity.
Qed.

(** An unrotated image occupies its own box. *)
Lemma unrotated_image_box (i : ImageItem.t) :
  ImageItem.rotation i = 0 ->
  0 <= ImageItem.width i -> 0 <= ImageItem.height i ->
  getRotatedBoundingBox (Image i) = getBoundingBox (Image i).
Proof.
  intros Hrot Hw Hh. unfold getRotatedBoundingBox. cbv zeta.
  change (itemRotation (Image i)) with (ImageItem.rotation i). rewrite Hrot.
  cbn [map]. rewrite !rotatePoint_0.
  unfold Math_min, Math_max. simpl.
  f_equal; by_cases.
Qed.

(** C8: on release of a marquee, the items handed to [onSelectionChange]
    are those whose rotated bounding box overlaps the marquee.  If there
    is at least one and the marquee is wider and higher than 5, the
    reported rectangle is the union of their rotated bounding boxes;
    otherwise the selection is cleared, as for the 3 by 3 marquee at
    (9, 9) over the two overlapping tiles. *)
Theorem marquee_release (props : Props) (g : Gesture) (e : MouseEvent) (rect : Box.t) :
  interactionMode g = Selecting ->
  transientSelectionRect g = Some rect ->
  (forall item,
     In item (List.filter (fun item => isItemInSelection item rect) (items props)) <->
     In item (items props) /\
     Box.x (getRotatedBoundingBox item) < Box.x rect + Box.width rect /\
     Box.x rect < Box.x (getRotatedBoundingBox item)
                  + Box.width (getRotatedBoundingBox item) /\
     Box.y (getRotatedBoundingBox item) < Box.y rect + Box.height rect /\
     Box.y rect < Box.y (getRotatedBoundingBox item)
                  + Box.height (getRotatedBoundingBox item)) /\
  (List.filter (fun item => isItemInSelection item rect) (items props) <> [] ->
   5 < Box.width rect -> 5 < Box.height rect ->
   exists r,
     snd (handleMouseUp props g e) =
       [OnSelectionChange
          (Some r)
          (List.filter (fun item => isItemInSelection item rect) (items props))] /\
     exactUnion r
       (map getRotatedBoundingBox
            (List.filter (fun item => isItemInSelection item rect) (items props)))) /\
  (List.filter (fun item => isItemInSelection item rect) (items props) = [] \/
   Box.width rect <= 5 \/ Box.height rect <= 5 ->
   snd (handleMouseUp props g e) = [OnSelectionChange None []]) /\
  List.filter
    (fun item => isItemInSelection item
                   {| Box.x := 9; Box.y := 9; Box.width := 3; Box.height := 3 |})
    [Image Scenario.left_tile; Image Scenario.right_tile]
    = [Image Scenario.left_tile; Image Scenario.right_tile] /\
  snd (handleMouseUp
         (Scenario.props [Image Scenario.left_tile; Image Scenario.right_tile])
         (Scenario.selecting
            {| Box.x := 9; Box.y := 9; Box.width := 3; Box.height := 3 |})
         (Scenario.mouseAt 12 12))
    = [OnSelectionChange None []].
Proof.
  intros Hmode Hrect.
  assert (Hcleared : forall items' rect',
             List.filter (fun item => isItemInSelection item rect') items' = [] \/
             Box.width rect' <= 5 \/ Box.height rect' <= 5 ->
             fst (finishSelecting items' rect') = OnSelectionChange None []).
  { intros items' rect' Hcase. unfold finishSelecting.
    destruct (List.filter _ items') as [|first others]; [reflexivity|].
    destruct Hcase as [Hnil|[Hw|Hh]]; [discriminate| |].
    - rewrite (proj2 (Rltb_false _ _) Hw). reflexivity.
    - rewrite (proj2 (Rltb_false _ _) Hh). rewrite andb_false_r. reflexivity. }
  split; [|split; [|split; [|split]]].
  - intros item. rewrite filter_In. unfold isItemInSelection. cbv zeta.
    rewrite !andb_true_iff, !Rltb_true. tauto.
  - intros Hsome Hw Hh. rewrite (mouse_up_selecting props g e rect Hmode Hrect).
    unfold finishSelecting.
    destruct (List.filter _ (items props)) as [|first others]; [congruence|].
    rewrite (proj2 (Rltb_true _ _) Hw), (proj2 (Rltb_true _ _) Hh). simpl.
    eexists. split; [reflexivity|]. apply encompassingRect_exact.
  - intros Hcase. rewrite (mouse_up_selecting props g e rect Hmode Hrect).
    rewrite Hcleared by exact Hcase. reflexivity.
  - unfold List.filter, isItemInSelection. cbv zeta.
    rewrite !unrotated_image_box by (simpl; lra). simpl.
    by_cases.
  - rewrite (mouse_up_selecting _ _ _
               {| Box.x := 9; Box.y := 9; Box.width := 3; Box.height := 3 |})
      by reflexivity.
    rewrite Hcleared by (right; left; simpl; lra). reflexivity.
Qed.

Lemma resize_se_handle_to_150_witness :
  getCanvasPoint (Scenario.props [Image Scenario.square]) (Scenario.mouseAt 150 150)
    = {| Point.x := 150; Point.y := 150 |} /\
  exists g' i',
    resizeMoves (Scenario.props [Image Scenario.square]) [Scenario.mouseAt 150 150]
                (handleInteractionStart (Scenario.props [Image Scenario.square])
                   Scenario.idle (Scenario.mouseAt 100 100) H_se
                   (inl (Image Scenario.square)))
                [Image Scenario.square]
      = (g', [Image i']) /\
    ImageItem.width i' = 150 /\ ImageItem.height i' = 150 /\
    ImageItem.x i' = 0 /\ ImageItem.y i' = 0 /\
    ImageItem.rotation i' = 0 /\ ImageItem.id i' = ImageItem.id Scenario.square.
Proof.
  assert (Hmouse : getCanvasPoint (Scenario.props [Image Scenario.square])
                                  (Scenario.mouseAt 150 150)
                   = {| Point.x := 150; Point.y := 150 |}).
  { unfold getCanvasPoint. simpl. f_equal; lra. }
  split; [exact Hmouse|].
  exact (resize_se_handle_to_150
           (Scenario.props [Image Scenario.square]) Scenario.idle
           (Scenario.mouseAt 100 100) (Scenario.mouseAt 150 150) Scenario.square
           eq_refl eq_refl eq_refl eq_refl eq_refl eq_refl eq_refl Hmouse).
Defined.

Lemma marquee_release_witness :
  interactionMode
    (Scenario.selecting {| Box.x := 9; Box.y := 9; Box.width := 3; Box.height := 3 |})
    = Selecting /\
  snd (handleMouseUp
         (Scenario.props [Image Scenario.left_tile; Image Scenario.right_tile])
         (Scenario.selecting
            {| Box.x := 9; Box.y := 9; Box.width := 3; Box.height := 3 |})
         (Scenario.mouseAt 12 12))
    = [OnSelectionChange None []].
Proof.
  split; [reflexivity|].
  refine (proj1 (proj2 (proj2
            (marquee_release
               (Scenario.props [Image Scenario.left_tile; Image Scenario.right_tile])
               (Scenario.selecting
                  {| Box.x := 9; Box.y := 9; Box.width := 3; Box.height := 3 |})
               (Scenario.mouseAt 12 12)
               {| Box.x := 9; Box.y := 9; Box.width := 3; Box.height := 3 |}
               eq_refl eq_refl))) _).
  right. left. simpl. lra.
Defined.

End CanvasFacts.

(** * More properties of the history store *)

Module HistoryExtras.

Import History HistoryFacts HistoryRuns.

Section Runs.

Context {T : Type}.
Variable stringify : T -> string.

Implicit Types (s : HistoryState T) (a : Action T) (o : Options) (x cur : T).

(** X1: whatever is called on the hook, the index stays inside the
    history list, which is never empty, and the hook has a current
    value. *)
Theorem index_stays_in_range (initialState : T) (ops : list (Op T)) :
  index (run stringify ops (initial initialState))
    < length (history (run stringify ops (initial initialState))) /\
  exists current, state (run stringify ops (initial initialState)) = Some current.
Proof.
  assert (Hwf : wf (run stringify ops (initial initialState)))
    by (apply wf_run, wf_initial).
  split; [exact Hwf|]. apply wf_state. exact Hwf.
Qed.

(** X2: a committing [setState] whose value differs from the current one
    makes that value current one index further, cuts the list right after
    it (nothing is left to redo, [redo] does nothing), keeps every entry
    up to the old index, and fires the callback. *)
Theorem commit_discards_redo_entries s cur a o :
  state s = Some cur ->
  stringify (applyAction a cur) <> stringify cur ->
  commitOf o = true ->
  state (next (setState stringify a o s)) = Some (applyAction a cur) /\
  index (next (setState stringify a o s)) = index s + 1 /\
  length (history (next (setState stringify a o s))) = index s + 2 /\
  (forall j, j <= index s ->
     history (next (setState stringify a o s)) !! j = history s !! j) /\
  canUndo (next (setState stringify a o s)) = true /\
  canRedo (next (setState stringify a o s)) = false /\
  redo (next (setState stringify a o s)) = unchanged (next (setState stringify a o s)) /\
  notified (setState stringify a o s) = true.
Proof.
  intros Hcur Hdiff Hc.
  assert (Hwf : wf s) by (eapply state_wf; eassumption). unfold wf in Hwf.
  rewrite (setState_commit stringify a o s cur Hcur Hdiff Hc). simpl.
  assert (Hlen : length (take (index s + 1) (history s) ++ [applyAction a cur])
                 = index s + 2) by (apply committed_length; exact Hwf).
  assert (Htake : length (take (index s + 1) (history s)) = index s + 1)
    by (rewrite length_take_le; lia).
  repeat split.
  - unfold state. simpl. rewrite lookup_app_r by lia.
    rewrite Htake. replace (index s + 1 - (index s + 1)) with 0 by lia. reflexivity.
  - exact Hlen.
  - intros j Hj. rewrite lookup_app_l by lia. apply lookup_take_lt. lia.
  - unfold canUndo. simpl. apply Nat.ltb_lt. lia.
  - unfold canRedo. simpl. rewrite Hlen. apply Nat.ltb_ge. lia.
  - unfold redo. simpl. rewrite Hlen.
    destruct (Nat.ltb_spec (index s + 1) (index s + 2 - 1)); [lia|reflexivity].
Qed.

(** X3: [undo] and [redo] only move the index.  When [canUndo] holds,
    [redo] after [undo] gives the state back; when [canRedo] holds,
    [undo] after [redo] does; when they do not hold the calls change
    nothing and fire nothing. *)
Theorem undo_redo_are_inverse s :
  index s < length (history s) ->
  history (next (undo s)) = history s /\
  history (next (redo s)) = history s /\
  (canUndo s = true -> next (redo (next (undo s))) = s) /\
  (canRedo s = true -> next (undo (next (redo s))) = s) /\
  (canUndo s = false -> undo s = unchanged s) /\
  (canRedo s = false -> redo s = unchanged s).
Proof.
  intros Hwf. destruct s as [l i]. simpl in Hwf.
  unfold canUndo, canRedo, undo, redo. simpl.
  split; [destruct (0 <? i); reflexivity|].
  split; [destruct (i <? length l - 1); reflexivity|].
  split; [|split; [|split]].
  - intros Hu. rewrite Hu. simpl. apply Nat.ltb_lt in Hu.
    destruct (Nat.ltb_spec (i - 1) (length l - 1)); [|lia]. simpl.
    f_equal. lia.
  - intros Hr. rewrite Hr. simpl. apply Nat.ltb_lt in Hr.
    destruct (Nat.ltb_spec 0 (i + 1)); [|lia]. simpl. f_equal. lia.
  - intros Hu. rewrite Hu. reflexivity.
  - intros Hr. rewrite Hr. reflexivity.
Qed.

(** A run of [undo] only lowers the index. *)
Lemma run_undos (n : nat) : forall s,
  history (run stringify (undos n) s) = history s /\
  index (run stringify (undos n) s) = index s - n.
Proof.
  unfold undos.
  induction n as [|n IH]; intros s; simpl; [split; [reflexivity|lia]|].
  destruct (IH (next (undo s))) as [Hh Hi]. rewrite Hh, Hi.
  unfold undo. destruct (Nat.ltb_spec 0 (index s)); simpl; split; try reflexivity; lia.
Qed.

(** One committed update that the guard does not skip. *)
Lemma committed_step s cur a o :
  state s = Some cur ->
  stringify (applyAction a cur) <> stringify cur ->
  commitOf o = true ->
  state (next (setState stringify a o s)) = Some (applyAction a cur) /\
  index (next (setState stringify a o s)) = index s + 1 /\
  (forall j, j <= index s ->
     history (next (setState stringify a o s)) !! j = history s !! j).
Proof.
  intros Hcur Hdiff Hc.
  assert (Hwf : wf s) by (eapply state_wf; eassumption). unfold wf in Hwf.
  rewrite (setState_commit stringify a o s cur Hcur Hdiff Hc). simpl.
  assert (Htake : length (take (index s + 1) (history s)) = index s + 1)
    by (rewrite length_take_le; lia).
  repeat split.
  - unfold state. simpl. rewrite lookup_app_r by lia.
    rewrite Htake. replace (index s + 1 - (index s + 1)) with 0 by lia. reflexivity.
  - intros j Hj. rewrite lookup_app_l by lia. apply lookup_take_lt. lia.
Qed.

Lemma last_after_cons (values : list T) : forall v cur,
  List.last (v :: values) cur = List.last values v.
Proof.
  induction values as [|t values IH]; intros v cur; [reflexivity|].
  change (List.last (v :: t :: values) cur) with (List.last (t :: values) cur).
  rewrite (IH t cur), (IH t v). reflexivity.
Qed.

(** A run of updates that the guard does not skip, all committed. *)
Lemma run_commits (values : list T) : forall s cur,
  state s = Some cur ->
  eachChanges stringify cur values ->
  index (run stringify (commits values) s) = index s + length values /\
  state (run stringify (commits values) s) = Some (List.last values cur) /\
  (forall j, j <= index s ->
     history (run stringify (commits values) s) !! j = history s !! j).
Proof.
  unfold commits.
  induction values as [|v values IH]; intros s cur Hcur Hch.
  - simpl. repeat split; [lia|exact Hcur].
  - destruct Hch as [Hdiff Hch].
    destruct (committed_step s cur (Value v) None Hcur Hdiff eq_refl)
      as (Hstate & Hindex & Hprefix).
    destruct (IH _ v Hstate Hch) as (Hi & Hs & Hp).
    change (run stringify (map (fun v0 : T => OpSetState (Value v0) None) (v :: values)) s)
      with (run stringify (map (fun v0 : T => OpSetState (Value v0) None) values)
                (next (setState stringify (Value v) None s))).
    rewrite Hi, Hindex. simpl length.
    split; [lia|]. split.
    + rewrite Hs, last_after_cons. reflexivity.
    + intros j Hj. rewrite Hp by (rewrite Hindex; lia). apply Hprefix. exact Hj.
Qed.

(** X4: after [n] updates in a row, each committed and each different
    from the value before it, the index has advanced by [n], the last
    value is current, [canUndo] holds, and exactly [n] calls of [undo]
    bring the index and the current value back to where they were. *)
Theorem commits_then_undos_return s cur (values : list T) :
  state s = Some cur ->
  eachChanges stringify cur values ->
  index (run stringify (commits values) s) = index s + length values /\
  state (run stringify (commits values) s) = Some (List.last values cur) /\
  (values <> [] -> canUndo (run stringify (commits values) s) = true) /\
  index (run stringify (undos (length values)) (run stringify (commits values) s))
    = index s /\
  state (run stringify (undos (length values)) (run stringify (commits values) s))
    = Some cur.
Proof.
  intros Hcur Hch.
  destruct (run_commits values s cur Hcur Hch) as (Hi & Hs & Hp).
  destruct (run_undos (length values) (run stringify (commits values) s)) as [Hh Hu].
  split; [exact Hi|]. split; [exact Hs|]. split; [|split].
  - intros Hne. unfold canUndo. rewrite Hi. apply Nat.ltb_lt.
    destruct values; [congruence|simpl; lia].
  - rewrite Hu, Hi. lia.
  - unfold state. rewrite Hh, Hu, Hi.
    replace (index s + length values - length values) with (index s) by lia.
    rewrite Hp by lia. exact Hcur.
Qed.

(** One transient update. *)
Lemma transient_step s a :
  wf s ->
  wf (next (setState stringify a (Some false) s)) /\
  index (next (setState stringify a (Some false) s)) = index s /\
  length (history (next (setState stringify a (Some false) s))) = length (history s) /\
  (forall j, j <> index s ->
     history (next (setState stringify a (Some false) s)) !! j = history s !! j).
Proof.
  intros Hwf. destruct (wf_state s Hwf) as [cur Hcur].
  split; [apply wf_setState; exact Hwf|].
  split; [|split; [apply transient_length|]].
  - rewrite (setState_cases stringify a (Some false) s cur Hcur).
    destruct (String.eqb _ _); reflexivity.
  - intros j Hj. rewrite (setState_cases stringify a (Some false) s cur Hcur).
    destruct (String.eqb _ _); simpl; [reflexivity|].
    apply list_lookup_insert_ne. auto.
Qed.

(** A run of transient updates keeps the index, the length and every
    entry but the current one. *)
Lemma run_transients (actions : list (Action T)) : forall s,
  wf s ->
  index (run stringify (transients actions) s) = index s /\
  length (history (run stringify (transients actions) s)) = length (history s) /\
  (forall j, j <> index s ->
     history (run stringify (transients actions) s) !! j = history s !! j).
Proof.
  unfold transients.
  induction actions as [|a actions IH]; intros s Hwf; [simpl; auto|].
  destruct (transient_step s a Hwf) as (Hwf1 & Hi1 & Hl1 & Ho1).
  destruct (IH _ Hwf1) as (Hi & Hl & Ho).
  change (run stringify (map (fun action => OpSetState action (Some false)) (a :: actions)) s)
    with (run stringify (map (fun action => OpSetState action (Some false)) actions)
              (next (setState stringify a (Some false) s))).
  rewrite Hi, Hl, Hi1, Hl1. repeat split.
  intros j Hj. rewrite Ho by (rewrite Hi1; exact Hj). apply Ho1. exact Hj.
Qed.

(** A committed update that changes the value, then transient updates. *)
Lemma one_step_after_commit s cur a (actions : list (Action T)) :
  state s = Some cur ->
  stringify (applyAction a cur) <> stringify cur ->
  index (run stringify (transients actions) (next (setState stringify a (Some true) s)))
    = index s + 1 /\
  length (history (run stringify (transients actions)
                       (next (setState stringify a (Some true) s))))
    = index s + 2 /\
  canRedo (run stringify (transients actions) (next (setState stringify a (Some true) s)))
    = false /\
  state (next (undo (run stringify (transients actions)
                         (next (setState stringify a (Some true) s)))))
    = Some cur.
Proof.
  intros Hcur Hdiff.
  assert (Hwf : wf s) by (eapply state_wf; eassumption).
  destruct (committed_step s cur a (Some true) Hcur Hdiff eq_refl)
    as (Hstate & Hindex & Hprefix).
  assert (Hlen1 : length (history (next (setState stringify a (Some true) s)))
                  = index s + 2).
  { rewrite (setState_commit stringify a (Some true) s cur Hcur Hdiff eq_refl). simpl.
    apply committed_length. exact Hwf. }
  destruct (run_transients actions (next (setState stringify a (Some true) s)))
    as (Hi & Hl & Ho); [apply wf_setState; exact Hwf|].
  rewrite Hindex in Hi, Ho. rewrite Hlen1 in Hl.
  split; [exact Hi|]. split; [exact Hl|]. split.
  - unfold canRedo. rewrite Hi, Hl. apply Nat.ltb_ge. lia.
  - unfold undo. rewrite Hi.
    destruct (Nat.ltb_spec 0 (index s + 1)); [|lia]. unfold state. simpl.
    replace (index s + 1 - 1) with (index s) by lia.
    rewrite Ho by lia. rewrite Hprefix by lia. exact Hcur.
Qed.

(** A committed update that the guard skips, then transient updates. *)
Lemma no_step_after_skipped_commit s cur a (actions : list (Action T)) :
  state s = Some cur ->
  stringify (applyAction a cur) = stringify cur ->
  index (run stringify (transients actions) (next (setState stringify a (Some true) s)))
    = index s /\
  length (history (run stringify (transients actions)
                       (next (setState stringify a (Some true) s))))
    = length (history s) /\
  canUndo (run stringify (transients actions) (next (setState stringify a (Some true) s)))
    = canUndo s /\
  canRedo (run stringify (transients actions) (next (setState stringify a (Some true) s)))
    = canRedo s.
Proof.
  intros Hcur Hsame.
  assert (Hwf : wf s) by (eapply state_wf; eassumption).
  rewrite (setState_same stringify a (Some true) s cur Hcur Hsame). simpl.
  destruct (run_transients actions s Hwf) as (Hi & Hl & Ho).
  unfold canUndo, canRedo. rewrite Hi, Hl. auto.
Qed.

(** X5: a committed update that changes the value, followed by any
    number of [commit: false] updates, adds exactly one entry: the index
    is one further, nothing is left to redo, and one [undo] brings back
    the value that was current before the first update. *)
Theorem transient_updates_fold_into_one_step s cur a (actions : list (Action T)) :
  state s = Some cur ->
  stringify (applyAction a cur) <> stringify cur ->
  index (run stringify (transients actions) (next (setState stringify a (Some true) s)))
    = index s + 1 /\
  length (history (run stringify (transients actions)
                       (next (setState stringify a (Some true) s))))
    = index s + 2 /\
  canRedo (run stringify (transients actions) (next (setState stringify a (Some true) s)))
    = false /\
  state (next (undo (run stringify (transients actions)
                         (next (setState stringify a (Some true) s)))))
    = Some cur.
Proof.
  intros Hcur Hdiff.
  assert (Hwf : wf s) by (eapply state_wf; eassumption).
  destruct (committed_step s cur a (Some true) Hcur Hdiff eq_refl)
    as (Hstate & Hindex & Hprefix).
  assert (Hlen1 : length (history (next (setState stringify a (Some true) s)))
                  = index s + 2).
  { rewrite (setState_commit stringify a (Some true) s cur Hcur Hdiff eq_refl). simpl.
    apply committed_length. exact Hwf. }
  destruct (run_transients actions (next (setState stringify a (Some true) s)))
    as (Hi & Hl & Ho); [apply wf_setState; exact Hwf|].
  rewrite Hindex in Hi, Ho. rewrite Hlen1 in Hl.
  split; [exact Hi|]. split; [exact Hl|]. split.
  - unfold canRedo. rewrite Hi, Hl. apply Nat.ltb_ge. lia.
  - unfold undo. rewrite Hi.
    destruct (Nat.ltb_spec 0 (index s + 1)); [|lia]. unfold state. simpl.
    replace (index s + 1 - 1) with (index s) by lia.
    rewrite Ho by lia. rewrite Hprefix by lia. exact Hcur.
Qed.

(** X6: when the guard skips the first update of a gesture (the value
    serialises as the current one), the [commit: false] updates that
    follow write over the current entry: however many there are, the
    index, the length, [canUndo] and [canRedo] are what they were, so the
    gesture adds nothing to undo. *)
Theorem skipped_commit_leaves_no_undo_step s cur a (actions : list (Action T)) :
  state s = Some cur ->
  stringify (applyAction a cur) = stringify cur ->
  index (run stringify (transients actions) (next (setState stringify a (Some true) s)))
    = index s /\
  length (history (run stringify (transients actions)
                       (next (setState stringify a (Some true) s))))
    = length (history s) /\
  canUndo (run stringify (transients actions) (next (setState stringify a (Some true) s)))
    = canUndo s /\
  canRedo (run stringify (transients actions) (next (setState stringify a (Some true) s)))
    = canRedo s /\
  (forall j, j <> index s ->
     history (run stringify (transients actions)
                  (next (setState stringify a (Some true) s))) !! j
     = history s !! j).
Proof.
  intros Hcur Hsame.
  assert (Hwf : wf s) by (eapply state_wf; eassumption).
  rewrite (setState_same stringify a (Some true) s cur Hcur Hsame). simpl.
  destruct (run_transients actions s Hwf) as (Hi & Hl & Ho).
  unfold canUndo, canRedo. rewrite Hi, Hl. auto.
Qed.

End Runs.

(** *** Concrete runs over natural numbers *)

Lemma nine_is_not_two : stringifyNat 9 <> stringifyNat 2.
Proof. vm_compute. discriminate. Defined.

Lemma commit_discards_redo_entries_witness :
  state {| history := [1; 2; 3]; index := 1 |} = Some 2 /\
  history (next (setState stringifyNat (Value 9) None
                          {| history := [1; 2; 3]; index := 1 |})) !! 2 = Some 9 /\
  canRedo (next (setState stringifyNat (Value 9) None
                          {| history := [1; 2; 3]; index := 1 |})) = false.
Proof.
  split; [reflexivity|]. split; [reflexivity|].
  exact (proj1 (proj2 (proj2 (proj2 (proj2 (proj2
           (commit_discards_redo_entries stringifyNat
              {| history := [1; 2; 3]; index := 1 |} 2 (Value 9) None
              eq_refl nine_is_not_two eq_refl))))))).
Defined.

Lemma undo_redo_are_inverse_witness :
  index {| history := [1; 2; 3]; index := 1 |}
    < length (history {| history := [1; 2; 3]; index := 1 |}) /\
  history (next (undo {| history := [1; 2; 3]; index := 1 |})) = [1; 2; 3].
Proof.
  assert (H : index {| history := [1; 2; 3]; index := 1 |}
              < length (history {| history := [1; 2; 3]; index := 1 |})).
  { simpl. lia. }
  split; [exact H|].
  exact (proj1 (undo_redo_are_inverse {| history := [1; 2; 3]; index := 1 |} H)).
Defined.

Lemma three_commits_change : eachChanges stringifyNat 0 [1; 2; 3].
Proof. simpl. repeat split; vm_compute; discriminate. Defined.

Lemma commits_then_undos_return_witness :
  eachChanges stringifyNat 0 [1; 2; 3] /\
  index (run stringifyNat (commits [1; 2; 3]) (initial 0)) = 3 /\
  state (run stringifyNat (undos 3) (run stringifyNat (commits [1; 2; 3]) (initial 0)))
    = Some 0.
Proof.
  split; [exact three_commits_change|].
  pose proof (commits_then_undos_return stringifyNat (initial 0) 0 [1; 2; 3]
                eq_refl three_commits_change) as H.
  split; [exact (proj1 H)|exact (proj2 (proj2 (proj2 (proj2 H))))].
Defined.

Lemma one_is_not_zero : stringifyNat 1 <> stringifyNat 0.
Proof. vm_compute. discriminate. Defined.

Lemma transient_updates_fold_into_one_step_witness :
  stringifyNat 1 <> stringifyNat 0 /\
  state (next (undo (run stringifyNat (transients [Value 2; Updater S; Value 7])
                         (next (setState stringifyNat (Value 1) (Some true)
                                         (initial 0))))))
    = Some 0.
Proof.
  split; [exact one_is_not_zero|].
  exact (proj2 (proj2 (proj2
           (transient_updates_fold_into_one_step stringifyNat (initial 0) 0 (Value 1)
              [Value 2; Updater S; Value 7] eq_refl one_is_not_zero)))).
Defined.

Lemma skipped_commit_leaves_no_undo_step_witness :
  state {| history := [1; 2]; index := 1 |} = Some 2 /\
  index (run stringifyNat (transients [Value 5; Value 6])
             (next (setState stringifyNat (Value 2) (Some true)
                             {| history := [1; 2]; index := 1 |})))
    = 1.
Proof.
  split; [reflexivity|].
  exact (proj1 (skipped_commit_leaves_no_undo_step stringifyNat
                  {| history := [1; 2]; index := 1 |} 2 (Value 2)
                  [Value 5; Value 6] eq_refl eq_refl)).
Defined.

End HistoryExtras.

(** * More properties of the geometry module *)

Module GeometryExtras.

Import Num Geometry GeometryFacts.
Local Open Scope R_scope.

Lemma radians_add (a b : R) : (a + b) * PI / 180 = a * PI / 180 + b * PI / 180.
Proof. field. Qed.

Lemma radians_360 : 360 * PI / 180 = 2 * PI.
Proof. field. Qed.

Lemma rotatePoint_compose (p c : Point.t) (a b : R) :
  rotatePoint (rotatePoint p c a) c b = rotatePoint p c (a + b).
Proof.
  unfold rotatePoint. simpl. rewrite radians_add, cos_plus, sin_plus.
  f_equal; ring.
Qed.

Lemma rotatePoint_back (p c : Point.t) (a : R) :
  rotatePoint (rotatePoint p c a) c (- a) = p.
Proof.
  rewrite rotatePoint_compose. replace (a + - a) with 0 by ring.
  apply rotatePoint_0.
Qed.

Lemma rotatePoint_forth (p c : Point.t) (a : R) :
  rotatePoint (rotatePoint p c (- a)) c a = p.
Proof.
  rewrite rotatePoint_compose. replace (- a + a) with 0 by ring.
  apply rotatePoint_0.
Qed.

(** X7: rotations about one centre compose by adding their angles;
    rotating by an angle and then by its opposite, in either order, gives
    the point back, and so does a full turn of 360 degrees. *)
Theorem rotations_add_up (p c : Point.t) (a b : R) :
  rotatePoint (rotatePoint p c a) c b = rotatePoint p c (a + b) /\
  rotatePoint (rotatePoint p c a) c (- a) = p /\
  rotatePoint (rotatePoint p c (- a)) c a = p /\
  rotatePoint p c 360 = p.
Proof.
  split; [apply rotatePoint_compose|].
  split; [apply rotatePoint_back|].
  split; [apply rotatePoint_forth|].
  destruct p as [px py]. unfold rotatePoint. simpl.
  rewrite radians_360, cos_2PI, sin_2PI. f_equal; ring.
Qed.

Lemma cos_sin_unit (t : R) : cos t * cos t + sin t * sin t = 1.
Proof.
  pose proof (sin2_cos2 t) as H. unfold Rsqr in H. lra.
Qed.

(** X8: [rotatePoint] keeps the distance to the centre, and leaves the
    centre where it is. *)
Theorem rotation_keeps_distance_to_centre (p c : Point.t) (a : R) :
  (Point.x (rotatePoint p c a) - Point.x c) * (Point.x (rotatePoint p c a) - Point.x c)
  + (Point.y (rotatePoint p c a) - Point.y c) * (Point.y (rotatePoint p c a) - Point.y c)
  = (Point.x p - Point.x c) * (Point.x p - Point.x c)
    + (Point.y p - Point.y c) * (Point.y p - Point.y c) /\
  rotatePoint c c a = c.
Proof.
  split.
  - unfold rotatePoint. simpl.
    pose proof (cos_sin_unit (a * PI / 180)) as H.
    set (C := cos (a * PI / 180)) in *. set (S := sin (a * PI / 180)) in *.
    transitivity (((Point.x p - Point.x c) * (Point.x p - Point.x c)
                   + (Point.y p - Point.y c) * (Point.y p - Point.y c))
                  * (C * C + S * S)); [ring|rewrite H; ring].
  - destruct c as [cx cy]. unfold rotatePoint. simpl. f_equal; ring.
Qed.

(** X9: with rotation 0 the rotated bounding box of an item is its
    bounding box, provided the box has no negative side. *)
Theorem unrotated_item_keeps_its_box (item : CanvasItem) :
  itemRotation item = 0 ->
  0 <= Box.width (getBoundingBox item) ->
  0 <= Box.height (getBoundingBox item) ->
  getRotatedBoundingBox item = getBoundingBox item.
Proof.
  intros Hrot Hw Hh. unfold getRotatedBoundingBox. cbv zeta.
  rewrite Hrot. cbn [map]. rewrite !rotatePoint_0.
  destruct (getBoundingBox item) as [x y w h].
  unfold Math_min, Math_max. simpl in *.
  f_equal; by_cases.
Qed.

(** The extrema of four numbers that pair up around a middle [m]. *)
Lemma extrema_around_middle (m a b : R) :
  Rmin (Rmin (Rmin (m - a - b) (m + a - b)) (m - a + b)) (m + a + b)
  + Rmax (Rmax (Rmax (m - a - b) (m + a - b)) (m - a + b)) (m + a + b)
  = 2 * m /\
  Rmin (Rmin (Rmin (m - a - b) (m + a - b)) (m - a + b)) (m + a + b)
  <= Rmax (Rmax (Rmax (m - a - b) (m + a - b)) (m - a + b)) (m + a + b).
Proof. split; by_cases. Qed.

(** The rotated corners of a box, by their offsets from the centre. *)
Lemma rotated_box_sides (item : CanvasItem) :
  let box := getBoundingBox item in
  let t := itemRotation item * PI / 180 in
  let cx := Box.x box + Box.width box / 2 in
  let cy := Box.y box + Box.height box / 2 in
  let ax := Box.width box / 2 * cos t in
  let bx := Box.height box / 2 * sin t in
  let ay := Box.width box / 2 * sin t in
  let by' := Box.height box / 2 * cos t in
  getRotatedBoundingBox item =
  {| Box.x := Rmin (Rmin (Rmin (cx - ax + bx) (cx + ax + bx)) (cx - ax - bx)) (cx + ax - bx);
     Box.y := Rmin (Rmin (Rmin (cy - ay - by') (cy + ay - by')) (cy - ay + by'))
                   (cy + ay + by');
     Box.width :=
       Rmax (Rmax (Rmax (cx - ax + bx) (cx + ax + bx)) (cx - ax - bx)) (cx + ax - bx)
       - Rmin (Rmin (Rmin (cx - ax + bx) (cx + ax + bx)) (cx - ax - bx)) (cx + ax - bx);
     Box.height :=
       Rmax (Rmax (Rmax (cy - ay - by') (cy + ay - by')) (cy - ay + by')) (cy + ay + by')
       - Rmin (Rmin (Rmin (cy - ay - by') (cy + ay - by')) (cy - ay + by'))
              (cy + ay + by') |}.
Proof.
  cbv zeta. unfold getRotatedBoundingBox, getCenter, rotatePoint, Math_min, Math_max.
  destruct (getBoundingBox item) as [x y w h]. simpl.
  set (C := cos (itemRotation item * PI / 180)).
  set (S := sin (itemRotation item * PI / 180)).
  replace ((x - (x + w / 2)) * C - (y - (y + h / 2)) * S + (x + w / 2))
    with (x + w / 2 - w / 2 * C + h / 2 * S) by field.
  replace ((x + w - (x + w / 2)) * C - (y - (y + h / 2)) * S + (x + w / 2))
    with (x + w / 2 + w / 2 * C + h / 2 * S) by field.
  replace ((x - (x + w / 2)) * C - (y + h - (y + h / 2)) * S + (x + w / 2))
    with (x + w / 2 - w / 2 * C - h / 2 * S) by field.
  replace ((x + w - (x + w / 2)) * C - (y + h - (y + h / 2)) * S + (x + w / 2))
    with (x + w / 2 + w / 2 * C - h / 2 * S) by field.
  replace ((x - (x + w / 2)) * S + (y - (y + h / 2)) * C + (y + h / 2))
    with (y + h / 2 - w / 2 * S - h / 2 * C) by field.
  replace ((x + w - (x + w / 2)) * S + (y - (y + h / 2)) * C + (y + h / 2))
    with (y + h / 2 + w / 2 * S - h / 2 * C) by field.
  replace ((x - (x + w / 2)) * S + (y + h - (y + h / 2)) * C + (y + h / 2))
    with (y + h / 2 - w / 2 * S + h / 2 * C) by field.
  replace ((x + w - (x + w / 2)) * S + (y + h - (y + h / 2)) * C + (y + h / 2))
    with (y + h / 2 + w / 2 * S + h / 2 * C) by field.
  reflexivity.
Qed.

(** X10: whatever the rotation, the rotated bounding box has no negative
    side and has the centre of the item's own box. *)
Theorem rotated_box_keeps_centre (item : CanvasItem) :
  0 <= Box.width (getRotatedBoundingBox item) /\
  0 <= Box.height (getRotatedBoundingBox item) /\
  getCenter (getRotatedBoundingBox item) = getCenter (getBoundingBox item).
Proof.
  rewrite rotated_box_sides. cbv zeta. unfold getCenter. simpl.
  set (cx := Box.x (getBoundingBox item) + Box.width (getBoundingBox item) / 2).
  set (cy := Box.y (getBoundingBox item) + Box.height (getBoundingBox item) / 2).
  set (ax := Box.width (getBoundingBox item) / 2 * cos (itemRotation item * PI / 180)).
  set (bx := Box.height (getBoundingBox item) / 2 * sin (itemRotation item * PI / 180)).
  set (ay := Box.width (getBoundingBox item) / 2 * sin (itemRotation item * PI / 180)).
  set (by' := Box.height (getBoundingBox item) / 2 * cos (itemRotation item * PI / 180)).
  clearbody cx cy ax bx ay by'.
  split; [by_cases|]. split; [by_cases|].
  f_equal; by_cases.
Qed.

Lemma radians_opp (a : R) : - a * PI / 180 = - (a * PI / 180).
Proof. field. Qed.

(** X11: a point that passes the hit test of an item (the test made by
    [findItemAtPoint]) lies in the item's rotated bounding box (the box
    used by the marquee and by [isItemInSelection]). *)
Theorem hit_point_lies_in_rotated_box (item : CanvasItem) (p : Point.t) :
  Canvas.hitsItem p item = true ->
  isPointInBox p (getRotatedBoundingBox item) = true.
Proof.
  intros Hhit. rewrite rotated_box_sides. cbv zeta.
  unfold Canvas.hitsItem in Hhit. cbv zeta in Hhit.
  unfold rotatePoint, getCenter in Hhit. unfold isPointInBox.
  destruct (getBoundingBox item) as [x y w h]. destruct p as [px py].
  simpl in *.
  rewrite radians_opp, cos_neg, sin_neg in Hhit.
  pose proof (cos_sin_unit (itemRotation item * PI / 180)) as Hunit.
  set (C := cos (itemRotation item * PI / 180)) in *.
  set (S := sin (itemRotation item * PI / 180)) in *.
  clearbody C S.
  rewrite !andb_true_iff, !Rleb_true in Hhit.
  destruct Hhit as [[[Hx1 Hx2] Hy1] Hy2].
  remember ((px - (x + w / 2)) * C + (py - (y + h / 2)) * S) as u eqn:Hu.
  remember ((py - (y + h / 2)) * C - (px - (x + w / 2)) * S) as v eqn:Hv.
  assert (Hpx : px = x + w / 2 + u * C - v * S).
  { subst u v.
    transitivity (x + w / 2 + (px - (x + w / 2)) * (C * C + S * S));
      [rewrite Hunit; ring|ring]. }
  assert (Hpy : py = y + h / 2 + u * S + v * C).
  { subst u v.
    transitivity (y + h / 2 + (py - (y + h / 2)) * (C * C + S * S));
      [rewrite Hunit; ring|ring]. }
  assert (Hu1 : - (w / 2) <= u) by lra.
  assert (Hu2 : u <= w / 2) by lra.
  assert (Hv1 : - (h / 2) <= v) by lra.
  assert (Hv2 : v <= h / 2) by lra.
  clear Hu Hv Hx1 Hx2 Hy1 Hy2 Hunit. subst px py.
  rewrite !andb_true_iff, !Rleb_true.
  destruct (Rle_dec 0 C) as [HC|HC]; destruct (Rle_dec 0 S) as [HS|HS].
  - assert (0 <= (w / 2 - u) * C) by (apply Rmult_le_pos; lra).
    assert (0 <= (u + w / 2) * C) by (apply Rmult_le_pos; lra).
    assert (0 <= (h / 2 - v) * C) by (apply Rmult_le_pos; lra).
    assert (0 <= (v + h / 2) * C) by (apply Rmult_le_pos; lra).
    assert (0 <= (w / 2 - u) * S) by (apply Rmult_le_pos; lra).
    assert (0 <= (u + w / 2) * S) by (apply Rmult_le_pos; lra).
    assert (0 <= (h / 2 - v) * S) by (apply Rmult_le_pos; lra).
    assert (0 <= (v + h / 2) * S) by (apply Rmult_le_pos; lra).
    repeat split; by_cases.
  - assert (0 <= (w / 2 - u) * C) by (apply Rmult_le_pos; lra).
    assert (0 <= (u + w / 2) * C) by (apply Rmult_le_pos; lra).
    assert (0 <= (h / 2 - v) * C) by (apply Rmult_le_pos; lra).
    assert (0 <= (v + h / 2) * C) by (apply Rmult_le_pos; lra).
    assert (0 <= (w / 2 - u) * - S) by (apply Rmult_le_pos; lra).
    assert (0 <= (u + w / 2) * - S) by (apply Rmult_le_pos; lra).
    assert (0 <= (h / 2 - v) * - S) by (apply Rmult_le_pos; lra).
    assert (0 <= (v + h / 2) * - S) by (apply Rmult_le_pos; lra).
    repeat split; by_cases.
  - assert (0 <= (w / 2 - u) * - C) by (apply Rmult_le_pos; lra).
    assert (0 <= (u + w / 2) * - C) by (apply Rmult_le_pos; lra).
    assert (0 <= (h / 2 - v) * - C) by (apply Rmult_le_pos; lra).
    assert (0 <= (v + h / 2) * - C) by (apply Rmult_le_pos; lra).
    assert (0 <= (w / 2 - u) * S) by (apply Rmult_le_pos; lra).
    assert (0 <= (u + w / 2) * S) by (apply Rmult_le_pos; lra).
    assert (0 <= (h / 2 - v) * S) by (apply Rmult_le_pos; lra).
    assert (0 <= (v + h / 2) * S) by (apply Rmult_le_pos; lra).
    repeat split; by_cases.
  - assert (0 <= (w / 2 - u) * - C) by (apply Rmult_le_pos; lra).
    assert (0 <= (u + w / 2) * - C) by (apply Rmult_le_pos; lra).
    assert (0 <= (h / 2 - v) * - C) by (apply Rmult_le_pos; lra).
    assert (0 <= (v + h / 2) * - C) by (apply Rmult_le_pos; lra).
    assert (0 <= (w / 2 - u) * - S) by (apply Rmult_le_pos; lra).
    assert (0 <= (u + w / 2) * - S) by (apply Rmult_le_pos; lra).
    assert (0 <= (h / 2 - v) * - S) by (apply Rmult_le_pos; lra).
    assert (0 <= (v + h / 2) * - S) by (apply Rmult_le_pos; lra).
    repeat split; by_cases.
Qed.

(** X12: with a non-negative stroke width, the bounding box of a drawing
    holds every point of the drawing at least half a stroke width inside
    each edge, and is at least one stroke width wide and high. *)
Theorem drawing_box_pads_its_points (d : DrawingItem.t) (p : Point.t) :
  In p (DrawingItem.points d) ->
  0 <= DrawingItem.strokeWidth d ->
  Box.x (getBoundingBox (Drawing d)) + DrawingItem.strokeWidth d / 2 <= Point.x p /\
  Point.x p <= Box.x (getBoundingBox (Drawing d)) + Box.width (getBoundingBox (Drawing d))
               - DrawingItem.strokeWidth d / 2 /\
  Box.y (getBoundingBox (Drawing d)) + DrawingItem.strokeWidth d / 2 <= Point.y p /\
  Point.y p <= Box.y (getBoundingBox (Drawing d)) + Box.height (getBoundingBox (Drawing d))
               - DrawingItem.strokeWidth d / 2 /\
  DrawingItem.strokeWidth d <= Box.width (getBoundingBox (Drawing d)) /\
  DrawingItem.strokeWidth d <= Box.height (getBoundingBox (Drawing d)).
Proof.
  intros Hin Hs. simpl. destruct (DrawingItem.points d) as [|p0 ps]; [contradiction|].
  assert (HxIn : In (Point.x p) (Point.x p0 :: map Point.x ps))
    by (change (In (Point.x p) (map Point.x (p0 :: ps))); apply in_map; exact Hin).
  assert (HyIn : In (Point.y p) (Point.y p0 :: map Point.y ps))
    by (change (In (Point.y p) (map Point.y (p0 :: ps))); apply in_map; exact Hin).
  pose proof (Math_min_le _ _ _ HxIn) as Hx1. pose proof (Math_max_ge _ _ _ HxIn) as Hx2.
  pose proof (Math_min_le _ _ _ HyIn) as Hy1. pose proof (Math_max_ge _ _ _ HyIn) as Hy2.
  simpl.
  generalize dependent (Math_min (Point.x p0) (map Point.x ps)).
  generalize dependent (Math_max (Point.x p0) (map Point.x ps)).
  generalize dependent (Math_min (Point.y p0) (map Point.y ps)).
  generalize dependent (Math_max (Point.y p0) (map Point.y ps)).
  intros maxY Hy2 minY Hy1 maxX Hx2 minX Hx1.
  repeat split; by_cases.
Qed.

(** X13: [isItemInSelection] is the overlap of the item's rotated
    bounding box with the rectangle.  A rectangle that contains the box
    selects the item when the box has a positive width and height; a
    rectangle that lies beside, above or below the box, even touching it
    along an edge, does not. *)
Theorem selection_is_box_overlap (item : CanvasItem) (rect : Box.t) :
  (Box.x rect <= Box.x (getRotatedBoundingBox item) ->
   Box.x (getRotatedBoundingBox item) + Box.width (getRotatedBoundingBox item)
     <= Box.x rect + Box.width rect ->
   Box.y rect <= Box.y (getRotatedBoundingBox item) ->
   Box.y (getRotatedBoundingBox item) + Box.height (getRotatedBoundingBox item)
     <= Box.y rect + Box.height rect ->
   0 < Box.width (getRotatedBoundingBox item) ->
   0 < Box.height (getRotatedBoundingBox item) ->
   isItemInSelection item rect = true) /\
  (Box.x (getRotatedBoundingBox item) + Box.width (getRotatedBoundingBox item)
     <= Box.x rect \/
   Box.x rect + Box.width rect <= Box.x (getRotatedBoundingBox item) \/
   Box.y (getRotatedBoundingBox item) + Box.height (getRotatedBoundingBox item)
     <= Box.y rect \/
   Box.y rect + Box.height rect <= Box.y (getRotatedBoundingBox item) ->
   isItemInSelection item rect = false).
Proof.
  unfold isItemInSelection. cbv zeta.
  generalize (getRotatedBoundingBox item). intros b.
  split.
  - intros. by_cases.
  - intros [H|[H|[H|H]]]; by_cases.
Qed.

End GeometryExtras.

(** * More properties of the drawing export and of the masks *)

Module CanvasUtilsExtras.

Import Num Geometry CanvasUtils Masks GeometryFacts.
Local Open Scope R_scope.

(** The box of a drawing with points and a positive stroke width has a
    positive width and height. *)
Lemma stroked_box_positive (d : DrawingItem.t) :
  DrawingItem.points d <> [] ->
  0 < DrawingItem.strokeWidth d ->
  0 < Box.width (getBoundingBox (Drawing d)) /\
  0 < Box.height (getBoundingBox (Drawing d)).
Proof.
  intros Hne Hs. simpl. destruct (DrawingItem.points d) as [|p0 ps]; [congruence|].
  simpl. split; by_cases.
Qed.

(** X14: for a drawing with a positive stroke width the conversion
    resolves with [null] exactly when the drawing has no point or the
    browser gives no 2D context for the padded canvas.  An image it
    resolves with has the drawing's bounding box, rotation 0 (the
    drawing's own rotation is not carried over), the id of the drawing
    behind the prefix [drawing_img_] and the PNG mime type. *)
Theorem drawing_export_outcomes (getContext2d : R -> R -> bool)
        (toDataURL : DrawingItem.t -> list Point.t -> string) (d : DrawingItem.t) :
  0 < DrawingItem.strokeWidth d ->
  (convertDrawingToImageItem getContext2d toDataURL d = None <->
   DrawingItem.points d = [] \/
   getContext2d
     (Box.width (getBoundingBox (Drawing d)) + DrawingItem.strokeWidth d * 2 * 2)
     (Box.height (getBoundingBox (Drawing d)) + DrawingItem.strokeWidth d * 2 * 2)
   = false) /\
  (forall img,
     convertDrawingToImageItem getContext2d toDataURL d = Some img ->
     getBoundingBox (Image img) = getBoundingBox (Drawing d) /\
     ImageItem.rotation img = 0 /\
     ImageItem.id img = "drawing_img_" +:+ DrawingItem.id d /\
     ImageItem.mimeType img = "image/png").
Proof.
  intros Hs. unfold convertDrawingToImageItem. cbv zeta.
  destruct (DrawingItem.points d) as [|p0 ps] eqn:Hpoints.
  - (* no point: the zero box *)
    assert (Hbox : getBoundingBox (Drawing d)
                   = {| Box.x := 0; Box.y := 0; Box.width := 0; Box.height := 0 |})
      by (simpl; rewrite Hpoints; reflexivity).
    rewrite Hbox. simpl.
    assert (Hz : Rleb 0 0 = true) by (apply Rleb_true; lra).
    rewrite Hz. simpl. split; [split; auto|]. intros img Himg. discriminate.
  - destruct (stroked_box_positive d) as [Hw Hh]; [congruence|exact Hs|].
    set (box := getBoundingBox (Drawing d)) in *. clearbody box.
    rewrite (proj2 (Rleb_false _ _) Hw), (proj2 (Rleb_false _ _) Hh).
    cbn [orb].
    destruct (getContext2d _ _) eqn:Hctx; cbn [negb].
    + split.
      * split; [discriminate|]. intros [Hnil|Hfalse]; discriminate.
      * intros img Himg. injection Himg as <-. destruct box. simpl. auto.
    + split; [split; auto|]. intros img Himg. discriminate.
Qed.

(** X15: the mask is stroked only for a drawing of more than one point,
    along the drawing's points taken into the target image's own frame;
    a point passes the hit test of the target image exactly when its
    image in that frame falls on the mask canvas, the rectangle from
    (0, 0) with the width and height of the target. *)
Theorem mask_points_follow_hit_test (drawing : DrawingItem.t) (targetItem : ImageItem.t) :
  ((length (DrawingItem.points drawing) <= 1)%nat -> maskPath drawing targetItem = []) /\
  ((1 < length (DrawingItem.points drawing))%nat ->
   maskPath drawing targetItem
   = map (maskLocalPoint targetItem) (DrawingItem.points drawing)) /\
  (forall p,
     Canvas.hitsItem p (Image targetItem)
     = isPointInBox (maskLocalPoint targetItem p)
                    {| Box.x := 0; Box.y := 0;
                       Box.width := ImageItem.width targetItem;
                       Box.height := ImageItem.height targetItem |}) /\
  (ImageItem.rotation targetItem = 0 ->
   forall p, maskLocalPoint targetItem p
             = {| Point.x := Point.x p - ImageItem.x targetItem;
                  Point.y := Point.y p - ImageItem.y targetItem |}).
Proof.
  unfold maskPath. split; [|split; [|split]].
  - intros Hlen. destruct (Nat.ltb_spec 1 (length (DrawingItem.points drawing)));
      [lia|reflexivity].
  - intros Hlen. destruct (Nat.ltb_spec 1 (length (DrawingItem.points drawing)));
      [reflexivity|lia].
  - intros p. unfold Canvas.hitsItem, maskLocalPoint, isPointInBox, getCenter.
    cbv zeta.
    cbn [getBoundingBox itemRotation Box.x Box.y Box.width Box.height Point.x Point.y].
    generalize (rotatePoint p
                  {| Point.x := ImageItem.x targetItem + ImageItem.width targetItem / 2;
                     Point.y := ImageItem.y targetItem + ImageItem.height targetItem / 2 |}
                  (- ImageItem.rotation targetItem)).
    intros q. by_cases.
  - intros Hrot p. unfold maskLocalPoint. cbv zeta.
    rewrite Hrot, Ropp_0, rotatePoint_0. reflexivity.
Qed.


End CanvasUtilsExtras.

(** * More properties of the canvas gestures *)

Module CanvasExtras.

Import Num Geometry Canvas Gestures GeometryFacts CanvasFacts GeometryExtras.
Local Open Scope R_scope.

(** *** Expansion *)

(** X17: the rectangle drawn while an expansion handle is dragged always
    contains the original box.  An edge the handle does not name stays
    where it was; an edge it names follows the mouse outwards and never
    comes inside the original box. *)
Theorem expanded_rect_grows_from_fixed_edges (handle : Handle) (box : Box.t)
        (point : Point.t) :
  boxInside box (expandedRect handle box point) /\
  Box.x (expandedRect handle box point)
    = (if includes handle "w" then Rmin (Point.x point) (Box.x box) else Box.x box) /\
  Box.y (expandedRect handle box point)
    = (if includes handle "n" then Rmin (Point.y point) (Box.y box) else Box.y box) /\
  (includes handle "w" = false ->
   Box.x (expandedRect handle box point) + Box.width (expandedRect handle box point)
     = (if includes handle "e"
        then Box.x box + Rmax (Box.width box) (Point.x point - Box.x box)
        else Box.x box + Box.width box)) /\
  (includes handle "n" = false ->
   Box.y (expandedRect handle box point) + Box.height (expandedRect handle box point)
     = (if includes handle "s"
        then Box.y box + Rmax (Box.height box) (Point.y point - Box.y box)
        else Box.y box + Box.height box)) /\
  (includes handle "w" = true ->
   Box.x (expandedRect handle box point) + Box.width (expandedRect handle box point)
     = Box.x box + Box.width box) /\
  (includes handle "n" = true ->
   Box.y (expandedRect handle box point) + Box.height (expandedRect handle box point)
     = Box.y box + Box.height box).
Proof.
  destruct box as [x y w h]. destruct point as [px py].
  unfold boxInside.
  destruct handle; unfold expandedRect; simpl;
    repeat split; try discriminate; intros; by_cases.
Qed.

Lemma expandedRect_contains (handle : Handle) (box : Box.t) (point : Point.t) :
  boxInside box (expandedRect handle box point).
Proof.
  destruct box as [x y w h]. destruct point as [px py]. unfold boxInside.
  destruct handle; unfold expandedRect; simpl; repeat split; by_cases.
Qed.

Lemma expanding_start (props : Props) (g : Gesture) (e : MouseEvent) (handle : Handle)
      (itemOrBox : CanvasItem + Box.t) (target : ImageItem.t) :
  expansionIsActive props = true ->
  expansionTargetItem props = Some target ->
  expandingWith handle (getRotatedBoundingBox (Image target))
                (handleInteractionStart props g e handle itemOrBox).
Proof.
  intros Hactive Htarget. unfold handleInteractionStart.
  rewrite Hactive, Htarget. unfold expandingWith. cbn [interactionMode activeHandle
    originalItemState expansionGhostRect].
  repeat split. eexists. split; [reflexivity|].
  unfold boxInside. repeat split; lra.
Qed.

Lemma expanding_move (props : Props) (handle : Handle) (box : Box.t) (g : Gesture)
      (e : MouseEvent) :
  expandingWith handle box g ->
  expandingWith handle box (handleMouseMove_expanding props g e).
Proof.
  intros (Hmode & Hhandle & Horig & _). unfold handleMouseMove_expanding.
  rewrite Hmode, Hhandle, Horig. unfold expandingWith, withExpansionGhostRect.
  cbn [interactionMode activeHandle originalItemState expansionGhostRect].
  repeat split; try assumption. eexists. split; [reflexivity|].
  apply expandedRect_contains.
Qed.

Lemma expanding_moves (props : Props) (handle : Handle) (box : Box.t)
      (events : list MouseEvent) : forall g,
  expandingWith handle box g ->
  expandingWith handle box (fold_left (handleMouseMove_expanding props) events g).
Proof.
  induction events as [|e events IH]; intros g Hg; simpl; [exact Hg|].
  apply IH, expanding_move, Hg.
Qed.

(** X18: an expansion gesture, from the press of a handle through any
    pointer moves to the release, reports one rectangle with the handle
    and then the end of the interaction; the rectangle contains the
    rotated bounding box of the target image.  For a target that is not
    rotated the image is then placed inside the outpainting canvas made
    for that rectangle. *)
Theorem expansion_gesture_reports_containing_rect
        (props : Props) (g : Gesture) (down up : MouseEvent) (moves : list MouseEvent)
        (handle : Handle) (itemOrBox : CanvasItem + Box.t) (target : ImageItem.t) :
  expansionIsActive props = true ->
  expansionTargetItem props = Some target ->
  exists rect,
    snd (handleMouseUp props
           (fold_left (handleMouseMove_expanding props) moves
                      (handleInteractionStart props g down handle itemOrBox))
           up)
      = [OnExpansionAreaDefined rect handle; OnInteractionEnd] /\
    boxInside (getRotatedBoundingBox (Image target)) rect /\
    (ImageItem.rotation target = 0 ->
     0 <= ImageItem.width target -> 0 <= ImageItem.height target ->
     boxInside (Masks.outpaintingPlacement target rect)
               {| Box.x := 0; Box.y := 0;
                  Box.width := Box.width rect; Box.height := Box.height rect |}).
Proof.
  intros Hactive Htarget.
  pose proof (expanding_moves props handle _ moves _
                (expanding_start props g down handle itemOrBox target Hactive Htarget))
    as (Hmode & Hhandle & Horig & rect & Hghost & Hin).
  exists rect. split; [|split; [exact Hin|]].
  - unfold handleMouseUp. rewrite Hmode, Hghost, Hhandle. reflexivity.
  - intros Hrot Hw Hh.
    rewrite (unrotated_image_box target Hrot Hw Hh) in Hin.
    unfold boxInside, Masks.outpaintingPlacement in *. simpl in *.
    repeat split; lra.
Qed.

(** *** Resizing *)

Lemma opposite_corner_at_start (handle : Handle) (item : CanvasItem) :
  rotatePoint
    {| Point.x := Box.x (getBoundingBox item)
                  + (if includes handle "e" then 0 else Box.width (getBoundingBox item));
       Point.y := Box.y (getBoundingBox item)
                  + (if includes handle "s" then 0 else Box.height (getBoundingBox item)) |}
    (getCenter (getBoundingBox item)) (itemRotation item)
  = oppositeCornerOf handle item.
Proof.
  unfold oppositeCornerOf, cornerOf.
  destruct (includes handle "e"); destruct (includes handle "s"); reflexivity.
Qed.

(** X19: resizing is anchored.  An image of any rotation, resized
    without the aspect lock by a handle whose mouse position lies at
    least 10 units beyond the opposite corner along both sides of the
    image, takes the absolute local offsets as width and height, keeps
    its rotation, and the corner diagonal to the handle stays at the
    same place on the canvas. *)
Theorem resize_keeps_opposite_corner
        (props : Props) (g : Gesture) (down move : MouseEvent) (handle : Handle)
        (i : ImageItem.t) :
  expansionIsActive props = false ->
  handle <> H_rotate ->
  shiftKey move = false ->
  (if includes handle "e"
   then 10 <= Point.x (localOffset (ImageItem.rotation i)
                                   (oppositeCornerOf handle (Image i))
                                   (getCanvasPoint props move))
   else Point.x (localOffset (ImageItem.rotation i)
                             (oppositeCornerOf handle (Image i))
                             (getCanvasPoint props move)) <= - (10)) ->
  (if includes handle "s"
   then 10 <= Point.y (localOffset (ImageItem.rotation i)
                                   (oppositeCornerOf handle (Image i))
                                   (getCanvasPoint props move))
   else Point.y (localOffset (ImageItem.rotation i)
                             (oppositeCornerOf handle (Image i))
                             (getCanvasPoint props move)) <= - (10)) ->
  exists g' i',
    resizeMoves props [move]
                (handleInteractionStart props g down handle (inl (Image i)))
                [Image i]
      = (g', [Image i']) /\
    ImageItem.width i'
      = Rabs (Point.x (localOffset (ImageItem.rotation i)
                                   (oppositeCornerOf handle (Image i))
                                   (getCanvasPoint props move))) /\
    ImageItem.height i'
      = Rabs (Point.y (localOffset (ImageItem.rotation i)
                                   (oppositeCornerOf handle (Image i))
                                   (getCanvasPoint props move))) /\
    ImageItem.rotation i' = ImageItem.rotation i /\
    oppositeCornerOf handle (Image i') = oppositeCornerOf handle (Image i).
Proof.
  intros Hexp Hhandle Hshift Hx Hy.
  rewrite (start_resizing props g down handle (Image i) Hexp Hhandle).
  rewrite opposite_corner_at_start.
  remember (oppositeCornerOf handle (Image i)) as opp eqn:Hopp in *. clear Hopp.
  remember (getCanvasPoint props move) as mouse eqn:Hmouse in *.
  pose proof (rotatePoint_forth
                {| Point.x := Point.x mouse - Point.x opp;
                   Point.y := Point.y mouse - Point.y opp |}
                {| Point.x := 0; Point.y := 0 |} (ImageItem.rotation i)) as Hforth.
  fold (localOffset (ImageItem.rotation i) opp mouse) in Hforth.
  remember (localOffset (ImageItem.rotation i) opp mouse) as local eqn:Hlocal in *.
  unfold resizeMoves. simpl fold_left.
  erewrite resizing_step_accepted
    with (newWidth := Rabs (Point.x local)) (newHeight := Rabs (Point.y local));
    try reflexivity.
  2:{ rewrite Hshift, <- Hmouse. unfold resizeExtent. cbn [andb].
      change (itemRotation (Image i)) with (ImageItem.rotation i).
      fold (localOffset (ImageItem.rotation i) opp mouse). rewrite <- Hlocal.
      reflexivity. }
  2:{ destruct (includes handle "e"); by_cases. }
  2:{ destruct (includes handle "s"); by_cases. }
  rewrite <- Hmouse. clear Hmouse Hlocal.
  simpl applyCalls. unfold resizeUpdater. simpl map.
  rewrite String.eqb_refl. cbn [negb resizedItem].
  do 2 eexists. split; [reflexivity|].
  cbn [ImageItem.width ImageItem.height ImageItem.rotation].
  split; [reflexivity|]. split; [reflexivity|]. split; [reflexivity|].
  (* the corner of the new box *)
  destruct local as [lx ly]. destruct opp as [ox oy]. destruct mouse as [mx my].
  unfold rotatePoint in Hforth. simpl in Hforth. injection Hforth as Hfx Hfy.
  unfold oppositeCornerOf, cornerOf, getCenter, rotatePoint.
  cbn [getBoundingBox itemRotation Box.x Box.y Box.width Box.height Point.x Point.y
       ImageItem.x ImageItem.y ImageItem.width ImageItem.height ImageItem.rotation].
  simpl in Hx, Hy.
  set (C := cos (ImageItem.rotation i * PI / 180)) in *.
  set (S := sin (ImageItem.rotation i * PI / 180)) in *.
  clearbody C S.
  destruct (includes handle "e"); destruct (includes handle "s"); simpl;
    f_equal; by_cases.
Qed.

(** *** One commit per gesture *)

Lemma resizing_commits_once (props : Props) :
  commitsOnce (handleMouseMove_resizing props).
Proof.
  intros g e. unfold handleMouseMove_resizing.
  destruct (interactionMode g); try (left; split; reflexivity).
  destruct (currentItem g); try (left; split; reflexivity).
  destruct (startPoint g); try (left; split; reflexivity).
  destruct (activeHandle g); try (left; split; reflexivity).
  destruct (originalItemState g); try (left; split; reflexivity).
  destruct (resizeExtent _ _ _ _ _) as [nw nh].
  destruct (Rltb nw 10 || Rltb nh 10); [left; split; reflexivity|].
  right. eexists. split; [reflexivity|].
  destruct (gestureDidCommit g) eqn:Hflag; simpl; [exact Hflag|reflexivity].
Qed.

Lemma moving_commits_once (props : Props) (gridOptions : GridOptions.t) :
  commitsOnce (handleMouseMove_moving props gridOptions).
Proof.
  intros g e. unfold handleMouseMove_moving.
  destruct (interactionMode g); try (left; split; reflexivity).
  destruct (currentItem g); try (left; split; reflexivity).
  destruct (startPoint g); try (left; split; reflexivity).
  destruct (originalItemState g); try (left; split; reflexivity);
    (right; eexists; split; [reflexivity|];
     destruct (gestureDidCommit g) eqn:Hflag; simpl; [exact Hflag|reflexivity]).
Qed.

Section OneCommit.

Variable handler : Gesture -> MouseEvent -> Gesture * list Callback.
Hypothesis Hhandler : commitsOnce handler.

Lemma gestureCalls_cons (e : MouseEvent) (events : list MouseEvent) (g : Gesture) :
  gestureCalls handler (e :: events) g
  = snd (handler g e) ++ gestureCalls handler events (fst (handler g e)).
Proof. simpl. destruct (handler g e). reflexivity. Qed.

(** After the commit every call is transient. *)
Lemma flags_after_commit (events : list MouseEvent) : forall g,
  gestureDidCommit g = true ->
  exists n, commitFlags (gestureCalls handler events g) = repeat false n /\
            length (gestureCalls handler events g) = n.
Proof.
  induction events as [|e events IH]; intros g Hflag; [exists 0%nat; split; reflexivity|].
  rewrite gestureCalls_cons.
  destruct (Hhandler g e) as [[Hcalls Hg]|(u & Hcalls & Hg)]; rewrite Hcalls.
  - rewrite Hg. apply IH. exact Hflag.
  - destruct (IH _ Hg) as (n & Hn & Hlen). exists (S n).
    rewrite Hflag. simpl. rewrite Hn, Hlen. split; reflexivity.
Qed.

(** The calls of a gesture: nothing, or one commit followed by transient
    calls. *)
Lemma flags_of_gesture (events : list MouseEvent) : forall g,
  gestureDidCommit g = false ->
  gestureCalls handler events g = [] \/
  exists updater rest n,
    gestureCalls handler events g = SetItems updater true :: rest /\
    commitFlags rest = repeat false n /\ length rest = n.
Proof.
  induction events as [|e events IH]; intros g Hflag; [left; reflexivity|].
  rewrite gestureCalls_cons.
  destruct (Hhandler g e) as [[Hcalls Hg]|(u & Hcalls & Hg)]; rewrite Hcalls.
  - rewrite Hg. apply IH. exact Hflag.
  - right. rewrite Hflag. simpl.
    destruct (flags_after_commit events _ Hg) as (n & Hn & Hlen).
    exists u, (gestureCalls handler events (fst (handler g e))), n. auto.
Qed.

End OneCommit.

(** X20: a resize gesture and a move gesture commit at most once.
    Handled from a state that has not committed, a run of pointer moves
    makes only [setItems] calls; the first of them has [commit: true] and
    every later one has [commit: false]. *)
Theorem gesture_commits_once (props : Props) (gridOptions : GridOptions.t)
        (events : list MouseEvent) (g : Gesture) :
  gestureDidCommit g = false ->
  (gestureCalls (handleMouseMove_resizing props) events g = [] \/
   exists updater rest,
     gestureCalls (handleMouseMove_resizing props) events g
       = SetItems updater true :: rest /\
     commitFlags rest = repeat false (length rest)) /\
  (gestureCalls (handleMouseMove_moving props gridOptions) events g = [] \/
   exists updater rest,
     gestureCalls (handleMouseMove_moving props gridOptions) events g
       = SetItems updater true :: rest /\
     commitFlags rest = repeat false (length rest)).
Proof.
  intros Hflag. split.
  - destruct (flags_of_gesture _ (resizing_commits_once props) events g Hflag)
      as [Hnil|(u & rest & n & Hcalls & Hflags & Hlen)]; [left; exact Hnil|].
    right. exists u, rest. rewrite Hlen. auto.
  - destruct (flags_of_gesture _ (moving_commits_once props gridOptions) events g Hflag)
      as [Hnil|(u & rest & n & Hcalls & Hflags & Hlen)]; [left; exact Hnil|].
    right. exists u, rest. rewrite Hlen. auto.
Qed.

(** *** Gestures on the store *)

Section OnStore.

Variable stringify : list CanvasItem -> string.

Lemma commitFlags_length (calls : list Callback) :
  (length (commitFlags calls) <= length calls)%nat.
Proof.
  induction calls as [|call calls IH]; [simpl; lia|].
  destruct call; simpl; lia.
Qed.

(** Transient calls reach the store as a run of transient updates. *)
Lemma dispatch_transients (calls : list Callback) : forall n s,
  commitFlags calls = repeat false n ->
  length calls = n ->
  App.dispatch stringify calls s
  = History.run stringify (HistoryRuns.transients (App.updatersOf calls)) s.
Proof.
  unfold App.dispatch, HistoryRuns.transients.
  induction calls as [|call calls IH]; intros n s Hflags Hlen; [reflexivity|].
  destruct n as [|n]; [discriminate|]. simpl in Hlen. injection Hlen as Hlen.
  pose proof (commitFlags_length calls) as Hle.
  destruct call as [u c|rect selected|rect handle|]; simpl in Hflags.
  - injection Hflags as -> Hflags. simpl. apply (IH n). exact Hflags. exact Hlen.
  - apply (f_equal (@length bool)) in Hflags. simpl in Hflags.
    rewrite repeat_length in Hflags. lia.
  - apply (f_equal (@length bool)) in Hflags. simpl in Hflags.
    rewrite repeat_length in Hflags. lia.
  - apply (f_equal (@length bool)) in Hflags. simpl in Hflags.
    rewrite repeat_length in Hflags. lia.
Qed.

(** X21: a resize or move gesture on the store.  When the store holds
    [items0] and the first call of the gesture changes the collection,
    the whole gesture, however many moves it has, adds one entry: the
    index is one further, nothing is left to redo and one [undo] brings
    [items0] back.  When the first call leaves the collection as it is
    (a move that snaps back to the same grid position, say) the guard
    skips the only commit of the gesture: the index, the length and
    [canUndo] stay what they were and every later move overwrites the
    current entry. *)
Theorem gesture_on_store (props : Props) (gridOptions : GridOptions.t)
        (events : list MouseEvent) (g : Gesture)
        (s : History.HistoryState (list CanvasItem)) (items0 : list CanvasItem)
        (calls : list Callback) :
  gestureDidCommit g = false ->
  History.state s = Some items0 ->
  calls = gestureCalls (handleMouseMove_resizing props) events g \/
  calls = gestureCalls (handleMouseMove_moving props gridOptions) events g ->
  (calls = [] /\ App.dispatch stringify calls s = s) \/
  exists updater rest,
    calls = SetItems updater true :: rest /\
    (stringify (updater items0) <> stringify items0 ->
     History.index (App.dispatch stringify calls s) = (History.index s + 1)%nat /\
     History.canRedo (App.dispatch stringify calls s) = false /\
     History.state (History.next (History.undo (App.dispatch stringify calls s)))
       = Some items0) /\
    (stringify (updater items0) = stringify items0 ->
     History.index (App.dispatch stringify calls s) = History.index s /\
     length (History.history (App.dispatch stringify calls s))
       = length (History.history s) /\
     History.canUndo (App.dispatch stringify calls s) = History.canUndo s).
Proof.
  intros Hflag Hstate Hcalls.
  assert (Hshape : calls = [] \/
                   exists updater rest n,
                     calls = SetItems updater true :: rest /\
                     commitFlags rest = repeat false n /\ length rest = n).
  { destruct Hcalls as [->| ->].
    - apply (flags_of_gesture _ (resizing_commits_once props)). exact Hflag.
    - apply (flags_of_gesture _ (moving_commits_once props gridOptions)). exact Hflag. }
  destruct Hshape as [->|(u & rest & n & -> & Hflags & Hlen)];
    [left; split; reflexivity|].
  right. exists u, rest. split; [reflexivity|].
  change (App.dispatch stringify (SetItems u true :: rest) s)
    with (App.dispatch stringify rest
            (History.next (History.setState stringify (History.Updater u)
                                            (Some true) s))).
  rewrite (dispatch_transients rest n _ Hflags Hlen).
  split.
  - intros Hdiff.
    destruct (HistoryExtras.one_step_after_commit stringify s items0 (History.Updater u)
                (App.updatersOf rest) Hstate Hdiff) as (Hi & _ & Hr & Hu).
    auto.
  - intros Hsame.
    destruct (HistoryExtras.no_step_after_skipped_commit stringify s items0
                (History.Updater u) (App.updatersOf rest) Hstate Hsame)
      as (Hi & Hl & Hu & _).
    auto.
Qed.

End OnStore.

(** *** Moving *)








(** [Math.round] gives an integer within a half of its argument. *)
Lemma Math_round_near (x : R) :
  exists k : Z, Math_round x = IZR k /\ x - / 2 < IZR k <= x + / 2.
Proof.
  unfold Math_round. exists (Int_part (x + / 2)). split; [reflexivity|].
  destruct (base_Int_part (x + / 2)) as [Hle Hgt]. lra.
Qed.

(** A snapped coordinate is a multiple of the spacing, within half a
    spacing of the coordinate. *)
Lemma snapToGrid_near (gridOptions : GridOptions.t) (v : R) :
  0 < GridOptions.spacing gridOptions ->
  exists k : Z,
    snapToGrid gridOptions v = IZR k * GridOptions.spacing gridOptions /\
    Rabs (snapToGrid gridOptions v - v) <= GridOptions.spacing gridOptions / 2.
Proof.
  intros Hs. unfold snapToGrid.
  destruct (Math_round_near (v / GridOptions.spacing gridOptions)) as (k & -> & Hlo & Hhi).
  exists k. split; [reflexivity|].
  set (sp := GridOptions.spacing gridOptions) in *.
  assert (Hv : v = v / sp * sp) by (field; lra).
  assert (H1 : (IZR k - v / sp) * sp <= / 2 * sp)
    by (apply Rmult_le_compat_r; lra).
  assert (H2 : - / 2 * sp <= (IZR k - v / sp) * sp)
    by (apply Rmult_le_compat_r; lra).
  replace (IZR k * sp - v) with ((IZR k - v / sp) * sp)
    by (rewrite Hv at 2; ring).
  apply Rabs_le. lra.
Qed.

(** X23: moving an image over a visible grid.  Without the shift key the
    image lands on the grid: its [x] and [y] are whole multiples of the
    spacing, each within half a spacing of where the mouse would have put
    it.  With the shift key it goes exactly where the mouse puts it.  Its
    size and rotation are those of the item in the collection. *)
Theorem snapped_move_lands_on_grid (gridOptions : GridOptions.t) (shiftKey : bool)
        (original i : ImageItem.t) (dx dy : R) :
  GridOptions.isVisible gridOptions = true ->
  0 < GridOptions.spacing gridOptions ->
  exists i',
    movedItem gridOptions shiftKey (Image original) dx dy (Image i) = Image i' /\
    ImageItem.width i' = ImageItem.width i /\
    ImageItem.height i' = ImageItem.height i /\
    ImageItem.rotation i' = ImageItem.rotation i /\
    (shiftKey = true ->
     ImageItem.x i' = ImageItem.x original + dx /\
     ImageItem.y i' = ImageItem.y original + dy) /\
    (shiftKey = false ->
     exists kx ky : Z,
       ImageItem.x i' = IZR kx * GridOptions.spacing gridOptions /\
       ImageItem.y i' = IZR ky * GridOptions.spacing gridOptions /\
       Rabs (ImageItem.x i' - (ImageItem.x original + dx))
         <= GridOptions.spacing gridOptions / 2 /\
       Rabs (ImageItem.y i' - (ImageItem.y original + dy))
         <= GridOptions.spacing gridOptions / 2).
Proof.
  intros Hvisible Hs. unfold movedItem. rewrite Hvisible.
  destruct shiftKey; cbn [andb negb getBoundingBox Box.x Box.y withPosition].
  - eexists. split; [reflexivity|]. cbn [ImageItem.width ImageItem.height
      ImageItem.rotation ImageItem.x ImageItem.y].
    split; [reflexivity|]. split; [reflexivity|]. split; [reflexivity|].
    split; [intros _; split; reflexivity|intros Hfalse; discriminate].
  - eexists. split; [reflexivity|]. cbn [ImageItem.width ImageItem.height
      ImageItem.rotation ImageItem.x ImageItem.y].
    split; [reflexivity|]. split; [reflexivity|]. split; [reflexivity|].
    split; [intros Hfalse; discriminate|]. intros _.
    destruct (snapToGrid_near gridOptions (ImageItem.x original + dx) Hs)
      as (kx & Hkx & Hnx).
    destruct (snapToGrid_near gridOptions (ImageItem.y original + dy) Hs)
      as (ky & Hky & Hny).
    exists kx, ky. auto.
Qed.

Lemma Math_min_shift (d : R) (xs : list R) : forall x,
  Math_min (x + d) (map (fun v => v + d) xs) = Math_min x xs + d.
Proof.
  unfold Math_min.
  induction xs as [|y ys IH]; intros x; simpl; [reflexivity|].
  replace (Rmin (x + d) (y + d)) with (Rmin x y + d) by by_cases.
  apply IH.
Qed.

Lemma Math_max_shift (d : R) (xs : list R) : forall x,
  Math_max (x + d) (map (fun v => v + d) xs) = Math_max x xs + d.
Proof.
  unfold Math_max.
  induction xs as [|y ys IH]; intros x; simpl; [reflexivity|].
  replace (Rmax (x + d) (y + d)) with (Rmax x y + d) by by_cases.
  apply IH.
Qed.

(** The box of a drawing whose points are those of another drawing of
    the same stroke width, all shifted by the same offset. *)
Lemma shifted_drawing_box (d d' : DrawingItem.t) (dx dy : R) :
  DrawingItem.points d <> [] ->
  DrawingItem.points d'
    = map (fun p => {| Point.x := Point.x p + dx; Point.y := Point.y p + dy |})
          (DrawingItem.points d) ->
  DrawingItem.strokeWidth d' = DrawingItem.strokeWidth d ->
  getBoundingBox (Drawing d') = App.shiftedBox (getBoundingBox (Drawing d)) dx dy.
Proof.
  intros Hne Hpoints Hstroke. unfold getBoundingBox. rewrite Hpoints, Hstroke.
  destruct (DrawingItem.points d) as [|p ps]; [congruence|].
  cbn [map Point.x Point.y]. cbv zeta. rewrite !map_map.
  cbn [Point.x Point.y].
  rewrite <- (map_map Point.x (fun v => v + dx)).
  rewrite <- (map_map Point.y (fun v => v + dy)).
  rewrite !Math_min_shift, !Math_max_shift.
  unfold App.shiftedBox. cbn [Box.x Box.y Box.width Box.height].
  f_equal; try ring; f_equal; ring.
Qed.

(** X24: moving a drawing that has points moves its bounding box and
    keeps the size of the box.  With no snapping the box is shifted by
    the offset of the mouse; with snapping the top-left corner of the box
    is what lands on the grid. *)
Theorem moved_drawing_box (gridOptions : GridOptions.t) (shiftKey : bool)
        (original d : DrawingItem.t) (dx dy : R) :
  DrawingItem.points original <> [] ->
  DrawingItem.strokeWidth d = DrawingItem.strokeWidth original ->
  getBoundingBox (movedItem gridOptions shiftKey (Drawing original) dx dy (Drawing d))
  = {| Box.x :=
         (if GridOptions.isVisible gridOptions && negb shiftKey
          then snapToGrid gridOptions (Box.x (getBoundingBox (Drawing original)) + dx)
          else Box.x (getBoundingBox (Drawing original)) + dx);
       Box.y :=
         (if GridOptions.isVisible gridOptions && negb shiftKey
          then snapToGrid gridOptions (Box.y (getBoundingBox (Drawing original)) + dy)
          else Box.y (getBoundingBox (Drawing original)) + dy);
       Box.width := Box.width (getBoundingBox (Drawing original));
       Box.height := Box.height (getBoundingBox (Drawing original)) |}.
Proof.
  intros Hne Hstroke. unfold movedItem. cbv zeta. unfold withPoints.
  erewrite (shifted_drawing_box original); [|exact Hne|reflexivity|exact Hstroke].
  unfold App.shiftedBox.
  destruct (GridOptions.isVisible gridOptions && negb shiftKey);
    f_equal; ring.
Qed.

(** *** The marquee *)

Lemma finishSelecting_cleared (items : list CanvasItem) (rect : Box.t) :
  Box.width rect <= 5 \/ Box.height rect <= 5 ->
  finishSelecting items rect = (OnSelectionChange None [], false).
Proof.
  intros Hsmall. unfold finishSelecting.
  destruct (List.filter _ items) as [|first others]; [reflexivity|].
  destruct Hsmall as [Hw|Hh].
  - rewrite (proj2 (Rltb_false _ _) Hw). reflexivity.
  - rewrite (proj2 (Rltb_false _ _) Hh). rewrite andb_false_r. reflexivity.
Qed.

(** X25: the marquee drawn by a pointer move has the point of mouse down
    and the current point as opposite corners, whichever way the mouse
    went.  If the mouse is released when it has gone 5 units or less in
    either direction, the selection is cleared whatever lies under the
    marquee, and the gesture is over. *)
Theorem short_marquee_drag_selects_nothing
        (props : Props) (g : Gesture) (move up : MouseEvent) (start : Point.t) :
  interactionMode g = Selecting ->
  startPoint g = Some start ->
  transientSelectionRect (handleMouseMove_selecting props g move)
    = Some (marqueeRect start (getCanvasPoint props move)) /\
  Box.x (marqueeRect start (getCanvasPoint props move))
    = Rmin (Point.x start) (Point.x (getCanvasPoint props move)) /\
  Box.x (marqueeRect start (getCanvasPoint props move))
  + Box.width (marqueeRect start (getCanvasPoint props move))
    = Rmax (Point.x start) (Point.x (getCanvasPoint props move)) /\
  Box.y (marqueeRect start (getCanvasPoint props move))
    = Rmin (Point.y start) (Point.y (getCanvasPoint props move)) /\
  Box.y (marqueeRect start (getCanvasPoint props move))
  + Box.height (marqueeRect start (getCanvasPoint props move))
    = Rmax (Point.y start) (Point.y (getCanvasPoint props move)) /\
  (Rabs (Point.x (getCanvasPoint props move) - Point.x start) <= 5 \/
   Rabs (Point.y (getCanvasPoint props move) - Point.y start) <= 5 ->
   snd (handleMouseUp props (handleMouseMove_selecting props g move) up)
     = [OnSelectionChange None []] /\
   interactionMode (fst (handleMouseUp props (handleMouseMove_selecting props g move) up))
     = ModeNone /\
   transientSelectionRect
     (fst (handleMouseUp props (handleMouseMove_selecting props g move) up))
     = None).
Proof.
  intros Hmode Hstart.
  assert (Hmove : handleMouseMove_selecting props g move
                  = withTransientSelectionRect g
                      (Some (marqueeRect start (getCanvasPoint props move)))).
  { unfold handleMouseMove_selecting. rewrite Hmode, Hstart. reflexivity. }
  rewrite Hmove. split; [reflexivity|].
  generalize (getCanvasPoint props move). intros point.
  unfold marqueeRect. cbn [Box.x Box.y Box.width Box.height].
  split; [reflexivity|]. split; [by_cases|]. split; [reflexivity|]. split; [by_cases|].
  intros Hshort.
  rewrite (mouse_up_selecting props _ up
             {| Box.x := Rmin (Point.x start) (Point.x point);
                Box.y := Rmin (Point.y start) (Point.y point);
                Box.width := Rabs (Point.x point - Point.x start);
                Box.height := Rabs (Point.y point - Point.y start) |});
    [|exact Hmode|reflexivity].
  rewrite finishSelecting_cleared by exact Hshort.
  split; [reflexivity|].
  unfold handleMouseUp. cbn [withTransientSelectionRect interactionMode].
  rewrite Hmode. split; reflexivity.
Qed.

End CanvasExtras.

(** * Properties of the application's edits and view *)

Module AppExtras.

Import Num Geometry Canvas Gestures App GeometryFacts CanvasFacts.
Local Open Scope R_scope.

(** *** Order of the collection and hit-testing *)

Section Order.

Open Scope nat_scope.

Variables (ghosted : list string) (point : Point.t).

(** The loop over the first [n] items does not look further. *)
Lemma find_from_prefix (l r : list CanvasItem) (n : nat) :
  n <= length l ->
  findItemAtPoint_from (l ++ r) ghosted point n
  = findItemAtPoint_from l ghosted point n.
Proof.
  induction n as [|n IH]; intros Hn; [reflexivity|].
  simpl. rewrite lookup_app_l by lia. rewrite IH by lia. reflexivity.
Qed.

(** The loop with one more item on top. *)
Lemma find_with_top (l : list CanvasItem) (top : CanvasItem) :
  findItemAtPoint_from (l ++ [top]) ghosted point (length (l ++ [top]))
  = if bool_decide (itemId top ∈ ghosted)
    then findItemAtPoint_from l ghosted point (length l)
    else if hitsItem point top then Some top
         else findItemAtPoint_from l ghosted point (length l).
Proof.
  rewrite length_app. simpl length.
  replace (length l + 1) with (S (length l)) by lia.
  simpl. rewrite list_lookup_middle by reflexivity.
  rewrite find_from_prefix by lia. reflexivity.
Qed.

(** The loop with one more item at the bottom. *)
Lemma find_with_bottom (l : list CanvasItem) (bottom : CanvasItem) (n : nat) :
  n <= length l ->
  findItemAtPoint_from (bottom :: l) ghosted point (S n)
  = match findItemAtPoint_from l ghosted point n with
    | Some other => Some other
    | None =>
        if bool_decide (itemId bottom ∈ ghosted) then None
        else if hitsItem point bottom then Some bottom else None
    end.
Proof.
  induction n as [|n IH]; intros Hn.
  - simpl. destruct (bool_decide _); [reflexivity|].
    destruct (hitsItem point bottom); reflexivity.
  - change (findItemAtPoint_from (bottom :: l) ghosted point (S (S n)))
      with (match l !! n with
            | None => None
            | Some item =>
                if bool_decide (itemId item ∈ ghosted)
                then findItemAtPoint_from (bottom :: l) ghosted point (S n)
                else if hitsItem point item then Some item
                     else findItemAtPoint_from (bottom :: l) ghosted point (S n)
            end).
    rewrite IH by lia. simpl.
    destruct (lookup_lt_is_Some_2 l n) as [item Hitem]; [lia|]. rewrite Hitem.
    destruct (bool_decide (itemId item ∈ ghosted)); [reflexivity|].
    destruct (hitsItem point item); reflexivity.
Qed.

End Order.

(** X26: the z-order actions and hit-testing.  After [bringToFront] the
    item is what [findItemAtPoint] returns wherever the item passes the
    hit test (unless it is ghosted); elsewhere, and after
    [deleteContextItem] everywhere, the answer is the one given by the
    other items.  After [sendToBack] the item is returned only where no
    other item is. *)
Theorem z_order_actions_and_hit_test (props : Props) (item : CanvasItem) (point : Point.t) :
  findItemAtPoint (withItems props (applyCalls (bringToFront (Some item)) (items props))) point
  = (if bool_decide (itemId item ∈ ghostedItemIds props)
     then findItemAtPoint (withItems props (applyCalls (deleteContextItem (Some item)) (items props))) point
     else if hitsItem point item then Some item
          else findItemAtPoint (withItems props (applyCalls (deleteContextItem (Some item)) (items props)))
                               point) /\
  findItemAtPoint (withItems props (applyCalls (sendToBack (Some item)) (items props))) point
  = match findItemAtPoint (withItems props (applyCalls (deleteContextItem (Some item)) (items props))) point
    with
    | Some other => Some other
    | None =>
        if bool_decide (itemId item ∈ ghostedItemIds props) then None
        else if hitsItem point item then Some item else None
    end /\
  (forall other,
     findItemAtPoint (withItems props (applyCalls (deleteContextItem (Some item)) (items props))) point
       = Some other ->
     itemId other <> itemId item).
Proof.
  change (applyCalls (bringToFront (Some item)) (items props))
    with (bringToFrontUpdater item (items props)).
  change (applyCalls (sendToBack (Some item)) (items props))
    with (sendToBackUpdater item (items props)).
  change (applyCalls (deleteContextItem (Some item)) (items props))
    with (withoutId (itemId item) (items props)).
  unfold findItemAtPoint, withItems, bringToFrontUpdater, sendToBackUpdater.
  cbn [items ghostedItemIds].
  split; [apply find_with_top|]. split.
  - change (length (item :: withoutId (itemId item) (items props)))
      with (S (length (withoutId (itemId item) (items props)))).
    apply find_with_bottom. lia.
  - intros other Hfind.
    destruct (findItemAtPoint_from_Some _ _ _ _ _ Hfind) as (k & _ & Hlook & _).
    assert (Hin : In other (withoutId (itemId item) (items props))).
    { apply list_elem_of_In. eapply list_elem_of_lookup_2. exact Hlook. }
    unfold withoutId in Hin. apply filter_In in Hin. destruct Hin as [_ Hne].
    apply negb_true_iff in Hne. apply String.eqb_neq in Hne. exact Hne.
Qed.

(** X27: hit-testing while a preview is pending and after it is
    accepted.  With the items to replace ghosted, [findItemAtPoint] on
    the collection answers as it would, with nothing ghosted, on the
    collection without those items; once the preview is accepted the new
    image is on top of exactly those remaining items, so it is returned
    wherever it passes the hit test and the earlier answer is returned
    elsewhere. *)
Theorem accepted_preview_and_hit_test (props : Props) (preview : ImagePreview)
        (point : Point.t) :
  findItemAtPoint (withPreview props (Some preview)) point
  = findItemAtPoint
      (withPreview
         (withItems props
            (List.filter
               (fun item =>
                  negb (bool_decide (itemId item ∈ map itemId (itemsToReplace preview))))
               (items props)))
         None)
      point /\
  findItemAtPoint
    (withPreview
       (withItems props (applyCalls (handleAcceptPreview (Some preview)) (items props)))
       None)
    point
  = (if hitsItem point (Image (newImage preview)) then Some (Image (newImage preview))
     else findItemAtPoint (withPreview props (Some preview)) point).
Proof.
  change (applyCalls (handleAcceptPreview (Some preview)) (items props))
    with (List.filter
            (fun item =>
               negb (bool_decide (itemId item ∈ map itemId (itemsToReplace preview))))
            (items props) ++ [Image (newImage preview)]).
  unfold findItemAtPoint, withPreview, withItems, ghostedIdsOf.
  cbn [items ghostedItemIds].
  set (ids := map itemId (itemsToReplace preview)).
  assert (Hsame : forall l,
             findItemAtPoint_from l ids point (length l)
             = findItemAtPoint_from
                 (List.filter (fun item => negb (bool_decide (itemId item ∈ ids))) l)
                 [] point
                 (length (List.filter
                            (fun item => negb (bool_decide (itemId item ∈ ids))) l))).
  { intros l. induction l as [|top l IH] using rev_ind; [reflexivity|].
    rewrite find_with_top, List.filter_app. cbn [List.filter].
    destruct (bool_decide (itemId top ∈ ids)) eqn:Hg; cbn [negb].
    - rewrite app_nil_r. exact IH.
    - rewrite find_with_top.
      rewrite (bool_decide_eq_false_2 (itemId top ∈ [])) by apply not_elem_of_nil.
      rewrite IH. reflexivity. }
  split; [apply Hsame|].
  rewrite find_with_top.
  rewrite bool_decide_eq_false_2 by apply not_elem_of_nil.
  rewrite <- Hsame. reflexivity.
Qed.

(** *** The view *)

(** X28: the wheel zooms about the cursor.  The new zoom lies between
    0.1 and 5, and with the new zoom and pan the canvas point under the
    mouse is the one that was under it before, the canvas filling the
    element that handles the wheel and the zoom being positive. *)
Theorem wheel_zooms_about_cursor (props : Props) (targetRect : Point.t)
        (wheel : WheelEvent) (e : MouseEvent) :
  0 < zoom props ->
  canvasRect props = Some targetRect ->
  clientX e = wheelClientX wheel ->
  clientY e = wheelClientY wheel ->
  1 / 10 <= fst (handleWheel (zoom props) (pan props) targetRect wheel) <= 5 /\
  getCanvasPoint
    (withView props (handleWheel (zoom props) (pan props) targetRect wheel)) e
  = getCanvasPoint props e.
Proof.
  intros Hzoom Hrect Hx Hy. unfold getCanvasPoint, withView, handleWheel.
  cbn [canvasRect zoom pan fst snd]. rewrite Hrect, Hx, Hy.
  cbn [Point.x Point.y].
  set (clamped := Rmax (1 / 10) (Rmin (zoom props + - deltaY wheel * (1 / 10) * (5 / 100)) 5)).
  assert (Hclamped : 1 / 10 <= clamped <= 5) by (unfold clamped; by_cases).
  clearbody clamped. split; [exact Hclamped|].
  f_equal; field; lra.
Qed.

(** *** Copies and selections *)

(** X29: the copy made by [duplicateItem] of an item that has a place on
    the canvas has the item's box shifted by [20 / zoom] both ways, the
    item's rotation, and the id made from the item's type and the clock;
    it is hit at a point exactly when the item is hit at the point
    [20 / zoom] to the left and above.  The copy goes on top of the
    collection, which is otherwise unchanged. *)
Theorem duplicate_is_shifted_copy (zoom : R) (now : string) (item : CanvasItem)
        (prev : list CanvasItem) :
  hasPlace item ->
  getBoundingBox (duplicateOf zoom now item)
    = shiftedBox (getBoundingBox item) (20 / zoom) (20 / zoom) /\
  itemRotation (duplicateOf zoom now item) = itemRotation item /\
  itemId (duplicateOf zoom now item) = itemType item +:+ "_" +:+ now /\
  (forall p,
     hitsItem {| Point.x := Point.x p + 20 / zoom; Point.y := Point.y p + 20 / zoom |}
              (duplicateOf zoom now item)
     = hitsItem p item) /\
  applyCalls (duplicateItem zoom now item) prev = prev ++ [duplicateOf zoom now item].
Proof.
  intros Hplace.
  assert (Hbox : getBoundingBox (duplicateOf zoom now item)
                 = shiftedBox (getBoundingBox item) (20 / zoom) (20 / zoom)).
  { destruct item as [i|t|d|v]; try reflexivity.
    apply CanvasExtras.shifted_drawing_box; [exact Hplace|reflexivity|reflexivity]. }
  assert (Hrot : itemRotation (duplicateOf zoom now item) = itemRotation item)
    by (destruct item; reflexivity).
  split; [exact Hbox|]. split; [exact Hrot|].
  split; [destruct item; reflexivity|]. split; [|reflexivity].
  intros p. unfold hitsItem. cbv zeta. rewrite Hbox, Hrot.
  destruct (getBoundingBox item) as [x y w h].
  unfold shiftedBox, getCenter, rotatePoint.
  cbn [Box.x Box.y Box.width Box.height Point.x Point.y].
  set (C := cos (- itemRotation item * PI / 180)).
  set (S := sin (- itemRotation item * PI / 180)).
  clearbody C S. set (o := 20 / zoom). clearbody o.
  by_cases.
Qed.

(** X30: [selectAllItems] does nothing on an empty collection; otherwise
    it selects every item, and the selection rectangle is the union of
    the items' rotated bounding boxes, so each of them lies within it. *)
Theorem select_all_covers_every_item (items : list CanvasItem) :
  (items = [] -> selectAllItems items = None) /\
  (items <> [] ->
   exists rect,
     selectAllItems items = Some (rect, items) /\
     exactUnion rect (map getRotatedBoundingBox items) /\
     forall item, In item items -> boxInside (getRotatedBoundingBox item) rect).
Proof.
  split; [intros ->; reflexivity|].
  intros Hne. destruct items as [|first others]; [congruence|].
  exists (encompassingRect first others). split; [reflexivity|].
  pose proof (encompassingRect_exact first others) as Hunion.
  split; [exact Hunion|].
  intros item Hin. destruct Hunion as [Hall _].
  destruct (Hall (getRotatedBoundingBox item) (in_map _ _ _ Hin)) as (H1 & H2 & H3 & H4).
  unfold boxInside. auto.
Qed.

End AppExtras.

(** * The extra properties at sample inputs *)

Module ExtrasAtSamples.

Import Num Geometry Canvas Gestures App GeometryFacts CanvasFacts.
Local Open Scope R_scope.

Lemma unrotated_item_keeps_its_box_witness :
  getRotatedBoundingBox (Image Scenario.square) = getBoundingBox (Image Scenario.square).
Proof.
  apply GeometryExtras.unrotated_item_keeps_its_box; simpl; [reflexivity|lra|lra].
Defined.

Lemma centre_of_square_is_hit :
  hitsItem {| Point.x := 50; Point.y := 50 |} (Image Scenario.square) = true.
Proof.
  unfold hitsItem. cbv zeta.
  change (itemRotation (Image Scenario.square)) with 0.
  rewrite Ropp_0, rotatePoint_0. simpl. by_cases.
Defined.

Lemma hit_point_lies_in_rotated_box_witness :
  hitsItem {| Point.x := 50; Point.y := 50 |} (Image Scenario.square) = true /\
  isPointInBox {| Point.x := 50; Point.y := 50 |}
               (getRotatedBoundingBox (Image Scenario.square)) = true.
Proof.
  split; [exact centre_of_square_is_hit|].
  exact (GeometryExtras.hit_point_lies_in_rotated_box _ _ centre_of_square_is_hit).
Defined.

Lemma drawing_box_pads_its_points_witness :
  In {| Point.x := 18; Point.y := 18 |} (DrawingItem.points Scenario.stroke) /\
  DrawingItem.strokeWidth Scenario.stroke
    <= Box.width (getBoundingBox (Drawing Scenario.stroke)).
Proof.
  assert (Hin : In {| Point.x := 18; Point.y := 18 |} (DrawingItem.points Scenario.stroke))
    by (simpl; auto).
  assert (Hs : 0 <= DrawingItem.strokeWidth Scenario.stroke) by (simpl; lra).
  split; [exact Hin|].
  exact (proj1 (proj2 (proj2 (proj2 (proj2
           (GeometryExtras.drawing_box_pads_its_points Scenario.stroke _ Hin Hs)))))).
Defined.

Lemma dot_has_positive_stroke : 0 < DrawingItem.strokeWidth Scenario.dot.
Proof. simpl. lra. Defined.

Lemma drawing_export_outcomes_witness :
  0 < DrawingItem.strokeWidth Scenario.dot /\
  CanvasUtils.convertDrawingToImageItem (fun _ _ => false) (fun _ _ => "data:image/png")
                                        Scenario.dot
  = None.
Proof.
  split; [exact dot_has_positive_stroke|].
  apply (proj1 (CanvasUtilsExtras.drawing_export_outcomes
                  (fun _ _ => false) (fun _ _ => "data:image/png") Scenario.dot
                  dot_has_positive_stroke)).
  right. reflexivity.
Defined.

Lemma expansion_gesture_reports_containing_rect_witness :
  expansionIsActive Samples.expansionProps = true /\
  exists rect,
    snd (handleMouseUp Samples.expansionProps
           (fold_left (handleMouseMove_expanding Samples.expansionProps)
                      [Scenario.mouseAt 130 50; Scenario.mouseAt 160 50]
                      (handleInteractionStart Samples.expansionProps Scenario.idle
                         (Scenario.mouseAt 100 50) H_e
                         (inr (getRotatedBoundingBox (Image Scenario.square)))))
           (Scenario.mouseAt 160 50))
      = [OnExpansionAreaDefined rect H_e; OnInteractionEnd] /\
    boxInside (getRotatedBoundingBox (Image Scenario.square)) rect.
Proof.
  split; [reflexivity|].
  destruct (CanvasExtras.expansion_gesture_reports_containing_rect
              Samples.expansionProps Scenario.idle
              (Scenario.mouseAt 100 50) (Scenario.mouseAt 160 50)
              [Scenario.mouseAt 130 50; Scenario.mouseAt 160 50] H_e
              (inr (getRotatedBoundingBox (Image Scenario.square)))
              Scenario.square eq_refl eq_refl) as (rect & Hcalls & Hin & _).
  exists rect. split; [exact Hcalls|exact Hin].
Defined.

Lemma mouse_at_150 :
  getCanvasPoint (Scenario.props [Image Scenario.square]) (Scenario.mouseAt 150 150)
  = {| Point.x := 150; Point.y := 150 |}.
Proof. unfold getCanvasPoint. simpl. f_equal; lra. Defined.

Lemma corner_of_square :
  oppositeCornerOf H_se (Image Scenario.square) = {| Point.x := 0; Point.y := 0 |}.
Proof.
  unfold oppositeCornerOf. change (itemRotation (Image Scenario.square)) with 0.
  rewrite rotatePoint_0. unfold cornerOf. simpl. f_equal; lra.
Defined.

Lemma offset_at_150 :
  localOffset (ImageItem.rotation Scenario.square)
              (oppositeCornerOf H_se (Image Scenario.square))
              (getCanvasPoint (Scenario.props [Image Scenario.square])
                              (Scenario.mouseAt 150 150))
  = {| Point.x := 150; Point.y := 150 |}.
Proof.
  rewrite mouse_at_150, corner_of_square. unfold localOffset.
  change (ImageItem.rotation Scenario.square) with 0.
  rewrite Ropp_0, rotatePoint_0. simpl. f_equal; lra.
Defined.

Lemma resize_keeps_opposite_corner_witness :
  10 <= Point.x (localOffset (ImageItem.rotation Scenario.square)
                             (oppositeCornerOf H_se (Image Scenario.square))
                             (getCanvasPoint (Scenario.props [Image Scenario.square])
                                             (Scenario.mouseAt 150 150))) /\
  exists g' i',
    resizeMoves (Scenario.props [Image Scenario.square]) [Scenario.mouseAt 150 150]
                (handleInteractionStart (Scenario.props [Image Scenario.square])
                   Scenario.idle (Scenario.mouseAt 100 100) H_se
                   (inl (Image Scenario.square)))
                [Image Scenario.square]
      = (g', [Image i']) /\
    oppositeCornerOf H_se (Image i') = oppositeCornerOf H_se (Image Scenario.square).
Proof.
  assert (Hx : 10 <= Point.x (localOffset (ImageItem.rotation Scenario.square)
                               (oppositeCornerOf H_se (Image Scenario.square))
                               (getCanvasPoint (Scenario.props [Image Scenario.square])
                                               (Scenario.mouseAt 150 150))))
    by (rewrite offset_at_150; simpl; lra).
  assert (Hy : 10 <= Point.y (localOffset (ImageItem.rotation Scenario.square)
                               (oppositeCornerOf H_se (Image Scenario.square))
                               (getCanvasPoint (Scenario.props [Image Scenario.square])
                                               (Scenario.mouseAt 150 150))))
    by (rewrite offset_at_150; simpl; lra).
  split; [exact Hx|].
  assert (Hhandle : H_se <> H_rotate) by discriminate.
  destruct (CanvasExtras.resize_keeps_opposite_corner
              (Scenario.props [Image Scenario.square]) Scenario.idle
              (Scenario.mouseAt 100 100) (Scenario.mouseAt 150 150) H_se
              Scenario.square eq_refl Hhandle eq_refl Hx Hy)
    as (g' & i' & Hmoves & _ & _ & _ & Hcorner).
  exists g', i'. split; [exact Hmoves|exact Hcorner].
Defined.

(** A drag of the grabbed square over two pointer positions makes two
    calls. *)
Lemma drag_makes_two_calls (x1 y1 x2 y2 : R) :
  gestureCalls (handleMouseMove_moving (Scenario.props [Image Scenario.square])
                                       Samples.grid10)
               [Scenario.mouseAt x1 y1; Scenario.mouseAt x2 y2] Samples.grabbedSquare
  = [SetItems (moveUpdater Samples.grid10 false (Image Scenario.square)
                 (OrigMoved (Image Scenario.square))
                 (Point.x (getCanvasPoint (Scenario.props [Image Scenario.square])
                                          (Scenario.mouseAt x1 y1)) - 50)
                 (Point.y (getCanvasPoint (Scenario.props [Image Scenario.square])
                                          (Scenario.mouseAt x1 y1)) - 50))
              true;
     SetItems (moveUpdater Samples.grid10 false (Image Scenario.square)
                 (OrigMoved (Image Scenario.square))
                 (Point.x (getCanvasPoint (Scenario.props [Image Scenario.square])
                                          (Scenario.mouseAt x2 y2)) - 50)
                 (Point.y (getCanvasPoint (Scenario.props [Image Scenario.square])
                                          (Scenario.mouseAt x2 y2)) - 50))
              false].
Proof. reflexivity. Defined.

Lemma gesture_commits_once_witness :
  gestureDidCommit Samples.grabbedSquare = false /\
  commitFlags
    (gestureCalls (handleMouseMove_moving (Scenario.props [Image Scenario.square])
                                          Samples.grid10)
                  [Scenario.mouseAt 60 70; Scenario.mouseAt 70 90]
                  Samples.grabbedSquare)
  = [true; false].
Proof.
  split; [reflexivity|].
  destruct (proj2 (CanvasExtras.gesture_commits_once
                     (Scenario.props [Image Scenario.square]) Samples.grid10
                     [Scenario.mouseAt 60 70; Scenario.mouseAt 70 90]
                     Samples.grabbedSquare eq_refl))
    as [Hnil|(u & rest & Hcalls & Hflags)].
  - rewrite drag_makes_two_calls in Hnil. discriminate.
  - rewrite Hcalls. simpl. rewrite Hflags.
    rewrite drag_makes_two_calls in Hcalls. injection Hcalls as _ <-. reflexivity.
Defined.

Lemma Int_part_of_integer (z : Z) : Int_part (IZR z) = z.
Proof. symmetry. apply Int_part_spec. lra. Defined.

(** On the grid of spacing 10 a coordinate snaps to the multiple of 10
    nearest to it. *)
Lemma snap_on_grid10 (v : R) (k : Z) :
  IZR k * 10 - 5 <= v < IZR k * 10 + 5 ->
  snapToGrid Samples.grid10 v = IZR (k * 10).
Proof.
  intros Hv. unfold snapToGrid, Math_round.
  cbn [GridOptions.spacing Samples.grid10].
  rewrite <- (Int_part_spec (v / 10 + / 2) k); [rewrite mult_IZR; reflexivity|].
  lra.
Defined.

(** What the serialiser writes for the square after a drag to the client
    position [(x, y)]. *)
Lemma dragged_square_place (x y : R) (a b : Z) :
  IZR a * 10 - 5 <= x - 50 < IZR a * 10 + 5 ->
  IZR b * 10 - 5 <= y - 50 < IZR b * 10 + 5 ->
  Samples.stringifyPlaces
    (moveUpdater Samples.grid10 false (Image Scenario.square)
       (OrigMoved (Image Scenario.square))
       (Point.x (getCanvasPoint (Scenario.props [Image Scenario.square])
                                (Scenario.mouseAt x y)) - 50)
       (Point.y (getCanvasPoint (Scenario.props [Image Scenario.square])
                                (Scenario.mouseAt x y)) - 50)
       [Image Scenario.square])
  = Samples.stringifyPlace (Image (Scenario.image "square" (IZR (a * 10)) (IZR (b * 10))
                                                  100 100 0)).
Proof.
  intros Hx Hy.
  unfold moveUpdater. cbn [map]. 
  change (String.eqb (itemId (Image Scenario.square)) (itemId (Image Scenario.square)))
    with true. cbn [negb].
  unfold movedItem. cbn [GridOptions.isVisible Samples.grid10 andb negb].
  cbv zeta.
  rewrite (snap_on_grid10 _ a), (snap_on_grid10 _ b).
  - reflexivity.
  - unfold getCanvasPoint. simpl. lra.
  - unfold getCanvasPoint. simpl. lra.
Defined.

Lemma place_after_long_drag :
  Samples.stringifyPlace
    (Image (Scenario.image "square" (IZR (1 * 10)) (IZR (2 * 10)) 100 100 0))
  <> Samples.stringifyPlaces [Image Scenario.square].
Proof.
  unfold Samples.stringifyPlaces, Samples.stringifyPlace.
  cbn [map getBoundingBox Scenario.square Scenario.image Box.x Box.y
       ImageItem.x ImageItem.y].
  rewrite !Int_part_of_integer. vm_compute. discriminate.
Defined.

Lemma place_after_short_drag :
  Samples.stringifyPlace
    (Image (Scenario.image "square" (IZR (0 * 10)) (IZR (0 * 10)) 100 100 0))
  = Samples.stringifyPlaces [Image Scenario.square].
Proof.
  unfold Samples.stringifyPlaces, Samples.stringifyPlace.
  cbn [map getBoundingBox Scenario.square Scenario.image Box.x Box.y
       ImageItem.x ImageItem.y].
  rewrite !Int_part_of_integer. vm_compute. reflexivity.
Defined.

Lemma gesture_on_store_witness :
  gestureDidCommit Samples.grabbedSquare = false /\
  History.state (History.initial [Image Scenario.square]) = Some [Image Scenario.square] /\
  (History.index
     (App.dispatch Samples.stringifyPlaces
        (gestureCalls (handleMouseMove_moving (Scenario.props [Image Scenario.square])
                                              Samples.grid10)
                      [Scenario.mouseAt 60 70; Scenario.mouseAt 70 90]
                      Samples.grabbedSquare)
        (History.initial [Image Scenario.square])) = 1%nat /\
   History.canRedo
     (App.dispatch Samples.stringifyPlaces
        (gestureCalls (handleMouseMove_moving (Scenario.props [Image Scenario.square])
                                              Samples.grid10)
                      [Scenario.mouseAt 60 70; Scenario.mouseAt 70 90]
                      Samples.grabbedSquare)
        (History.initial [Image Scenario.square])) = false /\
   History.state
     (History.next (History.undo
        (App.dispatch Samples.stringifyPlaces
           (gestureCalls (handleMouseMove_moving (Scenario.props [Image Scenario.square])
                                                 Samples.grid10)
                         [Scenario.mouseAt 60 70; Scenario.mouseAt 70 90]
                         Samples.grabbedSquare)
           (History.initial [Image Scenario.square]))))
   = Some [Image Scenario.square]) /\
  (History.index
     (App.dispatch Samples.stringifyPlaces
        (gestureCalls (handleMouseMove_moving (Scenario.props [Image Scenario.square])
                                              Samples.grid10)
                      [Scenario.mouseAt 52 53; Scenario.mouseAt 70 90]
                      Samples.grabbedSquare)
        (History.initial [Image Scenario.square])) = 0%nat /\
   length (History.history
     (App.dispatch Samples.stringifyPlaces
        (gestureCalls (handleMouseMove_moving (Scenario.props [Image Scenario.square])
                                              Samples.grid10)
                      [Scenario.mouseAt 52 53; Scenario.mouseAt 70 90]
                      Samples.grabbedSquare)
        (History.initial [Image Scenario.square]))) = 1%nat /\
   History.canUndo
     (App.dispatch Samples.stringifyPlaces
        (gestureCalls (handleMouseMove_moving (Scenario.props [Image Scenario.square])
                                              Samples.grid10)
                      [Scenario.mouseAt 52 53; Scenario.mouseAt 70 90]
                      Samples.grabbedSquare)
        (History.initial [Image Scenario.square])) = false).
Proof.
  split; [reflexivity|]. split; [reflexivity|]. split.
  - destruct (CanvasExtras.gesture_on_store Samples.stringifyPlaces
                (Scenario.props [Image Scenario.square]) Samples.grid10
                [Scenario.mouseAt 60 70; Scenario.mouseAt 70 90] Samples.grabbedSquare
                (History.initial [Image Scenario.square]) [Image Scenario.square]
                _ eq_refl eq_refl (or_intror eq_refl))
      as [[Hnil _]|(u & rest & Hcalls & Hchanged & _)].
    + rewrite drag_makes_two_calls in Hnil. discriminate.
    + apply Hchanged. rewrite drag_makes_two_calls in Hcalls.
      injection Hcalls as <- _.
      intros Hsame. apply place_after_long_drag.
      rewrite <- (dragged_square_place 60 70 1 2) by lra. exact Hsame.
  - destruct (CanvasExtras.gesture_on_store Samples.stringifyPlaces
                (Scenario.props [Image Scenario.square]) Samples.grid10
                [Scenario.mouseAt 52 53; Scenario.mouseAt 70 90] Samples.grabbedSquare
                (History.initial [Image Scenario.square]) [Image Scenario.square]
                _ eq_refl eq_refl (or_intror eq_refl))
      as [[Hnil _]|(u & rest & Hcalls & _ & Hskipped)].
    + rewrite drag_makes_two_calls in Hnil. discriminate.
    + apply Hskipped. rewrite drag_makes_two_calls in Hcalls.
      injection Hcalls as <- _.
      refine (eq_trans (dragged_square_place 52 53 0 0 _ _) place_after_short_drag); lra.
Defined.

Lemma grid10_is_positive : 0 < GridOptions.spacing Samples.grid10.
Proof. simpl. lra. Defined.

Lemma snapped_move_lands_on_grid_witness :
  GridOptions.isVisible Samples.grid10 = true /\
  exists i',
    movedItem Samples.grid10 false (Image Scenario.square) 13 27 (Image Scenario.square)
      = Image i' /\
    ImageItem.width i' = 100.
Proof.
  split; [reflexivity|].
  destruct (CanvasExtras.snapped_move_lands_on_grid Samples.grid10 false
              Scenario.square Scenario.square 13 27 eq_refl grid10_is_positive)
    as (i' & Hmoved & Hw & _).
  exists i'. split; [exact Hmoved|exact Hw].
Defined.

Lemma stroke_has_points : DrawingItem.points Scenario.stroke <> [].
Proof. discriminate. Defined.

Lemma moved_drawing_box_witness :
  DrawingItem.points Scenario.stroke <> [] /\
  Box.width (getBoundingBox
               (movedItem Samples.grid10 true (Drawing Scenario.stroke) 7 9
                          (Drawing Scenario.stroke)))
  = Box.width (getBoundingBox (Drawing Scenario.stroke)).
Proof.
  split; [exact stroke_has_points|].
  rewrite (CanvasExtras.moved_drawing_box Samples.grid10 true Scenario.stroke
             Scenario.stroke 7 9 stroke_has_points eq_refl).
  reflexivity.
Defined.

Lemma short_marquee_drag_selects_nothing_witness :
  interactionMode
    (Scenario.selecting {| Box.x := 9; Box.y := 9; Box.width := 0; Box.height := 0 |})
    = Selecting /\
  transientSelectionRect
    (handleMouseMove_selecting
       (Scenario.props [Image Scenario.left_tile])
       (Scenario.selecting {| Box.x := 9; Box.y := 9; Box.width := 0; Box.height := 0 |})
       (Scenario.mouseAt 12 12))
  = Some (marqueeRect {| Point.x := 9; Point.y := 9 |}
            (getCanvasPoint (Scenario.props [Image Scenario.left_tile])
                            (Scenario.mouseAt 12 12))).
Proof.
  split; [reflexivity|].
  exact (proj1 (CanvasExtras.short_marquee_drag_selects_nothing
                  (Scenario.props [Image Scenario.left_tile])
                  (Scenario.selecting
                     {| Box.x := 9; Box.y := 9; Box.width := 0; Box.height := 0 |})
                  (Scenario.mouseAt 12 12) (Scenario.mouseAt 12 12)
                  {| Point.x := 9; Point.y := 9 |} eq_refl eq_refl)).
Defined.

Lemma zoom_is_positive : 0 < zoom (Scenario.props []).
Proof. simpl. lra. Defined.

Lemma wheel_zooms_about_cursor_witness :
  0 < zoom (Scenario.props []) /\
  getCanvasPoint
    (withView (Scenario.props [])
       (handleWheel (zoom (Scenario.props [])) (pan (Scenario.props []))
                    {| Point.x := 0; Point.y := 0 |} Samples.wheelNotch))
    (Scenario.mouseAt 40 30)
  = getCanvasPoint (Scenario.props []) (Scenario.mouseAt 40 30).
Proof.
  split; [exact zoom_is_positive|].
  exact (proj2 (AppExtras.wheel_zooms_about_cursor (Scenario.props [])
                  {| Point.x := 0; Point.y := 0 |} Samples.wheelNotch
                  (Scenario.mouseAt 40 30) zoom_is_positive eq_refl eq_refl eq_refl)).
Defined.

Lemma duplicate_is_shifted_copy_witness :
  hasPlace (Drawing Scenario.stroke) /\
  getBoundingBox (duplicateOf 2 "1700000000000" (Drawing Scenario.stroke))
  = shiftedBox (getBoundingBox (Drawing Scenario.stroke)) (20 / 2) (20 / 2).
Proof.
  split; [exact stroke_has_points|].
  exact (proj1 (AppExtras.duplicate_is_shifted_copy 2 "1700000000000"
                  (Drawing Scenario.stroke) [] stroke_has_points)).
Defined.

End ExtrasAtSamples.
